(** * Context reconciliation of pnpm's [@pnpm/get-context]

    A shallow embedding of [pkg-manager/get-context/src/index.ts]:
    the modules validator ([validateModules]), the purge engine
    ([purgeModulesDirsOfImporter], [removeContentsOfDir]), the path
    resolver ([getExtraNodePaths]) and the two context builders
    ([getContext], [getContextForSingleImporter]).

    Asynchronous code is embedded in a state-and-exception monad over the
    file system, which also records the calls made to the outside world.
    The tasks of a [Promise.all] are embedded with their [await]s: they
    are all started before any awaited operation completes, and the
    operations then complete in an order that the event loop chooses.
    Everything the module imports (node's [path] and [fs], [rimraf],
    [readProjectsContext], [checkCompatibility], [readLockfiles], ...) is
    a member of the [Collaborators] interface, as is the choice of the
    event loop, and stays abstract in every theorem; a small concrete
    instance is used for the worked examples. *)

From Stdlib Require Import Ascii String List Bool Arith Lia.
From stdpp Require Import base option strings gmap.
Import ListNotations.

Local Open Scope string_scope.
Local Open Scope list_scope.

(** ** Thrown values *)

(** What [fs.readdir] and [rimraf] throw: an errno-style error whose
    [code] is inspected by [purgeModulesDirsOfImporter]. *)
Record SystemError := { code : string }.

Inductive JsError :=
| PnpmError (errCode message : string)
| FsError (e : SystemError)
| TypeError (message : string)
| ForeignError (errCode : string).

Inductive result (E A : Type) :=
| Ok (a : A)
| Throw (e : E).
Arguments Ok {E A} a.
Arguments Throw {E A} e.

(** ** Observable calls

    What a run leaves behind, in order: the records handed to the loggers
    ([logger.info], [packageManifestLogger.debug] without its manifest
    payload, [contextLogger.debug]) and the calls made to the
    collaborators.  The two [Enter...] events are instrumentation: they
    mark the entry into the function of that name, where the source emits
    nothing. *)

Inductive Event :=
| LoggerInfo (message prefix : string)
| PackageManifestDebug (prefix : string)
| ContextDebug (currentLockfileExists : bool) (storeDir virtualStoreDir : string)
| CallReaddir (dir : string)
| CallRimraf (path : string)
| CallMkdir (path : string)
| CallReadProjectsContext (lockfileDir : string) (modulesDir : option string)
| CallReadLockfiles (lockfileDir : string)
| CallReadPackageHook (dir : option string)
| EnterValidateModules
| EnterGetContextForSingleImporter (alreadyPurged : bool).

Definition is_enter_validate (ev : Event) : bool :=
  match ev with EnterValidateModules => true | _ => false end.

Definition is_read_projects (ev : Event) : bool :=
  match ev with CallReadProjectsContext _ _ => true | _ => false end.

Definition is_enter_single (ev : Event) : bool :=
  match ev with EnterGetContextForSingleImporter _ => true | _ => false end.

(** ** Data of the install descriptor and of the options *)

(** [DependenciesField] of [@pnpm/types]. *)
Inductive DependenciesField :=
| optionalDependencies
| dependencies
| devDependencies.

Definition field_name (f : DependenciesField) : string :=
  match f with
  | optionalDependencies => "optionalDependencies"
  | dependencies => "dependencies"
  | devDependencies => "devDependencies"
  end.

(** [IncludedDependencies]: one boolean per dependencies field. *)
Record IncludedDependencies := {
  inc_dependencies : bool;
  inc_devDependencies : bool;
  inc_optionalDependencies : bool;
}.

Definition included_get (i : IncludedDependencies) (f : DependenciesField) : bool :=
  match f with
  | optionalDependencies => inc_optionalDependencies i
  | dependencies => inc_dependencies i
  | devDependencies => inc_devDependencies i
  end.

(** [Registries]: a plain object from scope to URL.  Ramda's [equals] on
    such objects is equality of finite maps. *)
Abbreviation Registries := (gmap string string).

(** [Modules] of [@pnpm/modules-yaml], the persisted descriptor. *)
Record Modules := {
  m_hoistPattern : option (list string);
  m_publicHoistPattern : option (list string);
  m_included : option IncludedDependencies;
  m_registries : option Registries;
  m_storeDir : string;
  m_virtualStoreDir : string;
  m_layoutVersion : nat;
  m_pendingBuilds : list string;
  m_skipped : list string;
}.

(** A JS [boolean | undefined] used as a condition. *)
Definition truthy (b : option bool) : bool :=
  match b with
  | Some true => true
  | _ => false
  end.

(** [x || undefined] at type [string[] | undefined]: every array, the
    empty one included, is truthy in JS, so the array is kept. *)
Definition or_undefined (x : option (list string)) : option (list string) :=
  match x with
  | Some l => Some l
  | None => None
  end.

(** [x?.length] used as a condition. *)
Definition has_length (x : option (list string)) : bool :=
  match x with
  | Some l => negb (Nat.eqb (length l) 0)
  | None => false
  end.

(** Ramda's [equals] on [string[] | undefined]. *)
Definition equals_pattern (a b : option (list string)) : bool :=
  bool_decide (a = b).

(** Ramda's [equals] on registries. *)
Definition equals_registries (a b : Registries) : bool :=
  bool_decide (a = b).

(** The double quote character, for the error messages. *)
Definition dquote : string :=
  String (Ascii.Ascii false true false false false true false false) EmptyString.

(** [Array.prototype.join]. *)
Fixpoint join_strings (sep : string) (l : list string) : string :=
  match l with
  | [] => ""
  | [x] => x
  | x :: rest => x +:+ sep +:+ join_strings sep rest
  end.

(** Projects as [readProjectsContext] returns them; [T] is whatever the
    caller attached to each project. *)
Record Project (T : Type) := {
  p_id : string;
  p_modulesDir : string;
  p_rootDir : string;
  p_binsDir : string;
  p_extra : T;
}.
Arguments p_id {T} _.
Arguments p_modulesDir {T} _.
Arguments p_rootDir {T} _.
Arguments p_binsDir {T} _.
Arguments p_extra {T} _.

(** What the caller hands to [readProjectsContext]. *)
Record ProjectInput (T : Type) := {
  pi_rootDir : string;
  pi_modulesDir : option string;
  pi_binsDir : option string;
  pi_extra : T;
}.
Arguments pi_rootDir {T} _.
Arguments pi_modulesDir {T} _.
Arguments pi_binsDir {T} _.
Arguments pi_extra {T} _.

(** [nodeLinker: 'isolated' | 'hoisted' | 'pnp'] *)
Inductive NodeLinker :=
| isolated
| hoisted
| pnp.

Definition NodeLinker_eqb (a b : NodeLinker) : bool :=
  match a, b with
  | isolated, isolated | hoisted, hoisted | pnp, pnp => true
  | _, _ => false
  end.

(** The importer shape accepted by [purgeModulesDirsOfImporter]. *)
Record Importer := {
  modulesDir : string;
  rootDir : string;
}.

Definition importer_of {T} (p : Project T) : Importer :=
  {| modulesDir := p_modulesDir p; rootDir := p_rootDir p |}.

(** Options of [checkCompatibility]. *)
Record CompatOpts := {
  co_modulesDir : string;
  co_storeDir : string;
  co_virtualStoreDir : string;
}.

(** ** The outside world *)

Class OpaqueData := {
  FS : Type;
  ProjectManifest : Type;
  Lockfile : Type;
  HoistedDependencies : Type;
}.

Section Data.
Context `{OpaqueData}.

(** Result of [readProjectsContext]. *)
Record ImportersContext (T : Type) := {
  ic_currentHoistPattern : option (list string);
  ic_currentPublicHoistPattern : option (list string);
  ic_hoistedDependencies : HoistedDependencies;
  ic_projects : list (Project T);
  ic_include : IncludedDependencies;
  ic_modules : option Modules;
  ic_pendingBuilds : list string;
  ic_registries : option Registries;
  ic_rootModulesDir : string;
  ic_skipped : gset string;
}.

(** Result of [readLockfiles]. *)
Record LockfilesResult := {
  currentLockfile : Lockfile;
  currentLockfileIsUpToDate : bool;
  existsCurrentLockfile : bool;
  existsWantedLockfile : bool;
  lockfileHadConflicts : bool;
  wantedLockfile : Lockfile;
  wantedLockfileIsModified : bool;
}.

(** Options of [readLockfiles]. *)
Record ReadLockfilesOpts := {
  rl_autoInstallPeers : bool;
  rl_force : bool;
  rl_forceSharedLockfile : bool;
  rl_frozenLockfile : bool;
  rl_lockfileDir : string;
  rl_projects : list (string * string);
  rl_registry : option string;
  rl_useLockfile : bool;
  rl_useGitBranchLockfile : option bool;
  rl_mergeGitBranchLockfiles : option bool;
  rl_virtualStoreDir : string;
  rl_useLockfileV6 : option bool;
}.

(** What [ProjectOptions & HookOptions] adds to the paths of a project. *)
Record ProjectExtra := {
  buildIndex : nat;
  manifest : ProjectManifest;
  originalManifest : option ProjectManifest;
}.

End Data.

Arguments ic_currentHoistPattern {_ T} _.
Arguments ic_currentPublicHoistPattern {_ T} _.
Arguments ic_hoistedDependencies {_ T} _.
Arguments ic_projects {_ T} _.
Arguments ic_include {_ T} _.
Arguments ic_modules {_ T} _.
Arguments ic_pendingBuilds {_ T} _.
Arguments ic_registries {_ T} _.
Arguments ic_rootModulesDir {_ T} _.
Arguments ic_skipped {_ T} _.

(** Everything [index.ts] imports, and the event loop it runs on. *)
Class Collaborators `{OpaqueData} := {
  (* node:path, path-absolute *)
  path_join : string -> string -> string;
  path_relative : string -> string -> string;
  pathAbsolute : string -> string -> string;
  (* node:fs, @zkochan/rimraf *)
  fs_readdir : string -> FS -> result SystemError (list string);
  fs_rimraf : string -> FS -> result SystemError unit * FS;
  fs_mkdir : string -> FS -> result JsError unit * FS;
  (* ./checkCompatibility: returns what it throws, if anything *)
  checkCompatibility : Modules -> CompatOpts -> option JsError;
  (* @pnpm/read-projects-context *)
  readProjectsContext :
    forall T, list (ProjectInput T) -> string -> option string -> FS ->
              result JsError (ImportersContext T);
  (* ./readLockfiles *)
  readLockfiles : ReadLockfilesOpts -> FS -> result JsError LockfilesResult;
  (* @pnpm/types *)
  DEPENDENCIES_FIELDS : list DependenciesField;
  (* JSON.stringify on registries *)
  JSON_stringify : Registries -> string;
  (* the event loop: for an await site of [Promise.all] and the file
     system its tasks start in, which of the waiting tasks has the
     operation it awaits completed next, time after time *)
  completion_order : string -> FS -> list nat;
}.

(** ** The monad of asynchronous code

    A computation of [M] is code whose [await]s are all waited for before
    anything else of the module runs: from the file system it starts in
    it gives what it returns or throws, the file system it leaves and
    the calls it made, in order. *)

Section Monad.
Context `{Collaborators}.

Definition M (E A : Type) : Type := FS -> result E A * FS * list Event.

Definition ret {E A} (a : A) : M E A := fun s => (Ok a, s, []).

Definition throw {E A} (e : E) : M E A := fun s => (Throw e, s, []).

Definition bind {E A B} (m : M E A) (k : A -> M E B) : M E B :=
  fun s =>
    match m s with
    | (Ok a, s1, t1) =>
        match k a s1 with
        | (r, s2, t2) => (r, s2, t1 ++ t2)
        end
    | (Throw e, s1, t1) => (Throw e, s1, t1)
    end.

(** [try { m } catch (err) { h err }] *)
Definition try_catch {E E' A} (m : M E A) (h : E -> M E' A) : M E' A :=
  fun s =>
    match m s with
    | (Ok a, s1, t1) => (Ok a, s1, t1)
    | (Throw e, s1, t1) =>
        match h e s1 with
        | (r, s2, t2) => (r, s2, t1 ++ t2)
        end
    end.

Definition emit {E} (ev : Event) : M E unit := fun s => (Ok tt, s, [ev]).

(** [for (const x of l) { body x }] *)
Fixpoint for_of {E A} (l : list A) (body : A -> M E unit) : M E unit :=
  match l with
  | [] => ret tt
  | x :: rest => bind (body x) (fun _ => for_of rest body)
  end.

Definition outcome {E A} (r : result E A * FS * list Event) : result E A :=
  fst (fst r).
Definition final_fs {E A} (r : result E A * FS * list Event) : FS :=
  snd (fst r).
Definition events {E A} (r : result E A * FS * list Event) : list Event :=
  snd r.

(** *** Tasks that run side by side

    Inside [Promise.all] the calls of an [async] function are not waited
    for one after another, so where a task gives way matters.  A task is
    settled, or it goes on with code that runs at once ([Now]), or it
    waits for an operation it has started ([Later]): the operation takes
    effect, and the code after the [await] runs, when the event loop
    delivers its completion. *)

Inductive Async (E A : Type) : Type :=
| Settled (r : result E A)
| Now {E' X : Type} (m : M E' X) (k : result E' X -> Async E A)
| Later {E' X : Type} (m : M E' X) (k : result E' X -> Async E A).
Arguments Settled {E A} r.
Arguments Now {E A E' X} m k.
Arguments Later {E A E' X} m k.

Definition a_ret {E A} (a : A) : Async E A := Settled (Ok a).

Definition a_throw {E A} (e : E) : Async E A := Settled (Throw e).

(** Code that runs without giving way. *)
Definition now {E A} (m : M E A) : Async E A := Now m Settled.

(** An operation whose completion is awaited. *)
Definition later {E A} (m : M E A) : Async E A := Later m Settled.

Fixpoint a_bind {E A B} (t : Async E A) (f : A -> Async E B) : Async E B :=
  match t with
  | Settled (Ok a) => f a
  | Settled (Throw e) => Settled (Throw e)
  | Now m k => Now m (fun x => a_bind (k x) f)
  | Later m k => Later m (fun x => a_bind (k x) f)
  end.

(** [try { t } catch (err) { h err }] *)
Fixpoint a_try_catch {E E' A} (t : Async E A) (h : E -> Async E' A) : Async E' A :=
  match t with
  | Settled (Ok a) => Settled (Ok a)
  | Settled (Throw e) => h e
  | Now m k => Now m (fun x => a_try_catch (k x) h)
  | Later m k => Later m (fun x => a_try_catch (k x) h)
  end.

(** [for (const x of l) { body x }] *)
Fixpoint a_for_of {E A} (l : list A) (body : A -> Async E unit) : Async E unit :=
  match l with
  | [] => a_ret tt
  | x :: rest => a_bind (body x) (fun _ => a_for_of rest body)
  end.

(** [await t], with nothing else running: every operation completes as
    soon as it is awaited. *)
Fixpoint await {E A} (t : Async E A) (s : FS) : result E A * FS * list Event :=
  match t with
  | Settled r => (r, s, [])
  | Now m k | Later m k =>
      match m s with
      | (x, s1, t1) =>
          match await (k x) s1 with
          | (r, s2, t2) => (r, s2, t1 ++ t2)
          end
      end
  end.

(** The code of a task up to the point where it settles or gives way. *)
Fixpoint advance {E A} (t : Async E A) (s : FS) : Async E A * FS * list Event :=
  match t with
  | Now m k =>
      match m s with
      | (x, s1, t1) =>
          match advance (k x) s1 with
          | (t', s2, t2) => (t', s2, t1 ++ t2)
          end
      end
  | _ => (t, s, [])
  end.

(** The completion of the operation a task waits for: the operation takes
    effect and the task goes on to where it settles or gives way again. *)
Definition resume {E A} (t : Async E A) (s : FS) : Async E A * FS * list Event :=
  match t with
  | Later m k =>
      match m s with
      | (x, s1, t1) =>
          match advance (k x) s1 with
          | (t', s2, t2) => (t', s2, t1 ++ t2)
          end
      end
  | _ => (t, s, [])
  end.

Definition pending {E A} (t : Async E A) : bool :=
  match t with
  | Later _ _ => true
  | _ => false
  end.

Definition settled {E A} (t : Async E A) : bool :=
  match t with
  | Settled _ => true
  | _ => false
  end.

(** What a task has rejected with, if it has. *)
Definition rejection {E A} (t : Async E A) : list E :=
  match t with
  | Settled (Throw e) => [e]
  | _ => []
  end.

Definition thrown {E A} (r : result E A) : list E :=
  match r with
  | Ok _ => []
  | Throw e => [e]
  end.

Definition value {E A} (r : result E A) : option A :=
  match r with
  | Ok a => Some a
  | Throw _ => None
  end.

(** [l.map(async (x) => ...)]: the tasks are started one after another,
    each running up to its first [await]. *)
Fixpoint start_all {E A} (ts : list (Async E A)) (s : FS)
  : list (Async E A) * FS * list Event :=
  match ts with
  | [] => ([], s, [])
  | t :: rest =>
      match advance t s with
      | (t', s1, t1) =>
          match start_all rest s1 with
          | (rest', s2, t2) => (t' :: rest', s2, t1 ++ t2)
          end
      end
  end.

(** The event loop delivers the completion awaited by the [n]-th of the
    tasks that wait (nothing happens when fewer tasks wait); the last
    component is the rejection of the task, if it rejects now. *)
Fixpoint deliver {E A} (n : nat) (ts : list (Async E A)) (s : FS)
  : list (Async E A) * FS * list Event * list E :=
  match ts with
  | [] => ([], s, [], [])
  | t :: rest =>
      if pending t then
        match n with
        | O =>
            match resume t s with
            | (t', s', t1) => (t' :: rest, s', t1, rejection t')
            end
        | S n' =>
            match deliver n' rest s with
            | (rest', s', t1, rej) => (t :: rest', s', t1, rej)
            end
        end
      else
        match deliver n rest s with
        | (rest', s', t1, rej) => (t :: rest', s', t1, rej)
        end
  end.

Fixpoint deliveries {E A} (order : list nat) (ts : list (Async E A)) (s : FS)
  : list (Async E A) * FS * list Event * list E :=
  match order with
  | [] => (ts, s, [], [])
  | n :: order' =>
      match deliver n ts s with
      | (ts1, s1, t1, rej1) =>
          match deliveries order' ts1 s1 with
          | (ts2, s2, t2, rej2) => (ts2, s2, t1 ++ t2, rej1 ++ rej2)
          end
      end
  end.

(** The tasks that still wait are brought to their end one after
    another; the last component is the rejections met on the way. *)
Fixpoint drain {E A} (ts : list (Async E A)) (s : FS)
  : list (result E A) * FS * list Event * list E :=
  match ts with
  | [] => ([], s, [], [])
  | t :: rest =>
      match await t s with
      | (r, s1, t1) =>
          match drain rest s1 with
          | (rs, s2, t2, rej) =>
              (r :: rs, s2, t1 ++ t2, (if settled t then [] else thrown r) ++ rej)
          end
      end
  end.

(** [await Promise.all(l.map(async (x) => body x))] at the await site
    [site].  Every task is started, in list order, before any awaited
    operation completes; the completions are then delivered in the order
    the event loop chooses, [completion_order site s], and the
    operations still awaited after that complete task by task.  The
    promise is fulfilled with the values of the tasks, in list order,
    when none rejects, and rejected with the first rejection in time
    otherwise.  Nothing cancels the other tasks then: what they go on to
    do is part of the events and of the file system of the result,
    although the caller has its rejection before. *)
Definition promise_all_map {E A B} (site : string) (l : list A) (body : A -> Async E B)
  : M E (list B) :=
  fun s =>
    match start_all (map body l) s with
    | (ts1, s1, t1) =>
        match deliveries (completion_order site s1) ts1 s1 with
        | (ts2, s2, t2, rej2) =>
            match drain ts2 s2 with
            | (rs, s3, t3, rej3) =>
                (match flat_map rejection ts1 ++ rej2 ++ rej3 with
                 | e :: _ => Throw e
                 | [] => Ok (omap value rs)
                 end,
                 s3, t1 ++ t2 ++ t3)
            end
        end
    end.

End Monad.

Arguments Settled {_ E A} r.
Arguments Now {_ E A E' X} m k.
Arguments Later {_ E A E' X} m k.

Declare Scope js_scope.
Delimit Scope js_scope with js.
Notation "x <- m ;; k" := (bind m (fun x => k))
  (at level 100, m at next level, right associativity) : js_scope.
Notation "m ;; k" := (bind m (fun _ => k))
  (at level 100, right associativity) : js_scope.

Declare Scope async_scope.
Delimit Scope async_scope with async.
Notation "x <- t ;; k" := (a_bind t (fun x => k))
  (at level 100, t at next level, right associativity) : async_scope.
Notation "t ;; k" := (a_bind t (fun _ => k))
  (at level 100, right associativity) : async_scope.

(** ** The module itself *)

Section GetContext.
Context `{Collaborators}.
Local Open Scope js_scope.

(** *** Calls to the collaborators *)

Definition readdir (dir : string) : M SystemError (list string) :=
  fun s =>
    match fs_readdir dir s with
    | Ok items => (Ok items, s, [CallReaddir dir])
    | Throw e => (Throw e, s, [CallReaddir dir])
    end.

Definition rimraf (p : string) : M SystemError unit :=
  fun s =>
    match fs_rimraf p s with
    | (r, s') => (r, s', [CallRimraf p])
    end.

Definition mkdir_recursive (p : string) : M JsError unit :=
  fun s =>
    match fs_mkdir p s with
    | (r, s') => (r, s', [CallMkdir p])
    end.

(** *** Purge engine *)

Definition dirsAreEqual (dir1 dir2 : string) : bool :=
  String.eqb (path_relative dir1 dir2) "".

(** The condition of the [continue] in [removeContentsOfDir]. *)
Definition is_kept (dir virtualStoreDir item : string) : bool :=
  String.prefix "." item &&
  negb (String.eqb item ".bin") &&
  negb (String.eqb item ".modules.yaml") &&
  negb (dirsAreEqual (path_join dir item) virtualStoreDir).

Definition removeContentsOfDir (dir virtualStoreDir : string) : M SystemError unit :=
  items <- readdir dir ;;
  for_of items (fun item =>
    if is_kept dir virtualStoreDir item
    then ret tt
    else rimraf (path_join dir item)).

Definition purgeModulesDirsOfImporter (virtualStoreDir : string) (importer : Importer)
  : M JsError unit :=
  emit (LoggerInfo ("Recreating " +:+ modulesDir importer) (rootDir importer)) ;;
  try_catch
    (removeContentsOfDir (modulesDir importer) virtualStoreDir)
    (fun err =>
       if negb (String.eqb (code err) "ENOENT") then throw (FsError err) else ret tt).

(** The same two functions as tasks of a [Promise.all], where it shows
    that [fs.readdir] and [rimraf] are called at once and complete
    later. *)

(** [await fs.readdir(dir)] *)
Definition await_readdir (dir : string) : Async SystemError (list string) :=
  (now (emit (CallReaddir dir)) ;;
   later (fun s => (fs_readdir dir s, s, [])))%async.

(** [await rimraf(p)] *)
Definition await_rimraf (p : string) : Async SystemError unit :=
  (now (emit (CallRimraf p)) ;;
   later (fun s => match fs_rimraf p s with (r, s') => (r, s', []) end))%async.

Definition removeContentsOfDir_task (dir virtualStoreDir : string) : Async SystemError unit :=
  (items <- await_readdir dir ;;
   a_for_of items (fun item =>
     if is_kept dir virtualStoreDir item
     then a_ret tt
     else await_rimraf (path_join dir item)))%async.

Definition purgeModulesDirsOfImporter_task (virtualStoreDir : string) (importer : Importer)
  : Async JsError unit :=
  (now (emit (LoggerInfo ("Recreating " +:+ modulesDir importer) (rootDir importer))) ;;
   a_try_catch
     (removeContentsOfDir_task (modulesDir importer) virtualStoreDir)
     (fun err =>
        if negb (String.eqb (code err) "ENOENT") then a_throw (FsError err) else a_ret tt))%async.

(** *** Path resolver *)

Definition getExtraNodePaths
    (extendNodePath : option bool) (hoistPattern : option (list string))
    (nodeLinker : NodeLinker) (virtualStoreDir : string) : list string :=
  let extendNodePath := default true extendNodePath in
  if extendNodePath && NodeLinker_eqb nodeLinker isolated && has_length hoistPattern
  then [path_join virtualStoreDir "node_modules"]
  else [].

(** *** Modules validator *)

Record ValidateOpts := {
  vo_currentHoistPattern : option (list string);
  vo_currentPublicHoistPattern : option (list string);
  vo_forceNewModules : bool;
  vo_include : option IncludedDependencies;
  vo_lockfileDir : string;
  vo_modulesDir : string;
  vo_registries : Registries;
  vo_storeDir : string;
  vo_virtualStoreDir : string;
  vo_hoistPattern : option (list string);
  vo_forceHoistPattern : option bool;
  vo_publicHoistPattern : option (list string);
  vo_forcePublicHoistPattern : option bool;
  vo_global : option bool;
}.

Record ValidateResult := { purged : bool }.

Definition stringifyIncludedDeps (included : IncludedDependencies) : string :=
  join_strings ", " (map field_name (List.filter (included_get included) DEPENDENCIES_FIELDS)).

Definition PUBLIC_HOIST_PATTERN_DIFF : JsError :=
  PnpmError "PUBLIC_HOIST_PATTERN_DIFF"
    ("This modules directory was created using a different public-hoist-pattern value." +:+
     " Run " +:+ dquote +:+ "pnpm install" +:+ dquote +:+ " to recreate the modules directory.").

Definition HOIST_PATTERN_DIFF : JsError :=
  PnpmError "HOIST_PATTERN_DIFF"
    ("This modules directory was created using a different hoist-pattern value." +:+
     " Run " +:+ dquote +:+ "pnpm install" +:+ dquote +:+ " to recreate the modules directory.").

Definition INCLUDED_DEPS_CONFLICT (lockfileDir : string) (included include : IncludedDependencies)
  : JsError :=
  PnpmError "INCLUDED_DEPS_CONFLICT"
    ("modules directory (at " +:+ dquote +:+ lockfileDir +:+ dquote +:+ ") was installed with " +:+
     stringifyIncludedDeps included +:+ ". " +:+
     "Current install wants " +:+ stringifyIncludedDeps include +:+ ".").

Definition REGISTRIES_MISMATCH (recorded requested : Registries) (global : option bool)
  : JsError :=
  PnpmError "REGISTRIES_MISMATCH"
    ("This modules directory was created using the following registries configuration: " +:+
     JSON_stringify recorded +:+ ". The current configuration is " +:+
     JSON_stringify requested +:+
     ". To recreate the modules directory using the new settings, run " +:+
     dquote +:+ "pnpm install" +:+ (if truthy global then " -g" else "") +:+ dquote +:+ ".").

(** [projects.find(({ id }) => id === '.')] *)
Definition find_root {T} (projects : list (Project T)) : option (Project T) :=
  List.find (fun p => String.eqb (p_id p) ".") projects.

(** The body of the [try] run for one project inside [Promise.all]. *)
Definition check_project {T} (modules : Modules) (opts : ValidateOpts)
    (project : Project T) : M JsError unit :=
  match checkCompatibility modules
          {| co_modulesDir := p_modulesDir project;
             co_storeDir := vo_storeDir opts;
             co_virtualStoreDir := vo_virtualStoreDir opts |} with
  | Some err => throw err
  | None => ret tt
  end ;;
  if negb (String.eqb (vo_lockfileDir opts) (p_rootDir project)) then
    match vo_include opts, m_included modules with
    | Some include, Some included =>
        for_of DEPENDENCIES_FIELDS (fun depsField =>
          if negb (Bool.eqb (included_get include depsField) (included_get included depsField))
          then throw (INCLUDED_DEPS_CONFLICT (vo_lockfileDir opts) included include)
          else ret tt)
    | _, _ => ret tt
    end
  else ret tt.

(** One task of the [Promise.all]; the result tells whether the task set
    the shared [purged] variable. *)
Definition validate_project {T} (modules : Modules) (opts : ValidateOpts)
    (project : Project T) : Async JsError bool :=
  a_try_catch
    (now (check_project modules opts project) ;; a_ret false)%async
    (fun err =>
       if negb (vo_forceNewModules opts) then a_throw err
       else
         (purgeModulesDirsOfImporter_task (vo_virtualStoreDir opts) (importer_of project) ;;
          a_ret true)%async).

(** The recorded registries when the registries check fires. *)
Definition mismatched_registries (modules : Modules) (opts : ValidateOpts)
  : option Registries :=
  match m_registries modules with
  | Some recorded =>
      if negb (equals_registries (vo_registries opts) recorded) then Some recorded else None
  | None => None
  end.

Definition public_hoist_differs (modules : Modules) (opts : ValidateOpts) : bool :=
  truthy (vo_forcePublicHoistPattern opts) &&
  negb (equals_pattern (m_publicHoistPattern modules)
                       (or_undefined (vo_publicHoistPattern opts))).

(** The [try]/[catch] on the hoist pattern; the result is the value of
    [purged] after it. *)
Definition validate_hoist_pattern {T} (opts : ValidateOpts)
    (rootProject : option (Project T)) : M JsError bool :=
  match (if truthy (vo_forceHoistPattern opts) then rootProject else None) with
  | Some rootProject =>
      try_catch
        (if negb (equals_pattern (vo_currentHoistPattern opts)
                                 (or_undefined (vo_hoistPattern opts)))
         then throw HOIST_PATTERN_DIFF
         else ret false)
        (fun err =>
           if negb (vo_forceNewModules opts) then throw err
           else
             purgeModulesDirsOfImporter (vo_virtualStoreDir opts) (importer_of rootProject) ;;
             ret true)
  | None => ret false
  end.

Definition fallback_importer (opts : ValidateOpts) : Importer :=
  {| modulesDir := path_join (vo_lockfileDir opts) (vo_modulesDir opts);
     rootDir := vo_lockfileDir opts |}.

Definition validateModules {T} (modules : Modules) (projects : list (Project T))
    (opts : ValidateOpts) : M JsError ValidateResult :=
  emit EnterValidateModules ;;
  let rootProject := find_root projects in
  if public_hoist_differs modules opts then
    match (if vo_forceNewModules opts then rootProject else None) with
    | Some rootProject =>
        purgeModulesDirsOfImporter (vo_virtualStoreDir opts) (importer_of rootProject) ;;
        ret {| purged := true |}
    | None => throw PUBLIC_HOIST_PATTERN_DIFF
    end
  else
    purged0 <- validate_hoist_pattern opts rootProject ;;
    flags <- promise_all_map "projects" projects (validate_project modules opts) ;;
    let purged1 := purged0 || existsb id flags in
    match mismatched_registries modules opts with
    | Some recorded =>
        if vo_forceNewModules opts then
          promise_all_map "registries" projects
            (fun p => purgeModulesDirsOfImporter_task (vo_virtualStoreDir opts)
                        (importer_of p)) ;;
          ret {| purged := true |}
        else throw (REGISTRIES_MISMATCH recorded (vo_registries opts) (vo_global opts))
    | None =>
        (if purged1 && negb (bool_decide (is_Some rootProject))
         then purgeModulesDirsOfImporter (vo_virtualStoreDir opts) (fallback_importer opts)
         else ret tt) ;;
        ret {| purged := purged1 |}
    end.

(** *** Context builders *)

(** [a ?? b] *)
Definition nullish {A} (a b : option A) : option A :=
  match a with
  | Some x => Some x
  | None => b
  end.

(** [{ ...a, ...b }] on registries, [b] possibly absent. *)
Definition spread_registries (a : Registries) (b : option Registries) : Registries :=
  default ∅ b ∪ a.

Definition ReadPackageHook : Type :=
  ProjectManifest -> option string -> FS -> result JsError ProjectManifest * FS.

Definition call_hook (hook : ReadPackageHook) (manifest : ProjectManifest)
    (dir : option string) : M JsError ProjectManifest :=
  fun s =>
    match hook manifest dir s with
    | (r, s') => (r, s', [CallReadPackageHook dir])
    end.

Definition read_projects {T} (projects : list (ProjectInput T)) (lockfileDir : string)
    (modulesDir : option string) : M JsError (ImportersContext T) :=
  fun s =>
    (readProjectsContext T projects lockfileDir modulesDir s, s,
     [CallReadProjectsContext lockfileDir modulesDir]).

Definition read_lockfiles (opts : ReadLockfilesOpts) : M JsError LockfilesResult :=
  fun s => (readLockfiles opts s, s, [CallReadLockfiles (rl_lockfileDir opts)]).

Record GetContextOptions := {
  o_autoInstallPeers : bool;
  o_allProjects : list (ProjectInput ProjectExtra);
  o_force : bool;
  o_forceNewModules : option bool;
  o_forceSharedLockfile : bool;
  o_frozenLockfile : option bool;
  o_extraBinPaths : list string;
  o_extendNodePath : option bool;
  o_lockfileDir : string;
  o_modulesDir : option string;
  o_nodeLinker : NodeLinker;
  o_readPackageHook : option ReadPackageHook;
  o_include : option IncludedDependencies;
  o_registries : Registries;
  o_storeDir : string;
  o_useLockfile : bool;
  o_useGitBranchLockfile : option bool;
  o_mergeGitBranchLockfiles : option bool;
  o_virtualStoreDir : option string;
  o_hoistPattern : option (list string);
  o_forceHoistPattern : option bool;
  o_publicHoistPattern : option (list string);
  o_forcePublicHoistPattern : option bool;
  o_useLockfileV6 : option bool;
  o_global : option bool;
}.

Record PnpmContext := {
  ctx_lockfiles : LockfilesResult;
  ctx_extraBinPaths : list string;
  ctx_extraNodePaths : list string;
  ctx_hoistedDependencies : HoistedDependencies;
  ctx_include : IncludedDependencies;
  ctx_modulesFile : option Modules;
  ctx_pendingBuilds : list string;
  ctx_projects : gmap string (Project ProjectExtra);
  ctx_rootModulesDir : string;
  ctx_hoistPattern : option (list string);
  ctx_hoistedModulesDir : string;
  ctx_publicHoistPattern : option (list string);
  ctx_lockfileDir : string;
  ctx_virtualStoreDir : string;
  ctx_skipped : gset string;
  ctx_storeDir : string;
  ctx_registries : Registries;
}.

(** The loop applying [readPackageHook] to every project. *)
Fixpoint apply_hook (hook : ReadPackageHook) (projects : list (Project ProjectExtra))
  : M JsError (list (Project ProjectExtra)) :=
  match projects with
  | [] => ret []
  | project :: rest =>
      manifest' <- call_hook hook (manifest (p_extra project)) (Some (p_rootDir project)) ;;
      let project' :=
        {| p_id := p_id project;
           p_modulesDir := p_modulesDir project;
           p_rootDir := p_rootDir project;
           p_binsDir := p_binsDir project;
           p_extra := {| buildIndex := buildIndex (p_extra project);
                         manifest := manifest';
                         originalManifest := Some (manifest (p_extra project)) |} |} in
      rest' <- apply_hook hook rest ;;
      ret (project' :: rest')
  end.

(** [Object.fromEntries(projects.map((project) => [project.rootDir, project]))] *)
Definition projects_by_rootDir (projects : list (Project ProjectExtra))
  : gmap string (Project ProjectExtra) :=
  fold_left (fun acc project => <[p_rootDir project := project]> acc) projects ∅.

(** The options [getContext] passes to [validateModules]. *)
Definition getContext_validate_opts (opts : GetContextOptions)
    (modulesDir virtualStoreDir : string)
    (importersContext : ImportersContext ProjectExtra) : ValidateOpts :=
  {| vo_currentHoistPattern := ic_currentHoistPattern importersContext;
     vo_currentPublicHoistPattern := ic_currentPublicHoistPattern importersContext;
     vo_forceNewModules := truthy (o_forceNewModules opts);
     vo_include := o_include opts;
     vo_lockfileDir := o_lockfileDir opts;
     vo_modulesDir := modulesDir;
     vo_registries := o_registries opts;
     vo_storeDir := o_storeDir opts;
     vo_virtualStoreDir := virtualStoreDir;
     vo_forceHoistPattern := o_forceHoistPattern opts;
     vo_hoistPattern := o_hoistPattern opts;
     vo_forcePublicHoistPattern := o_forcePublicHoistPattern opts;
     vo_publicHoistPattern := o_publicHoistPattern opts;
     vo_global := o_global opts |}.

(** Everything [getContext] does after the validation block, from
    [fs.mkdir] to [return ctx]. *)
Definition assemble_context (opts : GetContextOptions) (virtualStoreDir : string)
    (importersContext : ImportersContext ProjectExtra) : M JsError PnpmContext :=
  mkdir_recursive (o_storeDir opts) ;;
  for_of (o_allProjects opts)
    (fun project => emit (PackageManifestDebug (pi_rootDir project))) ;;
  projects <-
    match o_readPackageHook opts with
    | Some hook => apply_hook hook (ic_projects importersContext)
    | None => ret (ic_projects importersContext)
    end ;;
  let extraBinPaths := o_extraBinPaths opts in
  let hoistedModulesDir := path_join virtualStoreDir "node_modules" in
  let extraBinPaths :=
    if has_length (o_hoistPattern opts)
    then path_join hoistedModulesDir ".bin" :: extraBinPaths
    else extraBinPaths in
  let hoistPattern := nullish (ic_currentHoistPattern importersContext) (o_hoistPattern opts) in
  lockfiles <- read_lockfiles
    {| rl_autoInstallPeers := o_autoInstallPeers opts;
       rl_force := o_force opts;
       rl_forceSharedLockfile := o_forceSharedLockfile opts;
       rl_frozenLockfile := truthy (o_frozenLockfile opts);
       rl_lockfileDir := o_lockfileDir opts;
       rl_projects := map (fun p => (p_id p, p_rootDir p)) projects;
       rl_registry := o_registries opts !! "default";
       rl_useLockfile := o_useLockfile opts;
       rl_useGitBranchLockfile := o_useGitBranchLockfile opts;
       rl_mergeGitBranchLockfiles := o_mergeGitBranchLockfiles opts;
       rl_virtualStoreDir := virtualStoreDir;
       rl_useLockfileV6 := o_useLockfileV6 opts |} ;;
  let ctx :=
    {| ctx_lockfiles := lockfiles;
       ctx_extraBinPaths := extraBinPaths;
       ctx_extraNodePaths :=
         getExtraNodePaths (o_extendNodePath opts) hoistPattern (o_nodeLinker opts)
                           virtualStoreDir;
       ctx_hoistedDependencies := ic_hoistedDependencies importersContext;
       ctx_hoistedModulesDir := hoistedModulesDir;
       ctx_hoistPattern := hoistPattern;
       ctx_include := default (ic_include importersContext) (o_include opts);
       ctx_lockfileDir := o_lockfileDir opts;
       ctx_modulesFile := ic_modules importersContext;
       ctx_pendingBuilds := ic_pendingBuilds importersContext;
       ctx_projects := projects_by_rootDir projects;
       ctx_publicHoistPattern :=
         nullish (ic_currentPublicHoistPattern importersContext) (o_publicHoistPattern opts);
       ctx_registries := spread_registries (o_registries opts) (ic_registries importersContext);
       ctx_rootModulesDir := ic_rootModulesDir importersContext;
       ctx_skipped := ic_skipped importersContext;
       ctx_storeDir := o_storeDir opts;
       ctx_virtualStoreDir := virtualStoreDir |} in
  emit (ContextDebug (existsCurrentLockfile (ctx_lockfiles ctx)) (o_storeDir opts)
                     virtualStoreDir) ;;
  ret ctx.

Definition getContext (opts : GetContextOptions) : M JsError PnpmContext :=
  let modulesDir := default "node_modules" (o_modulesDir opts) in
  importersContext <- read_projects (o_allProjects opts) (o_lockfileDir opts) (Some modulesDir) ;;
  let virtualStoreDir :=
    pathAbsolute (default (path_join modulesDir ".pnpm") (o_virtualStoreDir opts))
                 (o_lockfileDir opts) in
  importersContext <-
    match ic_modules importersContext with
    | Some modules =>
        r <- validateModules modules (ic_projects importersContext)
               (getContext_validate_opts opts modulesDir virtualStoreDir importersContext) ;;
        if purged r
        then read_projects (o_allProjects opts) (o_lockfileDir opts) (Some modulesDir)
        else ret importersContext
    | None => ret importersContext
    end ;;
  assemble_context opts virtualStoreDir importersContext.

Record SingleImporterOptions := {
  so_autoInstallPeers : bool;
  so_force : bool;
  so_forceNewModules : option bool;
  so_forceSharedLockfile : bool;
  so_extraBinPaths : list string;
  so_extendNodePath : option bool;
  so_lockfileDir : string;
  so_nodeLinker : NodeLinker;
  so_modulesDir : option string;
  so_readPackageHook : option ReadPackageHook;
  so_include : option IncludedDependencies;
  so_dir : string;
  so_registries : Registries;
  so_storeDir : string;
  so_useLockfile : bool;
  so_useGitBranchLockfile : option bool;
  so_mergeGitBranchLockfiles : option bool;
  so_virtualStoreDir : option string;
  so_hoistPattern : option (list string);
  so_forceHoistPattern : option bool;
  so_publicHoistPattern : option (list string);
  so_forcePublicHoistPattern : option bool;
  so_useLockfileV6 : option bool;
}.

Record PnpmSingleContext := {
  sctx_lockfiles : LockfilesResult;
  sctx_extraBinPaths : list string;
  sctx_extraNodePaths : list string;
  sctx_hoistedDependencies : HoistedDependencies;
  sctx_hoistedModulesDir : string;
  sctx_hoistPattern : option (list string);
  sctx_manifest : ProjectManifest;
  sctx_modulesDir : string;
  sctx_importerId : string;
  sctx_prefix : string;
  sctx_include : IncludedDependencies;
  sctx_modulesFile : option Modules;
  sctx_pendingBuilds : list string;
  sctx_publicHoistPattern : option (list string);
  sctx_registries : Registries;
  sctx_rootModulesDir : string;
  sctx_lockfileDir : string;
  sctx_virtualStoreDir : string;
  sctx_skipped : gset string;
  sctx_storeDir : string;
}.

(** Everything [getContextForSingleImporter] does after the validation
    block, from [fs.mkdir] to [return ctx]. *)
Definition assemble_single (manifest : ProjectManifest) (opts : SingleImporterOptions)
    (ic : ImportersContext unit) (importer : Project unit) (virtualStoreDir : string)
  : M JsError PnpmSingleContext :=
  let storeDir := so_storeDir opts in
  let modulesDir := p_modulesDir importer in
  let importerId := p_id importer in
  mkdir_recursive storeDir ;;
  let extraBinPaths := so_extraBinPaths opts in
  let hoistedModulesDir := path_join virtualStoreDir "node_modules" in
  let extraBinPaths :=
    if has_length (so_hoistPattern opts)
    then path_join hoistedModulesDir ".bin" :: extraBinPaths
    else extraBinPaths in
  let hoistPattern := nullish (ic_currentHoistPattern ic) (so_hoistPattern opts) in
  manifest' <-
    match so_readPackageHook opts with
    | Some hook => call_hook hook manifest None
    | None => ret manifest
    end ;;
  lockfiles <- read_lockfiles
    {| rl_autoInstallPeers := so_autoInstallPeers opts;
       rl_force := so_force opts;
       rl_forceSharedLockfile := so_forceSharedLockfile opts;
       rl_frozenLockfile := false;
       rl_lockfileDir := so_lockfileDir opts;
       rl_projects := [(importerId, so_dir opts)];
       rl_registry := so_registries opts !! "default";
       rl_useLockfile := so_useLockfile opts;
       rl_useGitBranchLockfile := so_useGitBranchLockfile opts;
       rl_mergeGitBranchLockfiles := so_mergeGitBranchLockfiles opts;
       rl_virtualStoreDir := virtualStoreDir;
       rl_useLockfileV6 := so_useLockfileV6 opts |} ;;
  let ctx :=
    {| sctx_lockfiles := lockfiles;
       sctx_extraBinPaths := extraBinPaths;
       sctx_extraNodePaths :=
         getExtraNodePaths (so_extendNodePath opts) hoistPattern (so_nodeLinker opts)
                           virtualStoreDir;
       sctx_hoistedDependencies := ic_hoistedDependencies ic;
       sctx_hoistedModulesDir := hoistedModulesDir;
       sctx_hoistPattern := hoistPattern;
       sctx_importerId := importerId;
       sctx_include := default (ic_include ic) (so_include opts);
       sctx_lockfileDir := so_lockfileDir opts;
       sctx_manifest := manifest';
       sctx_modulesDir := modulesDir;
       sctx_modulesFile := ic_modules ic;
       sctx_pendingBuilds := ic_pendingBuilds ic;
       sctx_prefix := so_dir opts;
       sctx_publicHoistPattern :=
         nullish (ic_currentPublicHoistPattern ic) (so_publicHoistPattern opts);
       sctx_registries := spread_registries (so_registries opts) (ic_registries ic);
       sctx_rootModulesDir := ic_rootModulesDir ic;
       sctx_skipped := ic_skipped ic;
       sctx_storeDir := storeDir;
       sctx_virtualStoreDir := virtualStoreDir |} in
  emit (PackageManifestDebug (so_dir opts)) ;;
  emit (ContextDebug (existsCurrentLockfile (sctx_lockfiles ctx)) (so_storeDir opts)
                     virtualStoreDir) ;;
  ret ctx.

(** The options [getContextForSingleImporter] passes to [validateModules]. *)
Definition single_validate_opts (opts : SingleImporterOptions) (virtualStoreDir : string)
    (ic : ImportersContext unit) : ValidateOpts :=
  {| vo_currentHoistPattern := ic_currentHoistPattern ic;
     vo_currentPublicHoistPattern := ic_currentPublicHoistPattern ic;
     vo_forceNewModules := truthy (so_forceNewModules opts);
     vo_include := so_include opts;
     vo_lockfileDir := so_lockfileDir opts;
     vo_modulesDir := default "node_modules" (so_modulesDir opts);
     vo_registries := so_registries opts;
     vo_storeDir := so_storeDir opts;
     vo_virtualStoreDir := virtualStoreDir;
     vo_forceHoistPattern := so_forceHoistPattern opts;
     vo_hoistPattern := so_hoistPattern opts;
     vo_forcePublicHoistPattern := so_forcePublicHoistPattern opts;
     vo_publicHoistPattern := so_publicHoistPattern opts;
     vo_global := None |}.

(** The recursion of the source is on [alreadyPurged]; here it is driven
    by [fuel], and [None] is returned when the fuel runs out. *)
Fixpoint getContextForSingleImporter (fuel : nat) (manifest : ProjectManifest)
    (opts : SingleImporterOptions) (alreadyPurged : bool)
  : M JsError (option PnpmSingleContext) :=
  match fuel with
  | O => ret None
  | S fuel' =>
      emit (EnterGetContextForSingleImporter alreadyPurged) ;;
      ic <- read_projects
              [ {| pi_rootDir := so_dir opts; pi_modulesDir := None;
                   pi_binsDir := None; pi_extra := tt |} ]
              (so_lockfileDir opts) (so_modulesDir opts) ;;
      match ic_projects ic with
      | [] => throw (TypeError "Cannot read properties of undefined (reading 'modulesDir')")
      | importer :: _ =>
          let virtualStoreDir :=
            pathAbsolute (default "node_modules/.pnpm" (so_virtualStoreDir opts))
                         (so_lockfileDir opts) in
          let finish :=
            ctx <- assemble_single manifest opts ic importer virtualStoreDir ;;
            ret (Some ctx) in
          match ic_modules ic with
          | Some modules =>
              if negb alreadyPurged then
                r <- validateModules modules (ic_projects ic)
                       (single_validate_opts opts virtualStoreDir ic) ;;
                if purged r
                then getContextForSingleImporter fuel' manifest opts true
                else finish
              else finish
          | None => finish
          end
      end
  end.

End GetContext.

(** ** The rules of the specification, in its own words *)

Section Specification.
Context `{Collaborators}.

(** Purge engine: an entry is protected from deletion only if its name
    starts with the hidden-entry marker, is not the reserved executables
    subfolder, is not the reserved descriptor file, and its path does not
    resolve to the virtual store. *)
Definition protected_from_deletion (dir virtualStoreDir item : string) : Prop :=
  (exists rest, item = String "."%char rest) /\
  item <> ".bin" /\
  item <> ".modules.yaml" /\
  path_relative (path_join dir item) virtualStoreDir <> "".

(** The paths of the entries of [dir] that a purge has to remove. *)
Definition purge_targets (dir virtualStoreDir : string) (items : list string) : list string :=
  map (path_join dir)
      (List.filter (fun item => negb (is_kept dir virtualStoreDir item)) items).

(** Applying [rimraf] to a list of paths, whatever each call answers. *)
Definition rimraf_all (paths : list string) (fs : FS) : FS :=
  fold_left (fun s p => snd (fs_rimraf p s)) paths fs.

Definition is_throw {E A} (r : result E A) : bool :=
  match r with
  | Ok _ => false
  | Throw _ => true
  end.

(** Every path of the list can be removed in turn: no [rimraf] fails. *)
Fixpoint removable (paths : list string) (fs : FS) : bool :=
  match paths with
  | [] => true
  | p :: rest =>
      negb (is_throw (fst (fs_rimraf p fs))) && removable rest (snd (fs_rimraf p fs))
  end.

(** What [purgeModulesDirsOfImporter] makes of an error of the removal. *)
Definition ignore_ENOENT (e : SystemError) : result JsError unit :=
  if negb (String.eqb (code e) "ENOENT") then Throw (FsError e) else Ok tt.

(** What a purge of [dir] can come to, whatever else runs beside it:
    the listing fails and nothing is removed; or [dir] is listed and the
    purge targets of the listing are removed in order, all of them, or
    up to a [rimraf] that fails.  A failure ends the purge, with an error
    unless its code is [ENOENT]. *)
Definition purge_run (dir virtualStoreDir : string) (removed : list string)
    (r : result JsError unit) : Prop :=
  (exists s e, fs_readdir dir s = Throw e /\ removed = [] /\ r = ignore_ENOENT e) \/
  (exists s items rest,
     fs_readdir dir s = Ok items /\
     purge_targets dir virtualStoreDir items = removed ++ rest /\
     ((rest = [] /\ r = Ok tt) \/
      (exists before p s' e,
         removed = before ++ [p] /\
         fst (fs_rimraf p s') = Throw e /\
         r = ignore_ENOENT e))).

(** A purge that has started: it waits for the listing of the
    directory. *)
Definition started_purge (virtualStoreDir : string) (importer : Importer)
  : Async JsError unit :=
  a_try_catch
    (items <- later (fun s => (fs_readdir (modulesDir importer) s, s, [])) ;;
     a_for_of items (fun item =>
       if is_kept (modulesDir importer) virtualStoreDir item
       then a_ret tt
       else await_rimraf (path_join (modulesDir importer) item)))%async
    (fun err =>
       if negb (String.eqb (code err) "ENOENT") then a_throw (FsError err) else a_ret tt).

(** What the task of a project reports when its purge comes to [r]. *)
Definition purged_flag (r : result JsError unit) : result JsError bool :=
  match r with
  | Ok _ => Ok true
  | Throw e => Throw e
  end.

(** The first two events of a purge. *)
Definition purge_start (importer : Importer) : list Event :=
  [LoggerInfo ("Recreating " +:+ modulesDir importer) (rootDir importer);
   CallReaddir (modulesDir importer)].

(** A task can run to its end emitting [evs] and settling with [r], for
    some file systems met on the way. *)
Fixpoint Runs {E A} (t : Async E A) (evs : list Event) (r : result E A) : Prop :=
  match t with
  | Settled r' => evs = [] /\ r = r'
  | Now m k | Later m k =>
      exists s x s' t1 t2, m s = (x, s', t1) /\ evs = t1 ++ t2 /\ Runs (k x) t2 r
  end.

(** The tasks of a pool run to their ends as [runs] says. *)
Definition RunsAll {E A} (ts : list (Async E A))
    (runs : list (list Event * result E A)) : Prop :=
  Forall2 (fun t run => Runs t (fst run) (snd run)) ts runs.

(** The result of a [Promise.all] whose tasks have settled with [rs]
    before any of them gave way. *)
Definition all_settled {E A} (rs : list (result E A)) : result E (list A) :=
  match flat_map thrown rs with
  | e :: _ => Throw e
  | [] => Ok (omap value rs)
  end.



(** Path resolver: a non-empty hoist pattern. *)
Definition non_empty_pattern (hoistPattern : option (list string)) : Prop :=
  exists l, hoistPattern = Some l /\ l <> [].

(** The guard of the included-categories comparison for one project. *)
Definition included_check_applies {T} (modules : Modules) (opts : ValidateOpts)
    (project : Project T) : bool :=
  negb (String.eqb (vo_lockfileDir opts) (p_rootDir project)) &&
  bool_decide (is_Some (vo_include opts)) &&
  bool_decide (is_Some (m_included modules)).

(** Two sets of included categories differ on a listed field. *)
Definition categories_differ (a b : IncludedDependencies) : Prop :=
  exists f, In f DEPENDENCIES_FIELDS /\ included_get a f <> included_get b f.

(** What [validateModules] runs between the public-hoist check and the
    registries check; the result is the value of [purged] there. *)
Definition checks_before_registries {T} (modules : Modules) (projects : list (Project T))
    (opts : ValidateOpts) : M JsError bool :=
  (purged0 <- validate_hoist_pattern opts (find_root projects) ;;
   flags <- promise_all_map "projects" projects (validate_project modules opts) ;;
   ret (purged0 || existsb id flags))%js.

(** The purge of every project of the set, side by side. *)
Definition purge_every_project {T} (virtualStoreDir : string) (projects : list (Project T))
  : M JsError (list unit) :=
  promise_all_map "registries" projects
    (fun p => purgeModulesDirsOfImporter_task virtualStoreDir (importer_of p)).

(** Computations that neither touch the file system nor call anything. *)
Definition silent {E A} (m : M E A) : Prop :=
  forall fs, final_fs (m fs) = fs /\ events (m fs) = [].

(** Computations that can only throw what a failing purge throws. *)
Definition throws_only_fs_errors {A} (m : M JsError A) : Prop :=
  forall fs e, outcome (m fs) = Throw e -> exists e', e = FsError e'.

(** The events that mark the control flow of the context builders: an
    entry into [validateModules] or [getContextForSingleImporter], and a
    call of [readProjectsContext]. *)
Definition is_control (ev : Event) : bool :=
  is_enter_validate ev || is_read_projects ev || is_enter_single ev.

(** Computations that emit no control event. *)
Definition plain {E A} (m : M E A) : Prop :=
  forall fs, Forall (fun ev => is_control ev = false) (events (m fs)).

(** Computations all of whose events satisfy [P]. *)
Definition emits {E A} (P : Event -> Prop) (m : M E A) : Prop :=
  forall fs, Forall P (events (m fs)).

(** The events of a purge: its log record, the listing of the directory
    and the removals. *)
Definition touches_modules (ev : Event) : bool :=
  match ev with
  | LoggerInfo _ _ | CallReaddir _ | CallRimraf _ => true
  | _ => false
  end.

(** What the [try] block run for one project comes to: the error it
    throws, if any.  It neither reads nor writes the file system. *)
Definition check_project_outcome {T} (modules : Modules) (opts : ValidateOpts)
    (project : Project T) : result JsError unit :=
  match checkCompatibility modules
          {| co_modulesDir := p_modulesDir project;
             co_storeDir := vo_storeDir opts;
             co_virtualStoreDir := vo_virtualStoreDir opts |} with
  | Some err => Throw err
  | None =>
      if negb (String.eqb (vo_lockfileDir opts) (p_rootDir project)) then
        match vo_include opts, m_included modules with
        | Some include, Some included =>
            if existsb (fun f => negb (Bool.eqb (included_get include f)
                                                (included_get included f)))
                 DEPENDENCIES_FIELDS
            then Throw (INCLUDED_DEPS_CONFLICT (vo_lockfileDir opts) included include)
            else Ok tt
        | _, _ => Ok tt
        end
      else Ok tt
  end.

(** The task of a project once it has started: settled when the checks
    pass or the force flag is not set, waiting for the listing of a purge
    otherwise. *)
Definition started_project {T} (modules : Modules) (opts : ValidateOpts)
    (project : Project T) : Async JsError bool :=
  match check_project_outcome modules opts project with
  | Ok _ => Settled (Ok false)
  | Throw e =>
      if vo_forceNewModules opts
      then (started_purge (vo_virtualStoreDir opts) (importer_of project) ;; a_ret true)%async
      else Settled (Throw e)
  end.

(** The hoist check of [validateModules] lets the call through. *)
Definition hoist_check_passes {T} (projects : list (Project T)) (opts : ValidateOpts) : Prop :=
  truthy (vo_forceHoistPattern opts) = false \/
  find_root projects = None \/
  vo_currentHoistPattern opts = vo_hoistPattern opts.



End Specification.

(** ** A concrete world for the worked examples

    Paths are absolute and already normalised; the file system is a list
    of nodes.  This instance only serves to run the module on concrete
    inputs: no theorem below depends on it. *)

Inductive SimNode :=
| SimDir
| SimFile
| SimDescriptor (m : Modules)
| SimLockedDir.

Definition SimFS : Type := list (string * SimNode).

Definition sim_data : OpaqueData :=
  {| FS := SimFS; ProjectManifest := string; Lockfile := unit; HoistedDependencies := unit |}.

Definition sim_lookup (p : string) (fs : SimFS) : option SimNode :=
  snd <$> List.find (fun n => String.eqb (fst n) p) fs.

Definition sim_join (a b : string) : string := a +:+ "/" +:+ b.

Definition sim_relative (a b : string) : string :=
  if String.eqb a b then "" else "../" +:+ b.

Definition sim_pathAbsolute (p cwd : string) : string :=
  if String.prefix "/" p then p else sim_join cwd p.

(** The name of [p] inside [dir], when [p] is a direct entry of [dir]. *)
Definition sim_entry_name (dir p : string) : option string :=
  if String.prefix (dir +:+ "/") p then
    let name := String.substring (S (String.length dir))
                  (String.length p - S (String.length dir)) p in
    match String.index 0 "/" name with
    | Some _ => None
    | None => Some name
    end
  else None.

Definition sim_readdir (dir : string) (fs : SimFS) : result SystemError (list string) :=
  match sim_lookup dir fs with
  | None => Throw {| code := "ENOENT" |}
  | Some SimDir => Ok (omap (fun n => sim_entry_name dir (fst n)) fs)
  | Some SimLockedDir => Throw {| code := "EACCES" |}
  | Some _ => Throw {| code := "ENOTDIR" |}
  end.

Definition sim_rimraf (p : string) (fs : SimFS) : result SystemError unit * SimFS :=
  match sim_lookup p fs with
  | Some SimLockedDir => (Throw {| code := "EPERM" |}, fs)
  | _ =>
      (Ok tt,
       List.filter (fun n => negb (String.eqb (fst n) p || String.prefix (p +:+ "/") (fst n))) fs)
  end.

Definition sim_mkdir (p : string) (fs : SimFS) : result JsError unit * SimFS :=
  match sim_lookup p fs with
  | Some _ => (Ok tt, fs)
  | None => (Ok tt, fs ++ [(p, SimDir)])
  end.

Definition sim_checkCompatibility (modules : Modules) (opts : CompatOpts) : option JsError :=
  if negb (String.eqb (m_storeDir modules) (co_storeDir opts))
  then Some (PnpmError "UNEXPECTED_STORE" "Unexpected store location")
  else if negb (String.eqb (m_virtualStoreDir modules) (co_virtualStoreDir opts))
  then Some (PnpmError "UNEXPECTED_VIRTUAL_STORE" "Unexpected virtual store location")
  else None.

Definition sim_project {T} (lockfileDir modulesDir : string) (input : ProjectInput T)
  : Project T :=
  {| p_id :=
       if String.eqb (pi_rootDir input) lockfileDir then "."
       else String.substring (S (String.length lockfileDir))
              (String.length (pi_rootDir input) - S (String.length lockfileDir))
              (pi_rootDir input);
     p_modulesDir := sim_join (pi_rootDir input) (default modulesDir (pi_modulesDir input));
     p_rootDir := pi_rootDir input;
     p_binsDir :=
       default (sim_join (sim_join (pi_rootDir input) (default modulesDir (pi_modulesDir input)))
                         ".bin")
               (pi_binsDir input);
     p_extra := pi_extra input |}.

Definition sim_readProjectsContext (T : Type) (projects : list (ProjectInput T))
    (lockfileDir : string) (modulesDir : option string) (fs : SimFS)
  : result JsError (@ImportersContext sim_data T) :=
  let modulesDir := default "node_modules" modulesDir in
  let rootModulesDir := sim_join lockfileDir modulesDir in
  let modules :=
    match sim_lookup (sim_join rootModulesDir ".modules.yaml") fs with
    | Some (SimDescriptor m) => Some m
    | _ => None
    end in
  Ok {| ic_currentHoistPattern := modules ≫= m_hoistPattern;
        ic_currentPublicHoistPattern := modules ≫= m_publicHoistPattern;
        ic_hoistedDependencies := tt : @HoistedDependencies sim_data;
        ic_projects := map (sim_project lockfileDir modulesDir) projects;
        ic_include :=
          default {| inc_dependencies := true; inc_devDependencies := true;
                     inc_optionalDependencies := true |}
                  (modules ≫= m_included);
        ic_modules := modules;
        ic_pendingBuilds := default [] (m_pendingBuilds <$> modules);
        ic_registries := modules ≫= m_registries;
        ic_rootModulesDir := rootModulesDir;
        ic_skipped := ∅ |}.

Definition sim_readLockfiles (opts : @ReadLockfilesOpts) (fs : SimFS)
  : result JsError (@LockfilesResult sim_data) :=
  let exists_current :=
    bool_decide (is_Some (sim_lookup (sim_join (rl_virtualStoreDir opts) "lock.yaml") fs)) in
  let exists_wanted :=
    bool_decide (is_Some (sim_lookup (sim_join (rl_lockfileDir opts) "pnpm-lock.yaml") fs)) in
  Ok {| currentLockfile := tt : @Lockfile sim_data;
        currentLockfileIsUpToDate := exists_current;
        existsCurrentLockfile := exists_current;
        existsWantedLockfile := exists_wanted;
        lockfileHadConflicts := false;
        wantedLockfile := tt : @Lockfile sim_data;
        wantedLockfileIsModified := false |}.

Definition sim_JSON_stringify (r : Registries) : string :=
  "{" +:+ join_strings "," (map (fun kv => fst kv +:+ ":" +:+ snd kv) (map_to_list r)) +:+ "}".

(** The event loop of the examples serves the waiting tasks in turn,
    the last one first. *)
Definition sim_completion_order (site : string) (fs : SimFS) : list nat :=
  [2; 1; 0; 2; 1; 0; 2; 1; 0; 2; 1; 0].

Definition sim_world : @Collaborators sim_data :=
  {| path_join := sim_join;
     path_relative := sim_relative;
     pathAbsolute := sim_pathAbsolute;
     fs_readdir := sim_readdir : string -> @FS sim_data -> _;
     fs_rimraf := sim_rimraf : string -> @FS sim_data -> _;
     fs_mkdir := sim_mkdir : string -> @FS sim_data -> _;
     checkCompatibility := sim_checkCompatibility;
     readProjectsContext := sim_readProjectsContext;
     readLockfiles := sim_readLockfiles;
     DEPENDENCIES_FIELDS := [optionalDependencies; dependencies; devDependencies];
     JSON_stringify := sim_JSON_stringify;
     completion_order := sim_completion_order |}.

(** A project tree: a workspace root [/w] with a sub-project [/w/a]. *)
Definition sim_descriptor : Modules :=
  {| m_hoistPattern := Some ["*"];
     m_publicHoistPattern := None;
     m_included :=
       Some {| inc_dependencies := true; inc_devDependencies := true;
               inc_optionalDependencies := true |};
     m_registries := Some {[ "default" := "https://registry.npmjs.org/" ]};
     m_storeDir := "/store";
     m_virtualStoreDir := "/w/node_modules/.pnpm";
     m_layoutVersion := 5;
     m_pendingBuilds := [];
     m_skipped := [] |}.

Definition sim_tree : SimFS :=
  [ ("/w", SimDir);
    ("/w/node_modules", SimDir);
    ("/w/node_modules/.modules.yaml", SimDescriptor sim_descriptor);
    ("/w/node_modules/.bin", SimDir);
    ("/w/node_modules/.bin/tsc", SimFile);
    ("/w/node_modules/.pnpm", SimDir);
    ("/w/node_modules/.pnpm/lock.yaml", SimFile);
    ("/w/node_modules/.cache", SimDir);
    ("/w/node_modules/.cache/data", SimFile);
    ("/w/node_modules/lodash", SimDir);
    ("/w/a", SimDir);
    ("/w/a/node_modules", SimDir);
    ("/w/a/node_modules/.bin", SimDir);
    ("/w/a/node_modules/.keep", SimFile);
    ("/w/a/node_modules/lodash", SimDir);
    ("/w/locked", SimLockedDir) ].

Definition sim_fs : @FS sim_data := sim_tree.

(** The two projects of the tree, as [sim_readProjectsContext] returns them. *)
Definition sim_root : Project unit :=
  {| p_id := "."; p_modulesDir := "/w/node_modules"; p_rootDir := "/w";
     p_binsDir := "/w/node_modules/.bin"; p_extra := tt |}.

Definition sim_sub : Project unit :=
  {| p_id := "a"; p_modulesDir := "/w/a/node_modules"; p_rootDir := "/w/a";
     p_binsDir := "/w/a/node_modules/.bin"; p_extra := tt |}.

Definition sim_registries : Registries :=
  {[ "default" := "https://registry.npmjs.org/" ]}.

Definition sim_other_registries : Registries :=
  {[ "default" := "https://registry.example.org/" ]}.

Definition sim_production_only : IncludedDependencies :=
  {| inc_dependencies := true; inc_devDependencies := false;
     inc_optionalDependencies := true |}.

(** Options for [validateModules] on the tree; the virtual store and the
    store are the ones the descriptor records. *)
Definition sim_validate_opts
    (forceNewModules : bool)
    (current requested : option (list string)) (forceHoistPattern : option bool)
    (requestedPublic : option (list string)) (forcePublicHoistPattern : option bool)
    (include : option IncludedDependencies) (registries : Registries) : ValidateOpts :=
  {| vo_currentHoistPattern := current;
     vo_currentPublicHoistPattern := None;
     vo_forceNewModules := forceNewModules;
     vo_include := include;
     vo_lockfileDir := "/w";
     vo_modulesDir := "node_modules";
     vo_registries := registries;
     vo_storeDir := "/store";
     vo_virtualStoreDir := "/w/node_modules/.pnpm";
     vo_hoistPattern := requested;
     vo_forceHoistPattern := forceHoistPattern;
     vo_publicHoistPattern := requestedPublic;
     vo_forcePublicHoistPattern := forcePublicHoistPattern;
     vo_global := None |}.

Definition sim_manifest : @ProjectManifest sim_data := "{}".

(** Options for [getContext] on the tree: the root project only, with the
    given requested hoist pattern and nothing forced. *)
Definition sim_context_opts (hoistPattern : option (list string)) : @GetContextOptions sim_data :=
  {| o_autoInstallPeers := false;
     o_allProjects :=
       [ {| pi_rootDir := "/w"; pi_modulesDir := None; pi_binsDir := None;
            pi_extra := {| buildIndex := 0;
                           manifest := sim_manifest;
                           originalManifest := None |} |} ];
     o_force := false;
     o_forceNewModules := None;
     o_forceSharedLockfile := false;
     o_frozenLockfile := None;
     o_extraBinPaths := ["/usr/local/bin"];
     o_extendNodePath := None;
     o_lockfileDir := "/w";
     o_modulesDir := None;
     o_nodeLinker := isolated;
     o_readPackageHook := None;
     o_include := None;
     o_registries := sim_registries;
     o_storeDir := "/store";
     o_useLockfile := true;
     o_useGitBranchLockfile := None;
     o_mergeGitBranchLockfiles := None;
     o_virtualStoreDir := None;
     o_hoistPattern := hoistPattern;
     o_forceHoistPattern := None;
     o_publicHoistPattern := None;
     o_forcePublicHoistPattern := None;
     o_useLockfileV6 := None;
     o_global := None |}.

Definition sim_single_opts (forceNewModules : option bool) (registries : Registries)
  : @SingleImporterOptions sim_data :=
  {| so_autoInstallPeers := false;
     so_force := false;
     so_forceNewModules := forceNewModules;
     so_forceSharedLockfile := false;
     so_extraBinPaths := [];
     so_extendNodePath := None;
     so_lockfileDir := "/w";
     so_nodeLinker := isolated;
     so_modulesDir := None;
     so_readPackageHook := None;
     so_include := None;
     so_dir := "/w";
     so_registries := registries;
     so_storeDir := "/store";
     so_useLockfile := true;
     so_useGitBranchLockfile := None;
     so_mergeGitBranchLockfiles := None;
     so_virtualStoreDir := None;
     so_hoistPattern := Some ["*"];
     so_forceHoistPattern := None;
     so_publicHoistPattern := None;
     so_forcePublicHoistPattern := None;
     so_useLockfileV6 := None |}.

(** A project whose modules directory cannot be listed. *)
Definition sim_locked : Project unit :=
  {| p_id := "l"; p_modulesDir := "/w/locked"; p_rootDir := "/w/l";
     p_binsDir := "/w/locked/.bin"; p_extra := tt |}.

(** A tree without a descriptor. *)
Definition sim_fresh_fs : @FS sim_data := [ ("/w", SimDir) ].

(** A hook that marks the manifests it is given. *)
Definition sim_hook : @ReadPackageHook sim_data :=
  fun manifest _ fs => (Ok ("{hooked}" : @ProjectManifest sim_data), fs).

(** The two projects of the tree with their manifests, as [getContext]
    holds them. *)
Definition sim_root_full : Project (@ProjectExtra sim_data) :=
  {| p_id := "."; p_modulesDir := "/w/node_modules"; p_rootDir := "/w";
     p_binsDir := "/w/node_modules/.bin";
     p_extra := {| buildIndex := 0; manifest := sim_manifest; originalManifest := None |} |}.

Definition sim_sub_full : Project (@ProjectExtra sim_data) :=
  {| p_id := "a"; p_modulesDir := "/w/a/node_modules"; p_rootDir := "/w/a";
     p_binsDir := "/w/a/node_modules/.bin";
     p_extra := {| buildIndex := 1; manifest := sim_manifest; originalManifest := None |} |}.

(** Options for [getContext] on the tree with [forceNewModules] set and
    the given registries. *)
Definition sim_forced_context_opts (registries : Registries) : @GetContextOptions sim_data :=
  {| o_autoInstallPeers := false;
     o_allProjects :=
       [ {| pi_rootDir := "/w"; pi_modulesDir := None; pi_binsDir := None;
            pi_extra := {| buildIndex := 0;
                           manifest := sim_manifest;
                           originalManifest := None |} |} ];
     o_force := false;
     o_forceNewModules := Some true;
     o_forceSharedLockfile := false;
     o_frozenLockfile := None;
     o_extraBinPaths := [];
     o_extendNodePath := None;
     o_lockfileDir := "/w";
     o_modulesDir := None;
     o_nodeLinker := isolated;
     o_readPackageHook := Some sim_hook;
     o_include := None;
     o_registries := registries;
     o_storeDir := "/store";
     o_useLockfile := true;
     o_useGitBranchLockfile := None;
     o_mergeGitBranchLockfiles := None;
     o_virtualStoreDir := None;
     o_hoistPattern := Some ["*"];
     o_forceHoistPattern := None;
     o_publicHoistPattern := None;
     o_forcePublicHoistPattern := None;
     o_useLockfileV6 := None;
     o_global := None |}.

(** * Properties *)

Section Properties.
Context `{Collaborators}.
Local Open Scope js_scope.

(** ** Reasoning about the monad *)

Lemma bind_run {E A B} (m : M E A) (k : A -> M E B) (fs : FS) :
  bind m k fs =
  match m fs with
  | (Ok a, s1, t1) => (outcome (k a s1), final_fs (k a s1), t1 ++ events (k a s1))
  | (Throw e, s1, t1) => (Throw e, s1, t1)
  end.
Proof.
  unfold bind, outcome, final_fs, events.
  destruct (m fs) as [[[a|e] s1] t1]; [|reflexivity].
  destruct (k a s1) as [[r s2] t2]; reflexivity.
Qed.

Lemma bind_assoc_run {E A B C} (m : M E A) (f : A -> M E B) (g : B -> M E C) (fs : FS) :
  bind (bind m f) g fs = bind m (fun a => bind (f a) g) fs.
Proof.
  unfold bind. destruct (m fs) as [[[a|e] s1] t1]; [|reflexivity].
  destruct (f a s1) as [[[b|e] s2] t2]; [|reflexivity].
  destruct (g b s2) as [[r s3] t3]. rewrite app_assoc. reflexivity.
Qed.

Lemma bind_ext_run {E A B} (m : M E A) (k k' : A -> M E B) (fs : FS) :
  (forall a s, k a s = k' a s) -> bind m k fs = bind m k' fs.
Proof.
  intros Hk. unfold bind. destruct (m fs) as [[[a|e] s1] t1]; [|reflexivity].
  rewrite Hk. reflexivity.
Qed.

Lemma bind_ret_run {E A B} (a : A) (k : A -> M E B) (fs : FS) :
  bind (ret a) k fs = k a fs.
Proof.
  unfold bind, ret. destruct (k a fs) as [[r s2] t2]. reflexivity.
Qed.

Lemma try_catch_throw_run {E E' A} (e : E) (h : E -> M E' A) (fs : FS) :
  try_catch (throw e) h fs = h e fs.
Proof.
  unfold try_catch, throw. destruct (h e fs) as [[r s2] t2]. reflexivity.
Qed.

Lemma run_eta {E A} (r : result E A * FS * list Event) :
  r = (outcome r, final_fs r, events r).
Proof. destruct r as [[? ?] ?]; reflexivity. Qed.

Lemma outcome_mk {E A} (r : result E A) (s : FS) (t : list Event) :
  outcome (r, s, t) = r.
Proof. reflexivity. Qed.

Lemma final_fs_mk {E A} (r : result E A) (s : FS) (t : list Event) :
  final_fs (r, s, t) = s.
Proof. reflexivity. Qed.

Lemma events_mk {E A} (r : result E A) (s : FS) (t : list Event) :
  events (r, s, t) = t.
Proof. reflexivity. Qed.


Lemma outcome_bind {E A B} (m : M E A) (k : A -> M E B) (fs : FS) :
  outcome (bind m k fs) =
  match outcome (m fs) with
  | Ok a => outcome (k a (final_fs (m fs)))
  | Throw e => Throw e
  end.
Proof.
  unfold bind. destruct (m fs) as [[[a|e] s1] t1]; [|reflexivity].
  rewrite outcome_mk, final_fs_mk. destruct (k a s1) as [[r s2] t2]. reflexivity.
Qed.

Lemma outcome_emit_bind {E B} (ev : Event) (k : unit -> M E B) (fs : FS) :
  outcome (bind (emit ev) k fs) = outcome (k tt fs).
Proof.
  unfold bind, emit. destruct (k tt fs) as [[r s2] t2]. reflexivity.
Qed.

Lemma events_bind {E A B} (m : M E A) (k : A -> M E B) (fs : FS) :
  events (bind m k fs) =
  events (m fs) ++
  match outcome (m fs) with
  | Ok a => events (k a (final_fs (m fs)))
  | Throw _ => []
  end.
Proof.
  unfold bind. destruct (m fs) as [[[a|e] s1] t1].
  - rewrite outcome_mk, final_fs_mk, !events_mk.
    destruct (k a s1) as [[r s2] t2]. reflexivity.
  - cbn. rewrite app_nil_r. reflexivity.
Qed.

Lemma events_emit_bind {E B} (ev : Event) (k : unit -> M E B) (fs : FS) :
  events (bind (emit ev) k fs) = ev :: events (k tt fs).
Proof.
  unfold bind, emit. destruct (k tt fs) as [[r s2] t2]. reflexivity.
Qed.

Lemma final_fs_bind {E A B} (m : M E A) (k : A -> M E B) (fs : FS) :
  final_fs (bind m k fs) =
  match outcome (m fs) with
  | Ok a => final_fs (k a (final_fs (m fs)))
  | Throw _ => final_fs (m fs)
  end.
Proof.
  unfold bind. destruct (m fs) as [[[a|e] s1] t1]; [|reflexivity].
  rewrite outcome_mk, final_fs_mk. destruct (k a s1) as [[r s2] t2]. reflexivity.
Qed.


(** ** Tasks and [Promise.all] *)

Lemma advance_runs {E A} (t : Async E A) :
  forall s t' s' e, advance t s = (t', s', e) ->
  forall evs r, Runs t' evs r -> Runs t (e ++ evs) r.
Proof.
  induction t as [r0|E' X m k IH|E' X m k IH]; intros s t' s' e Hadv evs r Hruns.
  - injection Hadv as <- <- <-. exact Hruns.
  - cbn [advance] in Hadv. destruct (m s) as [[x s1] t1] eqn:Hm.
    destruct (advance (k x) s1) as [[t2' s2] t2] eqn:Hk.
    injection Hadv as <- <- <-.
    cbn [Runs]. exists s, x, s1, t1, (t2 ++ evs).
    split; [exact Hm|]. split; [rewrite app_assoc; reflexivity|].
    exact (IH x _ _ _ _ Hk _ _ Hruns).
  - injection Hadv as <- <- <-. exact Hruns.
Qed.

Lemma resume_runs {E A} (t : Async E A) (s : FS) (t' : Async E A) (s' : FS)
    (e : list Event) :
  resume t s = (t', s', e) ->
  forall evs r, Runs t' evs r -> Runs t (e ++ evs) r.
Proof.
  destruct t as [r0|E' X m k|E' X m k]; intros Hres evs r Hruns.
  - injection Hres as <- <- <-. exact Hruns.
  - injection Hres as <- <- <-. exact Hruns.
  - cbn [resume] in Hres. destruct (m s) as [[x s1] t1] eqn:Hm.
    destruct (advance (k x) s1) as [[t2' s2] t2] eqn:Hk.
    injection Hres as <- <- <-.
    cbn [Runs]. exists s, x, s1, t1, (t2 ++ evs).
    split; [exact Hm|]. split; [rewrite app_assoc; reflexivity|].
    exact (advance_runs _ _ _ _ _ Hk _ _ Hruns).
Qed.

Lemma await_runs {E A} (t : Async E A) :
  forall s r s' e, await t s = (r, s', e) -> Runs t e r.
Proof.
  induction t as [r0|E' X m k IH|E' X m k IH]; intros s r s' e Hrun.
  - injection Hrun as <- <- <-. split; reflexivity.
  - cbn [await] in Hrun. destruct (m s) as [[x s1] t1] eqn:Hm.
    destruct (await (k x) s1) as [[r2 s2] t2] eqn:Hk.
    injection Hrun as <- <- <-.
    cbn [Runs]. exists s, x, s1, t1, t2. split; [exact Hm|]. split; [reflexivity|].
    exact (IH x _ _ _ _ Hk).
  - cbn [await] in Hrun. destruct (m s) as [[x s1] t1] eqn:Hm.
    destruct (await (k x) s1) as [[r2 s2] t2] eqn:Hk.
    injection Hrun as <- <- <-.
    cbn [Runs]. exists s, x, s1, t1, t2. split; [exact Hm|]. split; [reflexivity|].
    exact (IH x _ _ _ _ Hk).
Qed.

Lemma RunsAll_nil_inv {E A} (runs : list (list Event * result E A)) :
  RunsAll [] runs -> runs = [].
Proof. intros Hall. inversion Hall. reflexivity. Qed.

Lemma RunsAll_cons_inv {E A} (t : Async E A) (ts : list (Async E A))
    (runs : list (list Event * result E A)) :
  RunsAll (t :: ts) runs ->
  exists run rest, runs = run :: rest /\ Runs t (fst run) (snd run) /\ RunsAll ts rest.
Proof. intros Hall. inversion Hall; subst. eauto. Qed.

Lemma RunsAll_map {E A X} (body : X -> Async E A) (l : list X)
    (runs : list (list Event * result E A)) :
  RunsAll (map body l) runs ->
  Forall2 (fun x run => Runs (body x) (fst run) (snd run)) l runs.
Proof.
  revert runs. induction l as [|x l IH]; intros runs Hall.
  - apply RunsAll_nil_inv in Hall. subst runs. constructor.
  - apply RunsAll_cons_inv in Hall. destruct Hall as (run & rest & -> & Hrun & Hall).
    constructor; [exact Hrun | exact (IH _ Hall)].
Qed.

Lemma start_all_runs {E A} (ts : list (Async E A)) :
  forall s ts' s' e, start_all ts s = (ts', s', e) ->
  forall runs', RunsAll ts' runs' ->
  exists runs,
    RunsAll ts runs /\ map snd runs = map snd runs' /\
    concat (map fst runs) ≡ₚ e ++ concat (map fst runs').
Proof.
  induction ts as [|t ts IH]; intros s ts' s' e Hstart runs' Hall.
  - injection Hstart as <- <- <-. apply RunsAll_nil_inv in Hall. subst runs'.
    exists []. split; [constructor|]. split; reflexivity.
  - cbn [start_all] in Hstart.
    destruct (advance t s) as [[t' s1] t1] eqn:Hadv.
    destruct (start_all ts s1) as [[rest' s2] t2] eqn:Hrest.
    injection Hstart as <- <- <-.
    apply RunsAll_cons_inv in Hall. destruct Hall as (run' & rr' & -> & Hrun & Hall).
    destruct (IH _ _ _ _ Hrest _ Hall) as (rr & Hrr & Hsnd & Hperm).
    exists ((t1 ++ fst run', snd run') :: rr). split; [|split].
    + constructor; [|exact Hrr]. exact (advance_runs _ _ _ _ _ Hadv _ _ Hrun).
    + cbn [map snd]. rewrite Hsnd. reflexivity.
    + cbn [map fst concat]. rewrite Hperm, <- !app_assoc.
      apply Permutation_app_head. rewrite !app_assoc.
      apply Permutation_app_tail, Permutation_app_comm.
Qed.

Lemma deliver_runs {E A} (ts : list (Async E A)) :
  forall n s ts' s' e rej, deliver n ts s = (ts', s', e, rej) ->
  forall runs', RunsAll ts' runs' ->
  exists runs,
    RunsAll ts runs /\ map snd runs = map snd runs' /\
    concat (map fst runs) ≡ₚ e ++ concat (map fst runs').
Proof.
  induction ts as [|t ts IH]; intros n s ts' s' e rej Hdel runs' Hall.
  - injection Hdel as <- <- <- <-. exists runs'. split; [exact Hall|]. split; reflexivity.
  - cbn [deliver] in Hdel. destruct (pending t) eqn:Hpending; [destruct n as [|n]|].
    + destruct (resume t s) as [[t' s1] t1] eqn:Hres.
      injection Hdel as <- <- <- <-.
      apply RunsAll_cons_inv in Hall. destruct Hall as (run' & rr' & -> & Hrun & Hall).
      exists ((t1 ++ fst run', snd run') :: rr'). split; [|split].
      * constructor; [|exact Hall]. exact (resume_runs _ _ _ _ _ Hres _ _ Hrun).
      * reflexivity.
      * cbn [map fst concat]. rewrite <- app_assoc. reflexivity.
    + destruct (deliver n ts s) as [[[rest' s1] t1] rej1] eqn:Hrest.
      injection Hdel as <- <- <- <-.
      apply RunsAll_cons_inv in Hall. destruct Hall as (run' & rr' & -> & Hrun & Hall).
      destruct (IH _ _ _ _ _ _ Hrest _ Hall) as (rr & Hrr & Hsnd & Hperm).
      exists (run' :: rr). split; [|split].
      * constructor; assumption.
      * cbn [map]. rewrite Hsnd. reflexivity.
      * cbn [map concat]. rewrite Hperm, !app_assoc.
        apply Permutation_app_tail, Permutation_app_comm.
    + destruct (deliver n ts s) as [[[rest' s1] t1] rej1] eqn:Hrest.
      injection Hdel as <- <- <- <-.
      apply RunsAll_cons_inv in Hall. destruct Hall as (run' & rr' & -> & Hrun & Hall).
      destruct (IH _ _ _ _ _ _ Hrest _ Hall) as (rr & Hrr & Hsnd & Hperm).
      exists (run' :: rr). split; [|split].
      * constructor; assumption.
      * cbn [map]. rewrite Hsnd. reflexivity.
      * cbn [map concat]. rewrite Hperm, !app_assoc.
        apply Permutation_app_tail, Permutation_app_comm.
Qed.

Lemma deliveries_runs {E A} (order : list nat) :
  forall (ts : list (Async E A)) s ts' s' e rej,
  deliveries order ts s = (ts', s', e, rej) ->
  forall runs', RunsAll ts' runs' ->
  exists runs,
    RunsAll ts runs /\ map snd runs = map snd runs' /\
    concat (map fst runs) ≡ₚ e ++ concat (map fst runs').
Proof.
  induction order as [|n order IH]; intros ts s ts' s' e rej Hdel runs' Hall.
  - injection Hdel as <- <- <- <-. exists runs'. split; [exact Hall|]. split; reflexivity.
  - cbn [deliveries] in Hdel.
    destruct (deliver n ts s) as [[[ts1 s1] t1] rej1] eqn:Hone.
    destruct (deliveries order ts1 s1) as [[[ts2 s2] t2] rej2] eqn:Hrest.
    injection Hdel as <- <- <- <-.
    destruct (IH _ _ _ _ _ _ Hrest _ Hall) as (runs1 & Hruns1 & Hsnd1 & Hperm1).
    destruct (deliver_runs _ _ _ _ _ _ _ Hone _ Hruns1) as (runs & Hruns & Hsnd & Hperm).
    exists runs. split; [exact Hruns|]. split; [congruence|].
    rewrite Hperm, Hperm1, app_assoc. reflexivity.
Qed.

Lemma drain_runs {E A} (ts : list (Async E A)) :
  forall s rs s' e rej, drain ts s = (rs, s', e, rej) ->
  exists runs, RunsAll ts runs /\ map snd runs = rs /\ concat (map fst runs) = e.
Proof.
  induction ts as [|t ts IH]; intros s rs s' e rej Hdrain.
  - injection Hdrain as <- <- <- <-. exists []. split; [constructor|]. split; reflexivity.
  - cbn [drain] in Hdrain.
    destruct (await t s) as [[r s1] t1] eqn:Hrun.
    destruct (drain ts s1) as [[[rs' s2] t2] rej'] eqn:Hrest.
    injection Hdrain as <- <- <- <-.
    destruct (IH _ _ _ _ _ Hrest) as (rr & Hrr & Hsnd & Hcat).
    exists ((t1, r) :: rr). split; [|split].
    + constructor; [|exact Hrr]. exact (await_runs _ _ _ _ _ Hrun).
    + cbn [map snd]. rewrite Hsnd. reflexivity.
    + cbn [map fst concat]. rewrite Hcat. reflexivity.
Qed.

(** Rejections: what is recorded has happened, and what has happened is
    recorded. *)
Lemma rejection_settled {E A} (t : Async E A) (e : E) :
  In e (rejection t) <-> t = Settled (Throw e).
Proof.
  destruct t as [[a|e0]|E' X m k|E' X m k]; cbn [rejection]; split; intros Hx;
    try (destruct Hx; fail); try discriminate Hx.
  - destruct Hx as [<-|[]]. reflexivity.
  - injection Hx as ->. left. reflexivity.
Qed.

Lemma deliver_settled {E A} (ts : list (Async E A)) :
  forall n s ts' s' e rej, deliver n ts s = (ts', s', e, rej) ->
  (forall e0, In e0 rej -> In (Settled (Throw e0)) ts') /\
  (forall r, In (Settled r) ts -> In (Settled r) ts') /\
  (forall e0, In (Settled (Throw e0)) ts' -> In (Settled (Throw e0)) ts \/ In e0 rej).
Proof.
  induction ts as [|t ts IH]; intros n s ts' s' e rej Hdel.
  - injection Hdel as <- <- <- <-. repeat split; intros ? Hx; destruct Hx.
  - cbn [deliver] in Hdel. destruct (pending t) eqn:Hpending; [destruct n as [|n]|].
    + destruct (resume t s) as [[t' s1] t1] eqn:Hres.
      injection Hdel as <- <- <- <-. split; [|split].
      * intros e0 He0. apply rejection_settled in He0. left. exact He0.
      * intros r [Hr|Hr]; [subst t; discriminate Hpending | right; exact Hr].
      * intros e0 [He0|He0]; [right; apply rejection_settled; exact He0 | left; right; exact He0].
    + destruct (deliver n ts s) as [[[rest' s1] t1] rej1] eqn:Hrest.
      injection Hdel as <- <- <- <-.
      destruct (IH _ _ _ _ _ _ Hrest) as (H1 & H2 & H3). split; [|split].
      * intros e0 He0. right. exact (H1 e0 He0).
      * intros r [Hr|Hr]; [left; exact Hr | right; exact (H2 r Hr)].
      * intros e0 [He0|He0]; [left; left; exact He0|].
        destruct (H3 e0 He0) as [Hx|Hx]; [left; right; exact Hx | right; exact Hx].
    + destruct (deliver n ts s) as [[[rest' s1] t1] rej1] eqn:Hrest.
      injection Hdel as <- <- <- <-.
      destruct (IH _ _ _ _ _ _ Hrest) as (H1 & H2 & H3). split; [|split].
      * intros e0 He0. right. exact (H1 e0 He0).
      * intros r [Hr|Hr]; [left; exact Hr | right; exact (H2 r Hr)].
      * intros e0 [He0|He0]; [left; left; exact He0|].
        destruct (H3 e0 He0) as [Hx|Hx]; [left; right; exact Hx | right; exact Hx].
Qed.

Lemma deliveries_settled {E A} (order : list nat) :
  forall (ts : list (Async E A)) s ts' s' e rej,
  deliveries order ts s = (ts', s', e, rej) ->
  (forall e0, In e0 rej -> In (Settled (Throw e0)) ts') /\
  (forall r, In (Settled r) ts -> In (Settled r) ts') /\
  (forall e0, In (Settled (Throw e0)) ts' -> In (Settled (Throw e0)) ts \/ In e0 rej).
Proof.
  induction order as [|n order IH]; intros ts s ts' s' e rej Hdel.
  - injection Hdel as <- <- <- <-. repeat split; intros ? Hx; try destruct Hx; auto.
  - cbn [deliveries] in Hdel.
    destruct (deliver n ts s) as [[[ts1 s1] t1] rej1] eqn:Hone.
    destruct (deliveries order ts1 s1) as [[[ts2 s2] t2] rej2] eqn:Hrest.
    injection Hdel as <- <- <- <-.
    destruct (deliver_settled _ _ _ _ _ _ _ Hone) as (H1 & H2 & H3).
    destruct (IH _ _ _ _ _ _ Hrest) as (H1' & H2' & H3'). split; [|split].
    + intros e0 He0. apply in_app_or in He0. destruct He0 as [He0|He0].
      * apply H2', H1, He0.
      * apply H1', He0.
    + intros r Hr. apply H2', H2, Hr.
    + intros e0 He0. destruct (H3' e0 He0) as [Hx|Hx].
      * destruct (H3 e0 Hx) as [Hy|Hy]; [left; exact Hy | right; apply in_or_app; left; exact Hy].
      * right. apply in_or_app. right. exact Hx.
Qed.

Lemma drain_settled {E A} (ts : list (Async E A)) :
  forall s rs s' e rej, drain ts s = (rs, s', e, rej) ->
  (forall e0, In e0 rej -> In (Throw e0) rs) /\
  (forall r, In (Settled r) ts -> In r rs) /\
  (forall e0, In (Throw e0) rs -> In (Settled (Throw e0)) ts \/ In e0 rej).
Proof.
  induction ts as [|t ts IH]; intros s rs s' e rej Hdrain.
  - injection Hdrain as <- <- <- <-. repeat split; intros ? Hx; destruct Hx.
  - cbn [drain] in Hdrain.
    destruct (await t s) as [[r s1] t1] eqn:Hrun.
    destruct (drain ts s1) as [[[rs' s2] t2] rej'] eqn:Hrest.
    injection Hdrain as <- <- <- <-.
    destruct (IH _ _ _ _ _ Hrest) as (H1 & H2 & H3). split; [|split].
    + intros e0 He0. apply in_app_or in He0. destruct He0 as [He0|He0].
      * destruct (settled t); [destruct He0|].
        destruct r as [a|e1]; [destruct He0|]. destruct He0 as [<-|[]]. left. reflexivity.
      * right. exact (H1 e0 He0).
    + intros r0 [Hr|Hr].
      * subst t. cbn [await] in Hrun. injection Hrun as <- _ _. left. reflexivity.
      * right. exact (H2 r0 Hr).
    + intros e0 [He0|He0].
      * subst r. destruct t as [r0|E' X m k|E' X m k].
        -- cbn [await] in Hrun. injection Hrun as -> _ _. left. left. reflexivity.
        -- right. apply in_or_app. left. left. reflexivity.
        -- right. apply in_or_app. left. left. reflexivity.
      * destruct (H3 e0 He0) as [Hx|Hx]; [left; right; exact Hx|].
        right. apply in_or_app. right. exact Hx.
Qed.

Lemma values_of_fulfilled {E A} (rs : list (result E A)) :
  (forall e, ~ In (Throw e) rs) -> rs = map Ok (omap value rs).
Proof.
  induction rs as [|[a|e] rs IH]; intros Hnone; [reflexivity| |].
  - cbn. f_equal. apply IH. intros e He. apply (Hnone e). right. exact He.
  - exfalso. apply (Hnone e). left. reflexivity.
Qed.

(** What a [Promise.all] comes to: its tasks are started in list order,
    then each of them runs to its end; the events after the start are
    those of the tasks, in some interleaving; it is fulfilled with the
    values of the tasks and rejected with the rejection of one of them. *)
Lemma promise_all_map_runs {E A B} (site : string) (l : list A) (body : A -> Async E B)
    (s : FS) (o : result E (list B)) (s' : FS) (evs : list Event) :
  promise_all_map site l body s = (o, s', evs) ->
  exists ts1 s1 e1 rest runs,
    start_all (map body l) s = (ts1, s1, e1) /\
    evs = e1 ++ rest /\
    RunsAll ts1 runs /\
    rest ≡ₚ concat (map fst runs) /\
    (forall vs, o = Ok vs -> map snd runs = map Ok vs) /\
    (forall e, o = Throw e -> In (Throw e) (map snd runs)).
Proof.
  unfold promise_all_map. intros Hrun.
  destruct (start_all (map body l) s) as [[ts1 s1] e1] eqn:Hstart.
  destruct (deliveries (completion_order site s1) ts1 s1) as [[[ts2 s2] e2] rej2] eqn:Hdel.
  destruct (drain ts2 s2) as [[[rs s3] e3] rej3] eqn:Hdrain.
  destruct (drain_runs _ _ _ _ _ _ Hdrain) as (runs2 & Hruns2 & Hsnd2 & Hcat2).
  destruct (deliveries_runs _ _ _ _ _ _ _ Hdel _ Hruns2) as (runs & Hruns & Hsnd & Hperm).
  destruct (deliveries_settled _ _ _ _ _ _ _ Hdel) as (D1 & D2 & D3).
  destruct (drain_settled _ _ _ _ _ _ Hdrain) as (R1 & R2 & R3).
  assert (Hlog : forall e, In e (flat_map rejection ts1 ++ rej2 ++ rej3) <-> In (Throw e) rs).
  { intros e. split.
    - intros He. apply in_app_or in He. destruct He as [He|He].
      + apply in_flat_map in He. destruct He as (t & Ht & He).
        apply rejection_settled in He. subst t. apply R2, D2, Ht.
      + apply in_app_or in He. destruct He as [He|He]; [apply R2, D1, He | apply R1, He].
    - intros He. destruct (R3 e He) as [Hx|Hx].
      + destruct (D3 e Hx) as [Hy|Hy].
        * apply in_or_app. left. apply in_flat_map. eexists. split; [exact Hy|].
          apply rejection_settled. reflexivity.
        * apply in_or_app. right. apply in_or_app. left. exact Hy.
      + apply in_or_app. right. apply in_or_app. right. exact Hx. }
  exists ts1, s1, e1, (e2 ++ e3), runs.
  split; [reflexivity|]. split; [injection Hrun as _ _ <-; reflexivity|].
  split; [exact Hruns|]. split; [rewrite Hperm, Hcat2; reflexivity|].
  rewrite Hsnd, Hsnd2. split.
  - intros vs Hvs. destruct (flat_map rejection ts1 ++ rej2 ++ rej3) as [|e0 log] eqn:Hrej.
    + injection Hrun as Ho _ _. rewrite Hvs in Ho. injection Ho as <-.
      apply values_of_fulfilled. intros e He. apply Hlog in He. destruct He.
    + injection Hrun as Ho _ _. rewrite Hvs in Ho. discriminate Ho.
  - intros e He. destruct (flat_map rejection ts1 ++ rej2 ++ rej3) as [|e0 log] eqn:Hrej.
    + injection Hrun as Ho _ _. rewrite He in Ho. discriminate Ho.
    + injection Hrun as Ho _ _. rewrite He in Ho. injection Ho as <-.
      apply Hlog. left. reflexivity.
Qed.

(** The same, from before the start of the tasks. *)
Lemma promise_all_map_tasks {E A B} (site : string) (l : list A) (body : A -> Async E B)
    (s : FS) (o : result E (list B)) (s' : FS) (evs : list Event) :
  promise_all_map site l body s = (o, s', evs) ->
  exists runs,
    Forall2 (fun x run => Runs (body x) (fst run) (snd run)) l runs /\
    evs ≡ₚ concat (map fst runs) /\
    (forall vs, o = Ok vs -> map snd runs = map Ok vs) /\
    (forall e, o = Throw e -> In (Throw e) (map snd runs)).
Proof.
  intros Hrun.
  destruct (promise_all_map_runs _ _ _ _ _ _ _ Hrun)
    as (ts1 & s1 & e1 & rest & runs1 & Hstart & -> & Hruns1 & Hperm1 & Hok & Hthrow).
  destruct (start_all_runs _ _ _ _ _ Hstart _ Hruns1) as (runs & Hruns & Hsnd & Hperm).
  exists runs. split; [exact (RunsAll_map _ _ _ Hruns)|].
  split; [rewrite Hperm, Hperm1; reflexivity|].
  rewrite Hsnd. split; assumption.
Qed.

(** Every event of a [Promise.all] is an event of one of its tasks. *)
Lemma promise_all_map_emits {E A B} (P : Event -> Prop) (site : string) (l : list A)
    (body : A -> Async E B) :
  (forall x evs r, In x l -> Runs (body x) evs r -> Forall P evs) ->
  emits P (promise_all_map site l body).
Proof.
  intros Hbody s.
  destruct (promise_all_map_tasks site l body s _ _ _ (run_eta _))
    as (runs & Hruns & Hperm & _ & _).
  rewrite Hperm. clear Hperm.
  induction Hruns as [|x run l runs Hrun Hruns IH]; [constructor|].
  cbn [map concat]. apply Forall_app. split.
  - exact (Hbody x _ _ (or_introl eq_refl) Hrun).
  - apply IH. intros y evs r Hy. apply Hbody. right. exact Hy.
Qed.

(** Every rejection of a [Promise.all] is the rejection of one of its
    tasks. *)
Lemma promise_all_map_rejects {E A B} (Q : E -> Prop) (site : string) (l : list A)
    (body : A -> Async E B) (s : FS) (e : E) :
  (forall x evs e, In x l -> Runs (body x) evs (Throw e) -> Q e) ->
  outcome (promise_all_map site l body s) = Throw e -> Q e.
Proof.
  intros Hbody Hout.
  destruct (promise_all_map_tasks site l body s _ _ _ (run_eta _))
    as (runs & Hruns & _ & _ & Hthrow).
  specialize (Hthrow e Hout). clear Hout.
  induction Hruns as [|x run l runs Hrun Hruns IH]; [destruct Hthrow|].
  destruct Hthrow as [Hhere|Hthere].
  - cbn in Hhere. rewrite Hhere in Hrun. exact (Hbody x _ _ (or_introl eq_refl) Hrun).
  - apply IH; [|exact Hthere]. intros y evs e0 Hy. apply Hbody. right. exact Hy.
Qed.

(** Tasks that settle before they give way. *)
Lemma deliver_idle {E A} (ts : list (Async E A)) (n : nat) (s : FS) :
  Forall (fun t => pending t = false) ts -> deliver n ts s = (ts, s, [], []).
Proof.
  intros Hidle. revert n. induction Hidle as [|t ts Ht _ IH]; intros n; [reflexivity|].
  cbn [deliver]. rewrite Ht, IH. reflexivity.
Qed.

Lemma deliveries_idle {E A} (order : list nat) (ts : list (Async E A)) (s : FS) :
  Forall (fun t => pending t = false) ts -> deliveries order ts s = (ts, s, [], []).
Proof.
  intros Hidle. induction order as [|n order IH]; [reflexivity|].
  cbn [deliveries]. rewrite (deliver_idle ts n s Hidle), IH. reflexivity.
Qed.

Lemma drain_settled_pool {E A} (rs : list (result E A)) (s : FS) :
  drain (map Settled rs) s = (rs, s, [], []).
Proof.
  induction rs as [|r rs IH]; [reflexivity|].
  cbn [map drain await settled]. rewrite IH. reflexivity.
Qed.

(** The tasks of a pool when each of them starts as [started] and [first]
    say and leaves the file system alone. *)
Lemma start_all_known {E A X} (body : X -> Async E A) (started : X -> Async E A)
    (first : X -> list Event) (l : list X) (s : FS) :
  (forall x, In x l -> advance (body x) s = (started x, s, first x)) ->
  start_all (map body l) s = (map started l, s, flat_map first l).
Proof.
  induction l as [|x l IH]; intros Hadv; [reflexivity|].
  cbn [map start_all flat_map]. rewrite (Hadv x (or_introl eq_refl)).
  rewrite IH by (intros y Hy; apply Hadv; right; exact Hy). reflexivity.
Qed.

Lemma promise_all_map_settled {E A B} (site : string) (l : list A) (body : A -> Async E B)
    (s : FS) (res : A -> result E B) :
  (forall x, In x l -> advance (body x) s = (Settled (res x), s, [])) ->
  promise_all_map site l body s = (all_settled (map res l), s, []).
Proof.
  intros Hadv. unfold promise_all_map.
  rewrite (start_all_known body (fun x => Settled (res x)) (fun _ => []) l s Hadv).
  assert (Hnil : flat_map (fun _ : A => @nil Event) l = []).
  { clear. induction l as [|x l IH]; [reflexivity | exact IH]. }
  assert (Hpool : map (fun x => Settled (res x)) l = map Settled (map res l)).
  { rewrite map_map. reflexivity. }
  rewrite Hnil, Hpool.
  rewrite deliveries_idle.
  - rewrite drain_settled_pool. unfold all_settled.
    assert (Hrej : flat_map rejection (map (@Settled _ E B) (map res l)) =
                   flat_map thrown (map res l)).
    { generalize (map res l). clear. intros rs.
      induction rs as [|[b|e] rs IH]; [reflexivity| |]; cbn; rewrite IH; reflexivity. }
    rewrite Hrej, !app_nil_r. reflexivity.
  - apply List.Forall_forall. intros t Ht. apply in_map_iff in Ht.
    destruct Ht as (r & <- & _). reflexivity.
Qed.




Lemma await_later {E A} (m : M E A) (s : FS) : await (later m) s = m s.
Proof.
  unfold later. cbn [await]. destruct (m s) as [[x s1] t1]. rewrite app_nil_r. reflexivity.
Qed.


(** How the runs of a composed task come about. *)
Lemma Runs_bind_inv {E A B} (t : Async E A) (f : A -> Async E B) :
  forall evs r, Runs (a_bind t f) evs r ->
  (exists a e1 e2, Runs t e1 (Ok a) /\ Runs (f a) e2 r /\ evs = e1 ++ e2) \/
  (exists e, Runs t evs (Throw e) /\ r = Throw e).
Proof.
  induction t as [[a|e]|E' X m k IH|E' X m k IH]; intros evs r Hruns.
  - left. exists a, [], evs. split; [split; reflexivity|]. split; [exact Hruns | reflexivity].
  - right. destruct Hruns as [-> ->]. exists e. split; [split; reflexivity | reflexivity].
  - cbn [a_bind Runs] in Hruns. destruct Hruns as (s & x & s' & t1 & t2 & Hm & -> & Hk).
    destruct (IH x _ _ Hk) as [(a & e1 & e2 & H1 & H2 & ->)|(e & H1 & ->)].
    + left. exists a, (t1 ++ e1), e2. split; [|split; [exact H2 | apply app_assoc]].
      cbn [Runs]. exists s, x, s', t1, e1. split; [exact Hm|]. split; [reflexivity | exact H1].
    + right. exists e. split; [|reflexivity].
      cbn [Runs]. exists s, x, s', t1, t2. split; [exact Hm|]. split; [reflexivity | exact H1].
  - cbn [a_bind Runs] in Hruns. destruct Hruns as (s & x & s' & t1 & t2 & Hm & -> & Hk).
    destruct (IH x _ _ Hk) as [(a & e1 & e2 & H1 & H2 & ->)|(e & H1 & ->)].
    + left. exists a, (t1 ++ e1), e2. split; [|split; [exact H2 | apply app_assoc]].
      cbn [Runs]. exists s, x, s', t1, e1. split; [exact Hm|]. split; [reflexivity | exact H1].
    + right. exists e. split; [|reflexivity].
      cbn [Runs]. exists s, x, s', t1, t2. split; [exact Hm|]. split; [reflexivity | exact H1].
Qed.

Lemma Runs_try_catch_inv {E E' A} (t : Async E A) (h : E -> Async E' A) :
  forall evs r, Runs (a_try_catch t h) evs r ->
  (exists a, Runs t evs (Ok a) /\ r = Ok a) \/
  (exists e e1 e2, Runs t e1 (Throw e) /\ Runs (h e) e2 r /\ evs = e1 ++ e2).
Proof.
  induction t as [[a|e]|E0 X m k IH|E0 X m k IH]; intros evs r Hruns.
  - left. destruct Hruns as [-> ->]. exists a. split; [split; reflexivity | reflexivity].
  - right. exists e, [], evs. split; [split; reflexivity|]. split; [exact Hruns | reflexivity].
  - cbn [a_try_catch Runs] in Hruns.
    destruct Hruns as (s & x & s' & t1 & t2 & Hm & -> & Hk).
    destruct (IH x _ _ Hk) as [(a & H1 & ->)|(e & e1 & e2 & H1 & H2 & ->)].
    + left. exists a. split; [|reflexivity].
      cbn [Runs]. exists s, x, s', t1, t2. split; [exact Hm|]. split; [reflexivity | exact H1].
    + right. exists e, (t1 ++ e1), e2. split; [|split; [exact H2 | apply app_assoc]].
      cbn [Runs]. exists s, x, s', t1, e1. split; [exact Hm|]. split; [reflexivity | exact H1].
  - cbn [a_try_catch Runs] in Hruns.
    destruct Hruns as (s & x & s' & t1 & t2 & Hm & -> & Hk).
    destruct (IH x _ _ Hk) as [(a & H1 & ->)|(e & e1 & e2 & H1 & H2 & ->)].
    + left. exists a. split; [|reflexivity].
      cbn [Runs]. exists s, x, s', t1, t2. split; [exact Hm|]. split; [reflexivity | exact H1].
    + right. exists e, (t1 ++ e1), e2. split; [|split; [exact H2 | apply app_assoc]].
      cbn [Runs]. exists s, x, s', t1, e1. split; [exact Hm|]. split; [reflexivity | exact H1].
Qed.

Lemma Runs_now_inv {E A} (m : M E A) (evs : list Event) (r : result E A) :
  Runs (now m) evs r -> exists s s', m s = (r, s', evs).
Proof.
  intros (s & x & s' & t1 & t2 & Hm & -> & [-> ->]). exists s, s'.
  rewrite app_nil_r. exact Hm.
Qed.

Lemma Runs_later_inv {E A} (m : M E A) (evs : list Event) (r : result E A) :
  Runs (later m) evs r -> exists s s', m s = (r, s', evs).
Proof.
  intros (s & x & s' & t1 & t2 & Hm & -> & [-> ->]). exists s, s'.
  rewrite app_nil_r. exact Hm.
Qed.

(** ** Purge engine *)

Lemma is_kept_protected (dir virtualStoreDir item : string) :
  is_kept dir virtualStoreDir item = true <->
  protected_from_deletion dir virtualStoreDir item.
Proof.
  unfold is_kept, protected_from_deletion, dirsAreEqual.
  rewrite !andb_true_iff, !negb_true_iff, !String.eqb_neq.
  assert (Hp : String.prefix "." item = true <-> exists rest, item = String "."%char rest).
  { destruct item as [|c rest]; cbn [String.prefix].
    - split; [intros Hf; discriminate Hf | intros [r Hr]; discriminate Hr].
    - destruct (Ascii.ascii_dec "."%char c) as [<-|Hc].
      + split; [eauto | intros _; destruct rest; reflexivity].
      + split; [intros Hf; discriminate Hf | intros [r Hr]; congruence]. }
  rewrite Hp. tauto.
Qed.

(** The loop of [removeContentsOfDir]: it aims [rimraf] at the purge
    targets in order and stops at the first failure. *)
Lemma removal_loop (dir virtualStoreDir : string) (items : list string)
    (fs fs' : FS) (r : result SystemError unit) (t : list Event) :
  for_of items (fun item =>
    if is_kept dir virtualStoreDir item
    then ret tt
    else rimraf (path_join dir item)) fs = (r, fs', t) ->
  exists done rest,
    purge_targets dir virtualStoreDir items = done ++ rest /\
    t = map CallRimraf done /\
    fs' = rimraf_all done fs /\
    ((r = Ok tt /\ rest = []) \/
     (exists before p e,
        done = before ++ [p] /\
        fst (fs_rimraf p (rimraf_all before fs)) = Throw e /\
        r = Throw e)).
Proof.
  revert fs fs' r t. induction items as [|item items IH]; intros fs fs' r t Hrun.
  - injection Hrun as <- <- <-. exists [], []. repeat split; try reflexivity.
    left. split; reflexivity.
  - cbn [for_of] in Hrun. rewrite bind_run in Hrun.
    unfold purge_targets. cbn [List.filter].
    destruct (is_kept dir virtualStoreDir item) eqn:Hk; cbn [negb].
    + cbn [ret app] in Hrun. rewrite <- run_eta in Hrun.
      exact (IH _ _ _ _ Hrun).
    + unfold rimraf at 1 in Hrun.
      destruct (fs_rimraf (path_join dir item) fs) as [[[]|e] fs1] eqn:Hr.
      * injection Hrun as <- <- <-.
        destruct (IH fs1 _ _ _ (run_eta _)) as (done & rest & Ht & He & Hf & Ho).
        exists (path_join dir item :: done), rest. cbn [map].
        unfold purge_targets in Ht. rewrite Ht, He, Hf.
        unfold rimraf_all. cbn [fold_left]. rewrite Hr. cbn [snd].
        repeat split.
        destruct Ho as [Ho|(before & p & e & -> & Hfail & Ho)]; [left; exact Ho|].
        right. exists (path_join dir item :: before), p, e.
        split; [reflexivity|]. split; [|exact Ho].
        unfold rimraf_all in Hfail |- *. cbn [fold_left]. rewrite Hr. exact Hfail.
      * injection Hrun as <- <- <-.
        exists [path_join dir item],
               (map (path_join dir)
                  (List.filter (fun item => negb (is_kept dir virtualStoreDir item)) items)).
        unfold rimraf_all. cbn [fold_left]. rewrite Hr.
        repeat split. right. exists [], (path_join dir item), e.
        split; [reflexivity|]. cbn [fold_left]. rewrite Hr. split; reflexivity.
Qed.


Lemma removable_app (a b : list string) (fs : FS) :
  removable (a ++ b) fs = removable a fs && removable b (rimraf_all a fs).
Proof.
  revert fs. induction a as [|p a IH]; intros fs; [reflexivity|].
  cbn [app removable]. rewrite IH, andb_assoc. reflexivity.
Qed.

(** When no [rimraf] fails the loop removes every purge target. *)
Lemma removal_loop_succeeds (dir virtualStoreDir : string) (items : list string) (fs : FS) :
  removable (purge_targets dir virtualStoreDir items) fs = true ->
  for_of items (fun item =>
    if is_kept dir virtualStoreDir item
    then ret tt
    else rimraf (path_join dir item)) fs =
  (Ok tt, rimraf_all (purge_targets dir virtualStoreDir items) fs,
   map CallRimraf (purge_targets dir virtualStoreDir items)).
Proof.
  intros Hall.
  match goal with
  | |- ?run = _ =>
      destruct (removal_loop dir virtualStoreDir items fs _ _ _ (run_eta run))
        as (done & rest & Ht & He & Hf & Ho); rewrite (run_eta run)
  end.
  destruct Ho as [[Ho ->]|(before & p & e & -> & Hfail & _)].
  - rewrite app_nil_r in Ht. rewrite Ho, He, Hf, Ht. reflexivity.
  - exfalso. rewrite Ht, <- !app_assoc, removable_app in Hall.
    apply andb_true_iff in Hall. destruct Hall as [_ Hall].
    cbn [app removable] in Hall. rewrite Hfail in Hall. discriminate Hall.
Qed.


(** C1. [removeContentsOfDir] skips an entry if and only if its name
    starts with ['.'], is neither ['.bin'] nor ['.modules.yaml'], and its
    path does not resolve to the virtual store directory.  Every other
    entry is handed to [rimraf], in the order of the listing: the removals
    performed are the purge targets up to the first [rimraf] that fails,
    whose error is then the error of the operation; when no [rimraf]
    fails the operation succeeds and has removed every purge target.
    Removal is aimed at entries only, never at the directory itself. *)
Theorem removeContentsOfDir_purge_rule
    (dir virtualStoreDir : string) (fs : FS) (items : list string) :
  fs_readdir dir fs = Ok items ->
  let run := removeContentsOfDir dir virtualStoreDir fs in
  let targets := purge_targets dir virtualStoreDir items in
  (forall item,
     is_kept dir virtualStoreDir item = true <->
     protected_from_deletion dir virtualStoreDir item) /\
  (exists done rest,
     targets = done ++ rest /\
     events run = CallReaddir dir :: map CallRimraf done /\
     final_fs run = rimraf_all done fs /\
     ((outcome run = Ok tt /\ rest = []) \/
      (exists before p e,
         done = before ++ [p] /\
         fst (fs_rimraf p (rimraf_all before fs)) = Throw e /\
         outcome run = Throw e))) /\
  (removable targets fs = true ->
   run = (Ok tt, rimraf_all targets fs, CallReaddir dir :: map CallRimraf targets)) /\
  (forall p,
     In (CallRimraf p) (events run) ->
     exists item,
       In item items /\
       ~ protected_from_deletion dir virtualStoreDir item /\
       p = path_join dir item) /\
  ((forall item, In item items -> path_join dir item <> dir) ->
   ~ In (CallRimraf dir) (events run)).
Proof.
  intros Hread run targets.
  assert (Hloop : exists done rest,
     targets = done ++ rest /\
     events run = CallReaddir dir :: map CallRimraf done /\
     final_fs run = rimraf_all done fs /\
     ((outcome run = Ok tt /\ rest = []) \/
      (exists before p e,
         done = before ++ [p] /\
         fst (fs_rimraf p (rimraf_all before fs)) = Throw e /\
         outcome run = Throw e))).
  { subst run targets. unfold removeContentsOfDir. rewrite bind_run.
    unfold readdir. rewrite Hread.
    destruct (removal_loop dir virtualStoreDir items fs _ _ _ (run_eta _))
      as (done & rest & Ht & He & Hf & Ho).
    exists done, rest. rewrite events_mk, final_fs_mk, outcome_mk, He.
    repeat split; assumption. }
  assert (Honly : forall p,
     In (CallRimraf p) (events run) ->
     exists item,
       In item items /\
       ~ protected_from_deletion dir virtualStoreDir item /\
       p = path_join dir item).
  { destruct Hloop as (done & rest & Ht & He & _ & _).
    intros p Hin. rewrite He in Hin. destruct Hin as [Hin|Hin]; [discriminate Hin|].
    apply in_map_iff in Hin. destruct Hin as (q & Hq & Hin). injection Hq as ->.
    assert (Hin' : In p targets).
    { rewrite Ht. apply in_or_app. left. exact Hin. }
    unfold targets, purge_targets in Hin'. apply in_map_iff in Hin'.
    destruct Hin' as (item & <- & Hitem). apply filter_In in Hitem.
    destruct Hitem as [Hitem Hk]. exists item. repeat split; [exact Hitem|].
    intros Hprot. apply is_kept_protected in Hprot. rewrite Hprot in Hk. discriminate Hk. }
  split; [|split; [|split; [|split]]].
  - intros item. apply is_kept_protected.
  - exact Hloop.
  - intros Hall. subst run targets. unfold removeContentsOfDir, bind, readdir.
    rewrite Hread, (removal_loop_succeeds dir virtualStoreDir items fs Hall). reflexivity.
  - exact Honly.
  - intros Hne Hin. destruct (Honly dir Hin) as (item & Hitem & _ & Heq).
    exact (Hne item Hitem (eq_sym Heq)).
Qed.






(** The purge engine beside other tasks. *)
Lemma await_readdir_runs (dir : string) (evs : list Event)
    (r : result SystemError (list string)) :
  Runs (await_readdir dir) evs r -> evs = [CallReaddir dir] /\ exists s, fs_readdir dir s = r.
Proof.
  unfold await_readdir. intros Hruns. apply Runs_bind_inv in Hruns.
  destruct Hruns as [(a & e1 & e2 & H1 & H2 & ->)|(e & H1 & _)].
  - apply Runs_now_inv in H1. destruct H1 as (s1 & s1' & H1). injection H1 as _ _ <-.
    apply Runs_later_inv in H2. destruct H2 as (s2 & s2' & H2). injection H2 as <- _ <-.
    split; [reflexivity | eauto].
  - apply Runs_now_inv in H1. destruct H1 as (s1 & s1' & H1). discriminate H1.
Qed.

Lemma await_rimraf_runs (p : string) (evs : list Event) (r : result SystemError unit) :
  Runs (await_rimraf p) evs r -> evs = [CallRimraf p] /\ exists s, fst (fs_rimraf p s) = r.
Proof.
  unfold await_rimraf. intros Hruns. apply Runs_bind_inv in Hruns.
  destruct Hruns as [(a & e1 & e2 & H1 & H2 & ->)|(e & H1 & _)].
  - apply Runs_now_inv in H1. destruct H1 as (s1 & s1' & H1). injection H1 as _ _ <-.
    apply Runs_later_inv in H2. destruct H2 as (s2 & s2' & H2).
    destruct (fs_rimraf p s2) as [r2 s3] eqn:Hr. injection H2 as <- _ <-.
    split; [reflexivity|]. exists s2. rewrite Hr. reflexivity.
  - apply Runs_now_inv in H1. destruct H1 as (s1 & s1' & H1). discriminate H1.
Qed.

Lemma removal_runs (dir virtualStoreDir : string) (items : list string) :
  forall evs r,
  Runs (a_for_of items (fun item =>
          if is_kept dir virtualStoreDir item
          then a_ret tt
          else await_rimraf (path_join dir item))) evs r ->
  exists removed rest,
    purge_targets dir virtualStoreDir items = removed ++ rest /\
    evs = map CallRimraf removed /\
    ((rest = [] /\ r = Ok tt) \/
     (exists before p s' e,
        removed = before ++ [p] /\ fst (fs_rimraf p s') = Throw e /\ r = Throw e)).
Proof.
  induction items as [|item items IH]; intros evs r Hruns.
  - destruct Hruns as [-> ->]. exists [], []. repeat split. left. split; reflexivity.
  - cbn [a_for_of] in Hruns. unfold purge_targets. cbn [List.filter].
    apply Runs_bind_inv in Hruns.
    destruct (is_kept dir virtualStoreDir item) eqn:Hk; cbn [negb].
    + destruct Hruns as [(a & e1 & e2 & [-> _] & H2 & ->)|(e & [_ Hx] & _)];
        [|discriminate Hx].
      exact (IH _ _ H2).
    + destruct Hruns as [(a & e1 & e2 & H1 & H2 & ->)|(e & H1 & ->)].
      * apply await_rimraf_runs in H1. destruct H1 as [-> _].
        destruct (IH _ _ H2) as (removed & rest & Ht & -> & Ho).
        exists (path_join dir item :: removed), rest. cbn [map app].
        unfold purge_targets in Ht. rewrite Ht. repeat split.
        destruct Ho as [Ho|(before & p & s' & e & -> & Hfail & Ho)]; [left; exact Ho|].
        right. exists (path_join dir item :: before), p, s', e. repeat split; assumption.
      * apply await_rimraf_runs in H1. destruct H1 as [-> [s' Hfail]].
        exists [path_join dir item],
               (map (path_join dir)
                  (List.filter (fun item => negb (is_kept dir virtualStoreDir item)) items)).
        repeat split. right. exists [], (path_join dir item), s', e. repeat split. exact Hfail.
Qed.

(** A purge whose listing comes about as [listing] does. *)
Lemma purge_body_runs (virtualStoreDir : string) (importer : Importer)
    (listing : Async SystemError (list string)) (first : list Event) :
  (forall evs r, Runs listing evs r ->
                 evs = first /\ exists s, fs_readdir (modulesDir importer) s = r) ->
  forall evs r,
  Runs (a_try_catch
          (items <- listing ;;
           a_for_of items (fun item =>
             if is_kept (modulesDir importer) virtualStoreDir item
             then a_ret tt
             else await_rimraf (path_join (modulesDir importer) item)))%async
          (fun err =>
             if negb (String.eqb (code err) "ENOENT")
             then a_throw (FsError err) else a_ret tt)) evs r ->
  exists removed,
    evs = first ++ map CallRimraf removed /\
    purge_run (modulesDir importer) virtualStoreDir removed r.
Proof.
  intros Hlisting evs r Hruns. apply Runs_try_catch_inv in Hruns.
  destruct Hruns as [(a & Hbody & ->)|(e & e1 & e2 & Hbody & Hcatch & ->)].
  - apply Runs_bind_inv in Hbody.
    destruct Hbody as [(items & l1 & l2 & H1 & H2 & ->)|(e & _ & Hx)]; [|discriminate Hx].
    destruct (Hlisting _ _ H1) as [-> [s Hread]].
    destruct (removal_runs _ _ _ _ _ H2) as (removed & rest & Ht & -> & Ho).
    exists removed. split; [reflexivity|]. right. exists s, items, rest.
    split; [exact Hread|]. split; [exact Ht|].
    destruct Ho as [[-> _]|(before & p & s' & e & _ & _ & Hx)]; [|discriminate Hx].
    left. destruct a. split; reflexivity.
  - assert (Hr : e2 = [] /\ r = ignore_ENOENT e).
    { unfold ignore_ENOENT. destruct (negb (String.eqb (code e) "ENOENT"));
        destruct Hcatch as [-> ->]; split; reflexivity. }
    destruct Hr as [-> ->]. rewrite app_nil_r.
    apply Runs_bind_inv in Hbody.
    destruct Hbody as [(items & l1 & l2 & H1 & H2 & ->)|(e0 & H1 & Hx)].
    + destruct (Hlisting _ _ H1) as [-> [s Hread]].
      destruct (removal_runs _ _ _ _ _ H2) as (removed & rest & Ht & -> & Ho).
      exists removed. split; [reflexivity|]. right. exists s, items, rest.
      split; [exact Hread|]. split; [exact Ht|].
      destruct Ho as [[_ Hx]|(before & p & s' & e0 & -> & Hfail & Hx)]; [discriminate Hx|].
      injection Hx as <-. right. exists before, p, s', e. repeat split. exact Hfail.
    + injection Hx as <-. destruct (Hlisting _ _ H1) as [-> [s Hread]].
      exists []. split; [rewrite app_nil_r; reflexivity|]. left. exists s, e. repeat split.
      exact Hread.
Qed.



Lemma purge_task_runs (virtualStoreDir : string) (importer : Importer)
    (evs : list Event) (r : result JsError unit) :
  Runs (purgeModulesDirsOfImporter_task virtualStoreDir importer) evs r ->
  exists removed,
    evs = purge_start importer ++ map CallRimraf removed /\
    purge_run (modulesDir importer) virtualStoreDir removed r.
Proof.
  unfold purgeModulesDirsOfImporter_task. intros Hruns. apply Runs_bind_inv in Hruns.
  destruct Hruns as [(a & e1 & e2 & H1 & H2 & ->)|(e & H1 & _)].
  - apply Runs_now_inv in H1. destruct H1 as (s1 & s1' & H1). injection H1 as _ _ <-.
    apply (purge_body_runs virtualStoreDir importer _ [CallReaddir (modulesDir importer)])
      in H2; [|exact (await_readdir_runs (modulesDir importer))].
    destruct H2 as (removed & -> & Hrun). exists removed. split; [reflexivity | exact Hrun].
  - apply Runs_now_inv in H1. destruct H1 as (s1 & s1' & H1). discriminate H1.
Qed.


Lemma purge_run_fails_with (dir virtualStoreDir : string) (removed : list string)
    (e : JsError) :
  purge_run dir virtualStoreDir removed (Throw e) ->
  exists e', e = FsError e' /\ code e' <> "ENOENT".
Proof.
  assert (Hignore : forall e0, ignore_ENOENT e0 = Throw e ->
                               exists e', e = FsError e' /\ code e' <> "ENOENT").
  { intros e0. unfold ignore_ENOENT.
    destruct (String.eqb (code e0) "ENOENT") eqn:Hcode; cbn [negb]; intros Hx;
      [discriminate Hx|].
    injection Hx as <-. exists e0. split; [reflexivity|]. apply String.eqb_neq. exact Hcode. }
  intros [(s & e0 & _ & _ & Hr)|(s & items & rest & _ & _ & [[_ Hr]|(b & p & s' & e0 & _ & _ & Hr)])].
  - exact (Hignore e0 (eq_sym Hr)).
  - discriminate Hr.
  - exact (Hignore e0 (eq_sym Hr)).
Qed.

(** ** Path resolver *)

Lemma has_length_non_empty (x : option (list string)) :
  has_length x = true <-> non_empty_pattern x.
Proof.
  unfold non_empty_pattern. destruct x as [[|p ps]|]; cbn; split.
  - intros Hx; discriminate Hx.
  - intros (l & Hl & Hne). injection Hl as <-. exfalso. apply Hne. reflexivity.
  - intros _. eexists. split; [reflexivity | discriminate].
  - reflexivity.
  - intros Hx; discriminate Hx.
  - intros (l & Hl & _). discriminate Hl.
Qed.

(** C9. [getExtraNodePaths] returns the one-element list
    [[virtualStoreDir/node_modules]] if and only if the extend-node-path
    flag is true (true when absent), the node linker is [isolated] and the
    hoist pattern is non-empty; in every other case it returns the empty
    list. *)
Theorem getExtraNodePaths_spec
    (extendNodePath : option bool) (hoistPattern : option (list string))
    (nodeLinker : NodeLinker) (virtualStoreDir : string) :
  let extends := extendNodePath = None \/ extendNodePath = Some true in
  let paths := getExtraNodePaths extendNodePath hoistPattern nodeLinker virtualStoreDir in
  (paths = [path_join virtualStoreDir "node_modules"] <->
   extends /\ nodeLinker = isolated /\ non_empty_pattern hoistPattern) /\
  (paths = [] <->
   ~ (extends /\ nodeLinker = isolated /\ non_empty_pattern hoistPattern)).
Proof.
  intros extends paths. subst extends paths. unfold getExtraNodePaths.
  assert (He : default true extendNodePath = true <->
               extendNodePath = None \/ extendNodePath = Some true).
  { destruct extendNodePath as [[|]|]; cbn; split; intros Hx; auto;
      try discriminate Hx.
    destruct Hx as [Hx|Hx]; discriminate Hx. }
  assert (Hn : NodeLinker_eqb nodeLinker isolated = true <-> nodeLinker = isolated).
  { destruct nodeLinker; cbn; split; intros Hx; try reflexivity; discriminate Hx. }
  pose proof (has_length_non_empty hoistPattern) as Hp.
  destruct (default true extendNodePath && NodeLinker_eqb nodeLinker isolated &&
            has_length hoistPattern) eqn:Hc.
  - apply andb_true_iff in Hc. destruct Hc as [Hc Hc3].
    apply andb_true_iff in Hc. destruct Hc as [Hc1 Hc2].
    split; split; intros Hx; try reflexivity; try discriminate Hx.
    + tauto.
    + exfalso. apply Hx. tauto.
  - split; split; intros Hx; try reflexivity; try discriminate Hx.
    + destruct Hx as (H1 & H2 & H3).
      apply He in H1. apply Hn in H2. apply Hp in H3.
      rewrite H1, H2, H3 in Hc. discriminate Hc.
    + intros (H1 & H2 & H3).
      apply He in H1. apply Hn in H2. apply Hp in H3.
      rewrite H1, H2, H3 in Hc. discriminate Hc.
Qed.

(** ** Modules validator *)

Lemma silent_run {E A} (m : M E A) (fs : FS) :
  silent m -> m fs = (outcome (m fs), fs, []).
Proof.
  intros Hs. destruct (Hs fs) as [Hf He].
  rewrite (run_eta (m fs)) at 1. rewrite Hf, He. reflexivity.
Qed.

Lemma silent_ret {E A} (a : A) : silent (ret a : M E A).
Proof. intros fs. split; reflexivity. Qed.

Lemma silent_throw {E A} (e : E) : silent (throw e : M E A).
Proof. intros fs. split; reflexivity. Qed.

Lemma silent_bind {E A B} (m : M E A) (k : A -> M E B) :
  silent m -> (forall a, silent (k a)) -> silent (bind m k).
Proof.
  intros Hm Hk fs. unfold bind. rewrite (silent_run m fs Hm).
  destruct (outcome (m fs)) as [a|e].
  - rewrite (silent_run (k a) fs (Hk a)). split; reflexivity.
  - split; reflexivity.
Qed.

Lemma silent_try_catch {E E' A} (m : M E A) (h : E -> M E' A) :
  silent m -> (forall e, silent (h e)) -> silent (try_catch m h).
Proof.
  intros Hm Hh fs. unfold try_catch. rewrite (silent_run m fs Hm).
  destruct (outcome (m fs)) as [a|e].
  - split; reflexivity.
  - rewrite (silent_run (h e) fs (Hh e)). split; reflexivity.
Qed.

Lemma silent_for_of {E A} (l : list A) (body : A -> M E unit) :
  (forall x, silent (body x)) -> silent (for_of l body).
Proof.
  intros Hb. induction l as [|x l IH]; cbn [for_of].
  - apply silent_ret.
  - apply silent_bind; [apply Hb | intros _; exact IH].
Qed.

(** The loop over [DEPENDENCIES_FIELDS]. *)
Lemma included_loop (fields : list DependenciesField)
    (include included : IncludedDependencies) (err : JsError) (fs : FS) :
  for_of fields (fun depsField =>
    if negb (Bool.eqb (included_get include depsField) (included_get included depsField))
    then throw err
    else ret tt) fs =
  (if existsb (fun f => negb (Bool.eqb (included_get include f) (included_get included f)))
        fields
   then Throw err else Ok tt, fs, []).
Proof.
  induction fields as [|f fields IH]; [reflexivity|].
  cbn [for_of existsb]. unfold bind.
  destruct (negb (Bool.eqb (included_get include f) (included_get included f))).
  - reflexivity.
  - cbn [ret orb]. rewrite IH. reflexivity.
Qed.

Lemma silent_check_project {T} (modules : Modules) (opts : ValidateOpts)
    (project : Project T) :
  silent (check_project modules opts project).
Proof.
  unfold check_project. apply silent_bind.
  - destruct (checkCompatibility _ _); [apply silent_throw | apply silent_ret].
  - intros _. destruct (negb _); [|apply silent_ret].
    destruct (vo_include opts) as [include|]; [|apply silent_ret].
    destruct (m_included modules) as [included|]; [|apply silent_ret].
    apply silent_for_of. intros f.
    destruct (negb _); [apply silent_throw | apply silent_ret].
Qed.

Lemma check_project_run {T} (modules : Modules) (opts : ValidateOpts)
    (project : Project T) (fs : FS) :
  check_project modules opts project fs =
  (check_project_outcome modules opts project, fs, []).
Proof.
  unfold check_project, check_project_outcome, bind.
  destruct (checkCompatibility _ _) as [err|]; [reflexivity|]. cbn [ret].
  destruct (negb (String.eqb (vo_lockfileDir opts) (p_rootDir project))); [|reflexivity].
  destruct (vo_include opts) as [include|]; [|reflexivity].
  destruct (m_included modules) as [included|]; [|reflexivity].
  rewrite included_loop. reflexivity.
Qed.

(** How the task of a project starts, and what it comes to. *)
Lemma validate_project_starts {T} (modules : Modules) (opts : ValidateOpts)
    (project : Project T) (s : FS) :
  advance (validate_project modules opts project) s =
  (started_project modules opts project, s,
   match check_project_outcome modules opts project with
   | Ok _ => []
   | Throw _ => if vo_forceNewModules opts then purge_start (importer_of project) else []
   end).
Proof.
  unfold validate_project, started_project, now. cbn [a_bind a_try_catch advance].
  rewrite check_project_run.
  destruct (check_project_outcome modules opts project) as [[]|e]; [reflexivity|].
  cbn [a_bind a_try_catch]. destruct (vo_forceNewModules opts); reflexivity.
Qed.

Lemma check_project_task_runs {T} (modules : Modules) (opts : ValidateOpts)
    (project : Project T) (evs : list Event) (r : result JsError bool) :
  Runs (now (check_project modules opts project) ;; a_ret false)%async evs r ->
  evs = [] /\
  r = match check_project_outcome modules opts project with
      | Ok _ => Ok false
      | Throw e => Throw e
      end.
Proof.
  intros Hruns. apply Runs_bind_inv in Hruns.
  destruct Hruns as [(a & e1 & e2 & H1 & [-> ->] & ->)|(e & H1 & ->)];
    apply Runs_now_inv in H1; destruct H1 as (s & s' & H1);
    rewrite check_project_run in H1; injection H1 as -> _ <-; split; reflexivity.
Qed.

Lemma validate_project_runs {T} (modules : Modules) (opts : ValidateOpts)
    (project : Project T) (evs : list Event) (r : result JsError bool) :
  Runs (validate_project modules opts project) evs r ->
  match check_project_outcome modules opts project with
  | Ok _ => evs = [] /\ r = Ok false
  | Throw e =>
      if vo_forceNewModules opts then
        exists removed r0,
          evs = purge_start (importer_of project) ++ map CallRimraf removed /\
          purge_run (p_modulesDir project) (vo_virtualStoreDir opts) removed r0 /\
          r = purged_flag r0
      else evs = [] /\ r = Throw e
  end.
Proof.
  unfold validate_project. intros Hruns. apply Runs_try_catch_inv in Hruns.
  destruct Hruns as [(a & Hcheck & ->)|(e & e1 & e2 & Hcheck & Hcatch & ->)];
    apply check_project_task_runs in Hcheck; destruct Hcheck as [-> Hcheck].
  - destruct (check_project_outcome modules opts project) as [[]|e]; [|discriminate Hcheck].
    injection Hcheck as ->. split; reflexivity.
  - destruct (check_project_outcome modules opts project) as [[]|e0]; [discriminate Hcheck|].
    injection Hcheck as <-. destruct (vo_forceNewModules opts); cbn [negb] in Hcatch.
    + apply Runs_bind_inv in Hcatch.
      destruct Hcatch as [(a & l1 & l2 & H1 & [-> ->] & ->)|(e' & H1 & ->)];
        apply purge_task_runs in H1; destruct H1 as (removed & -> & Hrun).
      * exists removed, (Ok a). rewrite app_nil_r. repeat split. exact Hrun.
      * exists removed, (Throw e'). repeat split. exact Hrun.
    + destruct Hcatch as [-> ->]. split; reflexivity.
Qed.


(** Without the force flag no task of the per-project stage gives way:
    the stage is settled at once. *)
Lemma project_stage_without_force {T} (modules : Modules) (opts : ValidateOpts)
    (projects : list (Project T)) (fs : FS) :
  vo_forceNewModules opts = false ->
  promise_all_map "projects" projects (validate_project modules opts) fs =
  (all_settled
     (map (fun p => match check_project_outcome modules opts p with
                    | Ok _ => Ok false
                    | Throw e => Throw e
                    end) projects), fs, []).
Proof.
  intros Hforce. apply promise_all_map_settled. intros p _.
  rewrite validate_project_starts. unfold started_project. rewrite Hforce.
  destruct (check_project_outcome modules opts p); reflexivity.
Qed.

(** The file system a [Promise.all] leaves.  The calls of a purge and
    their effects on the file system are in step, so the effects of
    purges that run side by side are those of their [rimraf] calls. *)



















Lemma purge_events_plain (importer : Importer) (removed : list string) :
  Forall (fun ev => is_control ev = false) (purge_start importer ++ map CallRimraf removed).
Proof.
  apply Forall_app. split; [repeat constructor|].
  induction removed as [|p removed IH]; constructor; [reflexivity | exact IH].
Qed.

Lemma silent_validate_hoist_pattern {T} (opts : ValidateOpts)
    (rootProject : option (Project T)) :
  vo_forceNewModules opts = false ->
  silent (validate_hoist_pattern opts rootProject).
Proof.
  intros Hforce. unfold validate_hoist_pattern.
  destruct (if truthy (vo_forceHoistPattern opts) then rootProject else None);
    [|apply silent_ret].
  apply silent_try_catch.
  - destruct (negb _); [apply silent_throw | apply silent_ret].
  - intros e. rewrite Hforce. apply silent_throw.
Qed.

Lemma silent_checks_before_registries {T} (modules : Modules)
    (projects : list (Project T)) (opts : ValidateOpts) :
  vo_forceNewModules opts = false ->
  silent (checks_before_registries modules projects opts).
Proof.
  intros Hforce. unfold checks_before_registries.
  apply silent_bind; [apply silent_validate_hoist_pattern; exact Hforce | intros p0].
  apply silent_bind; [|intros flags; apply silent_ret].
  intros s. rewrite project_stage_without_force by exact Hforce. split; reflexivity.
Qed.

(** [validateModules], once the public-hoist check has let it through. *)
Lemma validateModules_after_public_hoist {T} (modules : Modules)
    (projects : list (Project T)) (opts : ValidateOpts) (fs : FS) :
  public_hoist_differs modules opts = false ->
  validateModules modules projects opts fs =
  (emit EnterValidateModules ;;
   purged1 <- checks_before_registries modules projects opts ;;
   match mismatched_registries modules opts with
   | Some recorded =>
       if vo_forceNewModules opts then
         purge_every_project (vo_virtualStoreDir opts) projects ;;
         ret {| purged := true |}
       else throw (REGISTRIES_MISMATCH recorded (vo_registries opts) (vo_global opts))
   | None =>
       (if purged1 && negb (bool_decide (is_Some (find_root projects)))
        then purgeModulesDirsOfImporter (vo_virtualStoreDir opts) (fallback_importer opts)
        else ret tt) ;;
       ret {| purged := purged1 |}
   end) fs.
Proof.
  intros Hpub. unfold validateModules. rewrite Hpub.
  apply bind_ext_run. intros _ s0.
  unfold checks_before_registries. rewrite bind_assoc_run.
  apply bind_ext_run. intros purged0 s1. rewrite bind_assoc_run.
  apply bind_ext_run. intros flags s2. rewrite bind_ret_run.
  reflexivity.
Qed.

Lemma or_undefined_id (x : option (list string)) : or_undefined x = x.
Proof. destruct x; reflexivity. Qed.

Lemma equals_pattern_false (a b : option (list string)) :
  equals_pattern a b = false <-> a <> b.
Proof. unfold equals_pattern. apply bool_decide_eq_false. Qed.

Lemma validate_hoist_pattern_without_force {T} (opts : ValidateOpts)
    (rootProject : Project T) (fs : FS) :
  vo_forceHoistPattern opts = Some true ->
  vo_forceNewModules opts = false ->
  validate_hoist_pattern opts (Some rootProject) fs =
  (if equals_pattern (vo_currentHoistPattern opts) (vo_hoistPattern opts)
   then Ok false else Throw HOIST_PATTERN_DIFF, fs, []).
Proof.
  intros Hfh Hforce. unfold validate_hoist_pattern. rewrite Hfh. cbn [truthy].
  unfold try_catch. rewrite or_undefined_id, Hforce.
  destruct (equals_pattern _ _); reflexivity.
Qed.

(** C2, as the code has it.  When the recorded current hoist pattern
    differs from the requested one, the force (new-modules) flag is not
    set, the hoist pattern is forced ([forceHoistPattern]), the project
    list has a root project (id ['.']) and the public-hoist check does not
    fire, [validateModules] fails with [HOIST_PATTERN_DIFF]; the file
    system is left as it was and nothing was called. *)
Theorem hoist_pattern_diff_without_force {T} (modules : Modules)
    (projects : list (Project T)) (opts : ValidateOpts) (fs : FS)
    (rootProject : Project T) :
  vo_currentHoistPattern opts <> vo_hoistPattern opts ->
  vo_forceNewModules opts = false ->
  vo_forceHoistPattern opts = Some true ->
  find_root projects = Some rootProject ->
  public_hoist_differs modules opts = false ->
  validateModules modules projects opts fs =
  (Throw HOIST_PATTERN_DIFF, fs, [EnterValidateModules]).
Proof.
  intros Hdiff Hforce Hfh Hroot Hpub.
  rewrite validateModules_after_public_hoist by exact Hpub.
  unfold checks_before_registries. rewrite Hroot.
  unfold bind at 1 2 3. cbn [emit].
  rewrite (validate_hoist_pattern_without_force opts rootProject fs Hfh Hforce).
  apply equals_pattern_false in Hdiff. rewrite Hdiff. reflexivity.
Qed.

(** C10, as the code has it.  [x || undefined] leaves every array as it
    is, the empty one included, so the patterns are compared as they are:
    the public-hoist check fires exactly when it is forced and the recorded
    pattern is not the requested one, the hoist check throws exactly when
    the recorded pattern is not the requested one, and an empty requested
    pattern does mismatch an absent recorded pattern. *)
Theorem empty_pattern_is_compared_as_it_is :
  (forall x, or_undefined x = x) /\
  (forall modules opts,
     public_hoist_differs modules opts = true <->
     vo_forcePublicHoistPattern opts = Some true /\
     m_publicHoistPattern modules <> vo_publicHoistPattern opts) /\
  (forall T opts (rootProject : Project T) fs,
     vo_forceHoistPattern opts = Some true ->
     vo_forceNewModules opts = false ->
     (outcome (validate_hoist_pattern opts (Some rootProject) fs) = Throw HOIST_PATTERN_DIFF <->
      vo_currentHoistPattern opts <> vo_hoistPattern opts)) /\
  (forall T opts (rootProject : Project T) fs,
     vo_forceHoistPattern opts = Some true ->
     vo_forceNewModules opts = false ->
     vo_hoistPattern opts = Some [] ->
     vo_currentHoistPattern opts = None ->
     outcome (validate_hoist_pattern opts (Some rootProject) fs) = Throw HOIST_PATTERN_DIFF).
Proof.
  assert (Hhoist : forall T opts (rootProject : Project T) fs,
     vo_forceHoistPattern opts = Some true ->
     vo_forceNewModules opts = false ->
     (outcome (validate_hoist_pattern opts (Some rootProject) fs) = Throw HOIST_PATTERN_DIFF <->
      vo_currentHoistPattern opts <> vo_hoistPattern opts)).
  { intros T opts rootProject fs Hfh Hforce.
    rewrite (validate_hoist_pattern_without_force opts rootProject fs Hfh Hforce).
    rewrite outcome_mk, <- equals_pattern_false.
    destruct (equals_pattern _ _); split; intros Hx; try reflexivity; discriminate Hx. }
  split; [exact or_undefined_id|]. split; [|split; [exact Hhoist|]].
  - intros modules opts. unfold public_hoist_differs.
    rewrite andb_true_iff, negb_true_iff, or_undefined_id, equals_pattern_false.
    destruct (vo_forcePublicHoistPattern opts) as [[|]|]; cbn [truthy];
      split; intros [Hf Hd]; split; try exact Hd; try reflexivity; discriminate Hf.
  - intros T opts rootProject fs Hfh Hforce Hreq Hcur.
    apply (Hhoist T opts rootProject fs Hfh Hforce).
    rewrite Hreq, Hcur. discriminate.
Qed.

Lemma categories_differ_existsb (include included : IncludedDependencies) :
  existsb (fun f => negb (Bool.eqb (included_get include f) (included_get included f)))
          DEPENDENCIES_FIELDS = true <->
  categories_differ include included.
Proof.
  unfold categories_differ. rewrite existsb_exists.
  split; intros (f & Hin & Hf); exists f; (split; [exact Hin|]).
  - apply negb_true_iff, eqb_false_iff in Hf. exact Hf.
  - apply negb_true_iff, eqb_false_iff. exact Hf.
Qed.

(** C6, as the code has it.  For a project that passed the compatibility
    check, the included-categories comparison is performed if and only if
    the root directory of the project differs from the lockfile directory,
    a requested set of categories is supplied and the descriptor records
    one.  When performed, it fails with [INCLUDED_DEPS_CONFLICT] exactly
    when a category differs; when not performed, and in particular at the
    lockfile root, the project passes. *)
Theorem included_check_below_lockfile_root {T} (modules : Modules)
    (opts : ValidateOpts) (project : Project T) (fs : FS) :
  checkCompatibility modules
    {| co_modulesDir := p_modulesDir project;
       co_storeDir := vo_storeDir opts;
       co_virtualStoreDir := vo_virtualStoreDir opts |} = None ->
  let run := check_project modules opts project fs in
  (included_check_applies modules opts project = true <->
   p_rootDir project <> vo_lockfileDir opts /\
   is_Some (vo_include opts) /\
   is_Some (m_included modules)) /\
  (forall include included,
     vo_include opts = Some include ->
     m_included modules = Some included ->
     p_rootDir project <> vo_lockfileDir opts ->
     (categories_differ include included ->
      outcome run = Throw (INCLUDED_DEPS_CONFLICT (vo_lockfileDir opts) included include)) /\
     (~ categories_differ include included -> outcome run = Ok tt)) /\
  (included_check_applies modules opts project = false -> outcome run = Ok tt) /\
  (p_rootDir project = vo_lockfileDir opts -> outcome run = Ok tt).
Proof.
  intros Hcompat run.
  assert (Hguard : included_check_applies modules opts project = true <->
    p_rootDir project <> vo_lockfileDir opts /\
    is_Some (vo_include opts) /\ is_Some (m_included modules)).
  { unfold included_check_applies.
    rewrite !andb_true_iff, negb_true_iff, String.eqb_neq, !bool_decide_eq_true.
    split.
    - intros [[Hne Hi] Hm]. repeat split; try assumption. congruence.
    - intros (Hne & Hi & Hm). repeat split; try assumption. congruence. }
  assert (Hrun : run =
    (match vo_include opts, m_included modules with
     | Some include, Some included =>
         if negb (String.eqb (vo_lockfileDir opts) (p_rootDir project)) &&
            existsb (fun f => negb (Bool.eqb (included_get include f) (included_get included f)))
              DEPENDENCIES_FIELDS
         then Throw (INCLUDED_DEPS_CONFLICT (vo_lockfileDir opts) included include)
         else Ok tt
     | _, _ => Ok tt
     end, fs, [])).
  { subst run. unfold check_project, bind. rewrite Hcompat. cbn [ret].
    destruct (negb (String.eqb (vo_lockfileDir opts) (p_rootDir project)));
      [|destruct (vo_include opts), (m_included modules); reflexivity].
    destruct (vo_include opts) as [include|]; [|reflexivity].
    destruct (m_included modules) as [included|]; [|reflexivity].
    rewrite included_loop. cbn [andb app]. reflexivity. }
  rewrite Hrun, outcome_mk. split; [exact Hguard|]. split; [|split].
  - intros include included -> -> Hne.
    assert (Hdir : negb (String.eqb (vo_lockfileDir opts) (p_rootDir project)) = true).
    { apply negb_true_iff, String.eqb_neq. congruence. }
    rewrite Hdir. cbn [andb]. split; intros Hd.
    + apply categories_differ_existsb in Hd. rewrite Hd. reflexivity.
    + destruct (existsb _ _) eqn:He; [|reflexivity].
      exfalso. apply Hd, categories_differ_existsb, He.
  - intros Hoff. unfold included_check_applies in Hoff.
    destruct (vo_include opts) as [include|]; [|reflexivity].
    destruct (m_included modules) as [included|]; [|reflexivity].
    rewrite !bool_decide_eq_true_2 in Hoff by eauto.
    rewrite !andb_true_r in Hoff. rewrite Hoff. reflexivity.
  - intros Hroot.
    destruct (vo_include opts) as [include|]; [|reflexivity].
    destruct (m_included modules) as [included|]; [|reflexivity].
    rewrite Hroot, String.eqb_refl. reflexivity.
Qed.

Lemma fs_errors_ret {A} (a : A) : throws_only_fs_errors (ret a).
Proof. intros fs e He. discriminate He. Qed.

Lemma fs_errors_bind {A B} (m : M JsError A) (k : A -> M JsError B) :
  throws_only_fs_errors m -> (forall a, throws_only_fs_errors (k a)) ->
  throws_only_fs_errors (bind m k).
Proof.
  intros Hm Hk fs e. unfold bind.
  destruct (m fs) as [[[a|e0] s1] t1] eqn:Hrun.
  - destruct (k a s1) as [[r s2] t2] eqn:Hrun'. rewrite outcome_mk. intros ->.
    apply (Hk a s1). rewrite Hrun'. reflexivity.
  - rewrite outcome_mk. intros He. injection He as <-.
    apply (Hm fs). rewrite Hrun. reflexivity.
Qed.

Lemma fs_errors_try_catch {E A} (m : M E A) (h : E -> M JsError A) :
  (forall e, throws_only_fs_errors (h e)) ->
  throws_only_fs_errors (try_catch m h).
Proof.
  intros Hh fs e. unfold try_catch.
  destruct (m fs) as [[[a|e0] s1] t1].
  - intros He. discriminate He.
  - destruct (h e0 s1) as [[r s2] t2] eqn:Hrun. rewrite outcome_mk. intros ->.
    apply (Hh e0 s1). rewrite Hrun. reflexivity.
Qed.

Lemma fs_errors_purge (virtualStoreDir : string) (importer : Importer) :
  throws_only_fs_errors (purgeModulesDirsOfImporter virtualStoreDir importer).
Proof.
  unfold purgeModulesDirsOfImporter. apply fs_errors_bind.
  - intros fs e He. discriminate He.
  - intros _ fs e. unfold try_catch.
    destruct (removeContentsOfDir _ _ fs) as [[[a|e0] s1] t1].
    + intros He. discriminate He.
    + destruct (negb _); cbn; intros He; [|discriminate He].
      injection He as <-. eauto.
Qed.

Lemma fs_errors_checks_before_registries {T} (modules : Modules)
    (projects : list (Project T)) (opts : ValidateOpts) :
  vo_forceNewModules opts = true ->
  throws_only_fs_errors (checks_before_registries modules projects opts).
Proof.
  intros Hforce. unfold checks_before_registries.
  apply fs_errors_bind; [|intros p0; apply fs_errors_bind;
                                     [|intros flags; apply fs_errors_ret]].
  - unfold validate_hoist_pattern.
    destruct (if truthy _ then _ else _) as [rootProject|]; [|apply fs_errors_ret].
    apply fs_errors_try_catch. intros err. rewrite Hforce. cbn [negb].
    apply fs_errors_bind; [apply fs_errors_purge | intros _; apply fs_errors_ret].
  - intros s e. apply (promise_all_map_rejects (fun e => exists e', e = FsError e')).
    intros p evs e0 _ Hruns. apply validate_project_runs in Hruns.
    destruct (check_project_outcome modules opts p) as [[]|e1];
      [destruct Hruns as [_ Hx]; discriminate Hx|].
    rewrite Hforce in Hruns. destruct Hruns as (removed & r0 & _ & Hrun & Hr).
    destruct r0 as [[]|e2]; [discriminate Hr|]. injection Hr as ->.
    destruct (purge_run_fails_with _ _ _ _ Hrun) as (e' & -> & _). eauto.
Qed.

Lemma fs_errors_purge_every_project {T} (virtualStoreDir : string)
    (projects : list (Project T)) :
  throws_only_fs_errors (purge_every_project virtualStoreDir projects).
Proof.
  intros s e. apply (promise_all_map_rejects (fun e => exists e', e = FsError e')).
  intros p evs e0 _ Hruns. apply purge_task_runs in Hruns.
  destruct Hruns as (removed & _ & Hrun).
  destruct (purge_run_fails_with _ _ _ _ Hrun) as (e' & -> & _). eauto.
Qed.

Lemma removeContentsOfDir_events_head (dir virtualStoreDir : string) (fs : FS) :
  exists t, events (removeContentsOfDir dir virtualStoreDir fs) = CallReaddir dir :: t.
Proof.
  unfold removeContentsOfDir, bind, readdir.
  destruct (fs_readdir dir fs) as [items|e].
  - match goal with
    | |- context [for_of ?l ?b ?s] => destruct (for_of l b s) as [[r s1] t1]
    end.
    eexists. reflexivity.
  - eexists. reflexivity.
Qed.

Lemma purge_events_head (virtualStoreDir : string) (importer : Importer) (fs : FS) :
  exists t,
    events (purgeModulesDirsOfImporter virtualStoreDir importer fs) =
    LoggerInfo ("Recreating " +:+ modulesDir importer) (rootDir importer)
      :: CallReaddir (modulesDir importer) :: t.
Proof.
  destruct (removeContentsOfDir_events_head (modulesDir importer) virtualStoreDir fs)
    as [t0 Hhead].
  unfold purgeModulesDirsOfImporter, bind, try_catch, emit.
  destruct (removeContentsOfDir (modulesDir importer) virtualStoreDir fs)
    as [[[[]|e] s1] t1]; rewrite events_mk in Hhead; subst t1.
  - eexists. reflexivity.
  - destruct (if negb _ then _ else _) as [[r s2] t2]. eexists. reflexivity.
Qed.

Lemma flat_map_nil {A B} (l : list A) : flat_map (fun _ : A => @nil B) l = [].
Proof. induction l as [|x l IH]; [reflexivity | exact IH]. Qed.



(** [validateModules] when the checks purged something, no project is the
    root project and the registries check does not fire: the purge of the
    lockfile-root modules directory is what it does next. *)
Lemma validateModules_fallback {T} (modules : Modules) (projects : list (Project T))
    (opts : ValidateOpts) (fs fs1 : FS) (t0 : list Event) :
  find_root projects = None ->
  mismatched_registries modules opts = None ->
  public_hoist_differs modules opts = false ->
  checks_before_registries modules projects opts fs = (Ok true, fs1, t0) ->
  let fallback :=
    purgeModulesDirsOfImporter (vo_virtualStoreDir opts) (fallback_importer opts) fs1 in
  validateModules modules projects opts fs =
  (match outcome fallback with
   | Ok _ => Ok {| purged := true |}
   | Throw e => Throw e
   end,
   final_fs fallback,
   EnterValidateModules :: t0 ++ events fallback).
Proof.
  intros Hroot Hmis Hpub Hbefore fallback.
  rewrite validateModules_after_public_hoist by exact Hpub.
  rewrite Hmis, Hroot. unfold bind at 1 2. cbn [emit]. rewrite Hbefore.
  rewrite (bool_decide_eq_false_2 (is_Some None)) by (intros [? ?]; discriminate).
  cbn [andb negb]. unfold bind. fold fallback.
  destruct fallback as [[[[]|e] s2] t2]; cbn; rewrite ?app_nil_r; reflexivity.
Qed.

(** C5, as the code has it.  When [validateModules] returns with
    [purged = true], the project list has no project with id ['.'] and the
    registries check does not fire, the last thing it did is the purge of
    the lockfile-root modules directory ([lockfileDir] joined with the
    modules directory name). *)
Theorem fallback_purge_of_lockfile_root {T} (modules : Modules)
    (projects : list (Project T)) (opts : ValidateOpts)
    (fs fs' : FS) (r : ValidateResult) (t : list Event) :
  find_root projects = None ->
  mismatched_registries modules opts = None ->
  validateModules modules projects opts fs = (Ok r, fs', t) ->
  purged r = true ->
  exists fs1 t0 t1,
    purgeModulesDirsOfImporter (vo_virtualStoreDir opts)
      {| modulesDir := path_join (vo_lockfileDir opts) (vo_modulesDir opts);
         rootDir := vo_lockfileDir opts |} fs1 = (Ok tt, fs', t1) /\
    t = t0 ++ t1 /\
    In (LoggerInfo ("Recreating " +:+ path_join (vo_lockfileDir opts) (vo_modulesDir opts))
                   (vo_lockfileDir opts)) t1.
Proof.
  intros Hroot Hmis Hrun Hpurged.
  destruct (public_hoist_differs modules opts) eqn:Hpub.
  - exfalso. unfold validateModules in Hrun. rewrite Hpub, Hroot in Hrun.
    unfold bind in Hrun. cbn [emit] in Hrun.
    destruct (vo_forceNewModules opts); discriminate Hrun.
  - destruct (checks_before_registries modules projects opts fs)
      as [[[purged1|e] fs1] t0] eqn:Hbefore.
    + destruct purged1.
      * rewrite (validateModules_fallback _ _ _ _ _ _ Hroot Hmis Hpub Hbefore) in Hrun.
        fold (fallback_importer opts).
        destruct (purge_events_head (vo_virtualStoreDir opts) (fallback_importer opts) fs1)
          as [t2 Hhead].
        destruct (purgeModulesDirsOfImporter _ (fallback_importer opts) fs1)
          as [[[[]|e] s2] t1] eqn:Hfallback; [|discriminate Hrun].
        rewrite outcome_mk, final_fs_mk, events_mk in Hrun. injection Hrun as <- <- <-.
        exists fs1, (EnterValidateModules :: t0), t1.
        split; [exact Hfallback|]. split; [reflexivity|].
        rewrite events_mk in Hhead. rewrite Hhead. left. reflexivity.
      * exfalso. rewrite validateModules_after_public_hoist in Hrun by exact Hpub.
        rewrite Hmis in Hrun. unfold bind at 1 2 in Hrun. cbn [emit] in Hrun.
        rewrite Hbefore in Hrun. cbn [andb] in Hrun. unfold bind in Hrun.
        cbn [ret] in Hrun. injection Hrun as <- <- <-. discriminate Hpurged.
    + exfalso. rewrite validateModules_after_public_hoist in Hrun by exact Hpub.
      unfold bind at 1 2 in Hrun. cbn [emit] in Hrun. rewrite Hbefore in Hrun.
      discriminate Hrun.
Qed.

(** ** Context builders *)

Lemma bind_Ok_inv {E A B} (m : M E A) (k : A -> M E B) (fs : FS) (b : B) :
  outcome (bind m k fs) = Ok b ->
  exists a s1 t1, m fs = (Ok a, s1, t1) /\ outcome (k a s1) = Ok b.
Proof.
  unfold bind. destruct (m fs) as [[[a|e] s1] t1]; [|intros Hx; discriminate Hx].
  destruct (k a s1) as [[r s2] t2] eqn:Hk. rewrite outcome_mk. intros ->.
  exists a, s1, t1. rewrite Hk. split; reflexivity.
Qed.

(** C8, as the code has it.  In the context that [getContext] returns,
    the hoisted-executables bin path ([virtualStoreDir/node_modules/.bin])
    is prepended to the extra bin paths if and only if the requested hoist
    pattern ([opts.hoistPattern]) is non-empty; the recorded pattern plays
    no part in it. *)
Theorem extraBinPaths_follow_requested_pattern
    (opts : GetContextOptions) (fs : FS) (ctx : PnpmContext) :
  outcome (getContext opts fs) = Ok ctx ->
  let bin := path_join (path_join (ctx_virtualStoreDir ctx) "node_modules") ".bin" in
  (non_empty_pattern (o_hoistPattern opts) ->
   ctx_extraBinPaths ctx = bin :: o_extraBinPaths opts) /\
  (~ non_empty_pattern (o_hoistPattern opts) ->
   ctx_extraBinPaths ctx = o_extraBinPaths opts).
Proof.
  intros Hrun. unfold getContext in Hrun. cbv zeta in Hrun.
  apply bind_Ok_inv in Hrun. destruct Hrun as (ic0 & s1 & t1 & _ & Hrun).
  apply bind_Ok_inv in Hrun. destruct Hrun as (ic & s2 & t2 & _ & Hrun).
  unfold assemble_context in Hrun. cbv zeta in Hrun.
  apply bind_Ok_inv in Hrun. destruct Hrun as (? & s3 & t3 & _ & Hrun).
  apply bind_Ok_inv in Hrun. destruct Hrun as (? & s4 & t4 & _ & Hrun).
  apply bind_Ok_inv in Hrun. destruct Hrun as (projects & s5 & t5 & _ & Hrun).
  apply bind_Ok_inv in Hrun. destruct Hrun as (lockfiles & s6 & t6 & _ & Hrun).
  apply bind_Ok_inv in Hrun. destruct Hrun as (? & s7 & t7 & _ & Hrun).
  injection Hrun as <-. cbn [ctx_extraBinPaths ctx_virtualStoreDir].
  split; intros Hp.
  - apply has_length_non_empty in Hp. rewrite Hp. reflexivity.
  - destruct (has_length (o_hoistPattern opts)) eqn:Hl; [|reflexivity].
    exfalso. apply Hp, has_length_non_empty, Hl.
Qed.

(** [getContextForSingleImporter] decides the bin path in the same way. *)
Lemma assemble_single_extraBinPaths (manifest : ProjectManifest)
    (opts : SingleImporterOptions) (ic : ImportersContext unit) (importer : Project unit)
    (virtualStoreDir : string) (fs : FS) (ctx : PnpmSingleContext) :
  outcome (bind (assemble_single manifest opts ic importer virtualStoreDir)
                (fun ctx => ret (Some ctx)) fs) = Ok (Some ctx) ->
  sctx_extraBinPaths ctx =
  if has_length (so_hoistPattern opts)
  then path_join (path_join (sctx_virtualStoreDir ctx) "node_modules") ".bin"
         :: so_extraBinPaths opts
  else so_extraBinPaths opts.
Proof.
  intros Hrun.
  apply bind_Ok_inv in Hrun. destruct Hrun as (ctx' & s0 & t0 & Hrun & Hret).
  injection Hret as ->.
  assert (Hctx : outcome (assemble_single manifest opts ic importer virtualStoreDir fs) = Ok ctx)
    by (rewrite Hrun; reflexivity).
  clear Hrun. unfold assemble_single in Hctx. cbv zeta in Hctx.
  apply bind_Ok_inv in Hctx. destruct Hctx as (? & s1 & t1 & _ & Hctx).
  apply bind_Ok_inv in Hctx. destruct Hctx as (manifest' & s2 & t2 & _ & Hctx).
  apply bind_Ok_inv in Hctx. destruct Hctx as (lockfiles & s3 & t3 & _ & Hctx).
  apply bind_Ok_inv in Hctx. destruct Hctx as (? & s4 & t4 & _ & Hctx).
  apply bind_Ok_inv in Hctx. destruct Hctx as (? & s5 & t5 & _ & Hctx).
  injection Hctx as <-. reflexivity.
Qed.

Lemma single_importer_extraBinPaths (fuel : nat) (manifest : ProjectManifest)
    (opts : SingleImporterOptions) (alreadyPurged : bool) (fs : FS)
    (ctx : PnpmSingleContext) :
  outcome (getContextForSingleImporter fuel manifest opts alreadyPurged fs) = Ok (Some ctx) ->
  sctx_extraBinPaths ctx =
  if has_length (so_hoistPattern opts)
  then path_join (path_join (sctx_virtualStoreDir ctx) "node_modules") ".bin"
         :: so_extraBinPaths opts
  else so_extraBinPaths opts.
Proof.
  revert alreadyPurged fs.
  induction fuel as [|fuel IH]; intros alreadyPurged fs Hrun; [discriminate Hrun|].
  cbn [getContextForSingleImporter] in Hrun.
  apply bind_Ok_inv in Hrun. destruct Hrun as (? & s0 & t0 & _ & Hrun).
  apply bind_Ok_inv in Hrun. destruct Hrun as (ic & s1 & t1 & _ & Hrun).
  destruct (ic_projects ic) as [|importer rest]; [discriminate Hrun|].
  cbv zeta in Hrun.
  destruct (ic_modules ic) as [modules|];
    [|exact (assemble_single_extraBinPaths _ _ _ _ _ _ _ Hrun)].
  destruct (negb alreadyPurged);
    [|exact (assemble_single_extraBinPaths _ _ _ _ _ _ _ Hrun)].
  apply bind_Ok_inv in Hrun. destruct Hrun as (r & s2 & t2 & _ & Hrun).
  destruct (purged r);
    [exact (IH _ _ Hrun) | exact (assemble_single_extraBinPaths _ _ _ _ _ _ _ Hrun)].
Qed.

Lemma events_try_catch {E E' A} (m : M E A) (h : E -> M E' A) (fs : FS) :
  events (try_catch m h fs) =
  events (m fs) ++
  match outcome (m fs) with
  | Ok _ => []
  | Throw e => events (h e (final_fs (m fs)))
  end.
Proof.
  unfold try_catch. destruct (m fs) as [[[a|e] s1] t1].
  - cbn. rewrite app_nil_r. reflexivity.
  - rewrite outcome_mk, final_fs_mk, !events_mk.
    destruct (h e s1) as [[r s2] t2]. reflexivity.
Qed.

Lemma plain_ret {E A} (a : A) : plain (ret a : M E A).
Proof. intros fs. constructor. Qed.

Lemma plain_throw {E A} (e : E) : plain (throw e : M E A).
Proof. intros fs. constructor. Qed.

Lemma plain_emit {E} (ev : Event) : is_control ev = false -> plain (emit ev : M E unit).
Proof. intros Hev fs. constructor; [exact Hev | constructor]. Qed.

Lemma plain_bind {E A B} (m : M E A) (k : A -> M E B) :
  plain m -> (forall a, plain (k a)) -> plain (bind m k).
Proof.
  intros Hm Hk fs. rewrite events_bind. apply Forall_app. split; [apply Hm|].
  destruct (outcome (m fs)); [apply Hk | constructor].
Qed.

Lemma plain_try_catch {E E' A} (m : M E A) (h : E -> M E' A) :
  plain m -> (forall e, plain (h e)) -> plain (try_catch m h).
Proof.
  intros Hm Hh fs. rewrite events_try_catch. apply Forall_app. split; [apply Hm|].
  destruct (outcome (m fs)); [constructor | apply Hh].
Qed.

Lemma plain_for_of {E A} (l : list A) (body : A -> M E unit) :
  (forall x, plain (body x)) -> plain (for_of l body).
Proof.
  intros Hb. induction l as [|x l IH]; cbn [for_of].
  - apply plain_ret.
  - apply plain_bind; [apply Hb | intros _; exact IH].
Qed.

Lemma plain_silent {E A} (m : M E A) : silent m -> plain m.
Proof. intros Hs fs. destruct (Hs fs) as [_ ->]. constructor. Qed.

Lemma plain_readdir (dir : string) : plain (readdir dir).
Proof.
  intros fs. unfold readdir. destruct (fs_readdir dir fs); repeat constructor.
Qed.

Lemma plain_rimraf (p : string) : plain (rimraf p).
Proof.
  intros fs. unfold rimraf. destruct (fs_rimraf p fs). repeat constructor.
Qed.

Lemma plain_mkdir_recursive (p : string) : plain (mkdir_recursive p).
Proof.
  intros fs. unfold mkdir_recursive. destruct (fs_mkdir p fs). repeat constructor.
Qed.

Lemma plain_read_lockfiles (opts : ReadLockfilesOpts) : plain (read_lockfiles opts).
Proof. intros fs. repeat constructor. Qed.

Lemma plain_call_hook (hook : ReadPackageHook) (manifest : ProjectManifest)
    (dir : option string) :
  plain (call_hook hook manifest dir).
Proof.
  intros fs. unfold call_hook. destruct (hook manifest dir fs). repeat constructor.
Qed.

Lemma plain_removeContentsOfDir (dir virtualStoreDir : string) :
  plain (removeContentsOfDir dir virtualStoreDir).
Proof.
  unfold removeContentsOfDir. apply plain_bind; [apply plain_readdir | intros items].
  apply plain_for_of. intros item.
  destruct (is_kept dir virtualStoreDir item); [apply plain_ret | apply plain_rimraf].
Qed.

Lemma plain_purge (virtualStoreDir : string) (importer : Importer) :
  plain (purgeModulesDirsOfImporter virtualStoreDir importer).
Proof.
  unfold purgeModulesDirsOfImporter.
  apply plain_bind; [apply plain_emit; reflexivity | intros _].
  apply plain_try_catch; [apply plain_removeContentsOfDir | intros e].
  destruct (negb _); [apply plain_throw | apply plain_ret].
Qed.

Lemma plain_checks_before_registries {T} (modules : Modules)
    (projects : list (Project T)) (opts : ValidateOpts) :
  plain (checks_before_registries modules projects opts).
Proof.
  unfold checks_before_registries. apply plain_bind; [|intros purged0].
  - unfold validate_hoist_pattern.
    destruct (if truthy _ then _ else _) as [rootProject|]; [|apply plain_ret].
    apply plain_try_catch.
    + destruct (negb _); [apply plain_throw | apply plain_ret].
    + intros e. destruct (negb _); [apply plain_throw|].
      apply plain_bind; [apply plain_purge | intros _; apply plain_ret].
  - apply plain_bind; [|intros flags; apply plain_ret].
    apply (promise_all_map_emits (fun ev => is_control ev = false)).
    intros p evs r _ Hruns. apply validate_project_runs in Hruns.
    destruct (check_project_outcome modules opts p) as [[]|e];
      [destruct Hruns as [-> _]; constructor|].
    destruct (vo_forceNewModules opts); [|destruct Hruns as [-> _]; constructor].
    destruct Hruns as (removed & r0 & -> & _ & _). apply purge_events_plain.
Qed.

Lemma plain_purge_every_project {T} (virtualStoreDir : string)
    (projects : list (Project T)) :
  plain (purge_every_project virtualStoreDir projects).
Proof.
  apply (promise_all_map_emits (fun ev => is_control ev = false)).
  intros p evs r _ Hruns. apply purge_task_runs in Hruns.
  destruct Hruns as (removed & -> & _). apply purge_events_plain.
Qed.

(** [validateModules] marks its entry once and emits no other control
    event. *)
Lemma validateModules_events {T} (modules : Modules) (projects : list (Project T))
    (opts : ValidateOpts) (fs : FS) :
  exists t,
    events (validateModules modules projects opts fs) = EnterValidateModules :: t /\
    Forall (fun ev => is_control ev = false) t.
Proof.
  destruct (public_hoist_differs modules opts) eqn:Hpub.
  - unfold validateModules. rewrite Hpub. rewrite events_emit_bind.
    eexists. split; [reflexivity|].
    destruct (if vo_forceNewModules opts then _ else _) as [rootProject|].
    + apply (plain_bind _ _ (plain_purge _ _) (fun _ => plain_ret _)).
    + apply plain_throw.
  - rewrite validateModules_after_public_hoist by exact Hpub.
    rewrite events_emit_bind.
    eexists. split; [reflexivity|].
    apply plain_bind; [apply plain_checks_before_registries | intros purged1].
    destruct (mismatched_registries modules opts) as [recorded|].
    + destruct (vo_forceNewModules opts); [|apply plain_throw].
      apply plain_bind; [|intros _; apply plain_ret].
      apply plain_purge_every_project.
    + apply plain_bind; [|intros _; apply plain_ret].
      destruct (_ && _); [apply plain_purge | apply plain_ret].
Qed.

Lemma read_projects_run {T} (projects : list (ProjectInput T)) (lockfileDir : string)
    (modulesDir : option string) (fs : FS) :
  read_projects projects lockfileDir modulesDir fs =
  (readProjectsContext T projects lockfileDir modulesDir fs, fs,
   [CallReadProjectsContext lockfileDir modulesDir]).
Proof. reflexivity. Qed.

Lemma control_of_plain (t : list Event) :
  Forall (fun ev => is_control ev = false) t -> List.filter is_control t = [].
Proof.
  induction 1 as [|ev t Hev _ IH]; [reflexivity|].
  cbn [List.filter]. rewrite Hev. exact IH.
Qed.

Lemma control_of_plain_continuation {E A B} (o : result E A) (k : A -> M E B) (fs : FS) :
  (forall a, plain (k a)) ->
  List.filter is_control
    (match o with
     | Ok a => events (k a fs)
     | Throw _ => []
     end) = [].
Proof.
  intros Hk. destruct o as [a|e]; [|reflexivity]. apply control_of_plain, Hk.
Qed.

Lemma plain_apply_hook (hook : ReadPackageHook) (projects : list (Project ProjectExtra)) :
  plain (apply_hook hook projects).
Proof.
  induction projects as [|project projects IH]; cbn [apply_hook].
  - apply plain_ret.
  - apply plain_bind; [apply plain_call_hook | intros manifest'].
    apply plain_bind; [exact IH | intros rest'; apply plain_ret].
Qed.

Lemma plain_assemble_context (opts : GetContextOptions) (virtualStoreDir : string)
    (importersContext : ImportersContext ProjectExtra) :
  plain (assemble_context opts virtualStoreDir importersContext).
Proof.
  unfold assemble_context.
  apply plain_bind; [apply plain_mkdir_recursive | intros _].
  apply plain_bind; [|intros _].
  { apply plain_for_of. intros project. apply plain_emit. reflexivity. }
  apply plain_bind; [|intros projects].
  { destruct (o_readPackageHook opts); [apply plain_apply_hook | apply plain_ret]. }
  cbv zeta. apply plain_bind; [apply plain_read_lockfiles | intros lockfiles].
  apply plain_bind; [apply plain_emit; reflexivity | intros _; apply plain_ret].
Qed.

Lemma plain_assemble_single (manifest : ProjectManifest) (opts : SingleImporterOptions)
    (ic : ImportersContext unit) (importer : Project unit) (virtualStoreDir : string) :
  plain (assemble_single manifest opts ic importer virtualStoreDir).
Proof.
  unfold assemble_single. cbv zeta.
  apply plain_bind; [apply plain_mkdir_recursive | intros _].
  apply plain_bind; [|intros manifest'].
  { destruct (so_readPackageHook opts); [apply plain_call_hook | apply plain_ret]. }
  apply plain_bind; [apply plain_read_lockfiles | intros lockfiles].
  apply plain_bind; [apply plain_emit; reflexivity | intros _].
  apply plain_bind; [apply plain_emit; reflexivity | intros _; apply plain_ret].
Qed.

(** The control events of a validation followed by what [after] does when
    a purge is reported. *)
Lemma validation_control_trace {T A} (modules : Modules) (projects : list (Project T))
    (vopts : ValidateOpts) (after : bool -> M JsError A) (fs : FS) (retry : list Event) :
  (forall fs', List.filter is_control (events (after true fs')) = retry) ->
  plain (after false) ->
  List.filter is_control
    (events (bind (validateModules modules projects vopts)
                  (fun r => after (purged r)) fs)) =
  EnterValidateModules ::
    match outcome (validateModules modules projects vopts fs) with
    | Ok r => if purged r then retry else []
    | Throw _ => []
    end.
Proof.
  intros Htrue Hfalse. rewrite events_bind, List.filter_app.
  destruct (validateModules_events modules projects vopts fs) as (t & Ht & Hplain).
  rewrite Ht. cbn [List.filter is_control is_enter_validate orb].
  rewrite (control_of_plain t Hplain). cbn [app]. f_equal.
  destruct (outcome (validateModules modules projects vopts fs)) as [r|e]; [|reflexivity].
  destruct (purged r); [apply Htrue | apply control_of_plain, Hfalse].
Qed.

(** The control events of one run of [getContext]. *)
Lemma getContext_control_trace (opts : GetContextOptions) (fs : FS) :
  let modulesDir := default "node_modules" (o_modulesDir opts) in
  let virtualStoreDir :=
    pathAbsolute (default (path_join modulesDir ".pnpm") (o_virtualStoreDir opts))
                 (o_lockfileDir opts) in
  let read := CallReadProjectsContext (o_lockfileDir opts) (Some modulesDir) in
  List.filter is_control (events (getContext opts fs)) =
  read ::
    match readProjectsContext _ (o_allProjects opts) (o_lockfileDir opts) (Some modulesDir) fs with
    | Ok ic =>
        match ic_modules ic with
        | Some modules =>
            EnterValidateModules ::
              match outcome (validateModules modules (ic_projects ic)
                               (getContext_validate_opts opts modulesDir virtualStoreDir ic)
                               fs) with
              | Ok r => if purged r then [read] else []
              | Throw _ => []
              end
        | None => []
        end
    | Throw _ => []
    end.
Proof.
  cbv zeta. unfold getContext. cbv zeta.
  rewrite events_bind, read_projects_run, events_mk, outcome_mk, final_fs_mk.
  cbn [app List.filter is_control is_enter_validate is_read_projects is_enter_single orb].
  f_equal.
  destruct (readProjectsContext _ _ _ _ fs) as [ic|e]; [|reflexivity].
  rewrite events_bind, List.filter_app.
  rewrite (control_of_plain_continuation _ _ _ (plain_assemble_context opts _)), app_nil_r.
  destruct (ic_modules ic) as [modules|]; [|reflexivity].
  apply (validation_control_trace modules (ic_projects ic) _
           (fun purged : bool =>
              if purged
              then read_projects (o_allProjects opts) (o_lockfileDir opts)
                     (Some (default "node_modules" (o_modulesDir opts)))
              else ret ic)).
  - intros fs'. reflexivity.
  - apply plain_ret.
Qed.

Lemma finish_returns_a_context {E A} (m : M E A) (fs : FS) :
  outcome (bind m (fun ctx => ret (Some ctx)) fs) <> Ok None.
Proof.
  rewrite outcome_bind. destruct (outcome (m fs)); cbn; discriminate.
Qed.

(** The retry of [getContextForSingleImporter]: one unit of fuel is
    enough, it returns a context or throws, it reads the project state
    once, and it neither validates nor calls itself. *)
Lemma single_importer_retry (n : nat) (manifest : ProjectManifest)
    (opts : SingleImporterOptions) (fs : FS) :
  let run := getContextForSingleImporter (S n) manifest opts true fs in
  run = getContextForSingleImporter 1 manifest opts true fs /\
  outcome run <> Ok None /\
  List.filter is_control (events run) =
  [EnterGetContextForSingleImporter true;
   CallReadProjectsContext (so_lockfileDir opts) (so_modulesDir opts)].
Proof.
  cbv zeta. split; [|split].
  - cbn [getContextForSingleImporter negb]. reflexivity.
  - cbn [getContextForSingleImporter negb].
    rewrite outcome_emit_bind, outcome_bind, read_projects_run, outcome_mk, final_fs_mk.
    destruct (readProjectsContext _ _ _ _ fs) as [ic|e]; [|discriminate].
    destruct (ic_projects ic) as [|importer rest]; [discriminate|].
    destruct (ic_modules ic); apply finish_returns_a_context.
  - cbn [getContextForSingleImporter negb].
    rewrite events_emit_bind, events_bind, read_projects_run.
    rewrite events_mk, outcome_mk, final_fs_mk.
    cbn [app List.filter is_control is_enter_validate is_read_projects is_enter_single orb].
    do 2 f_equal.
    destruct (readProjectsContext _ _ _ _ fs) as [ic|e]; [|reflexivity].
    destruct (ic_projects ic) as [|importer rest]; [reflexivity|].
    apply control_of_plain.
    destruct (ic_modules ic);
      apply (plain_bind _ _ (plain_assemble_single _ _ _ _ _) (fun _ => plain_ret _)).
Qed.

(** The control events of one run of [getContextForSingleImporter]. *)
Lemma single_importer_control_trace (n : nat) (manifest : ProjectManifest)
    (opts : SingleImporterOptions) (fs : FS) :
  let virtualStoreDir :=
    pathAbsolute (default "node_modules/.pnpm" (so_virtualStoreDir opts))
                 (so_lockfileDir opts) in
  let read := CallReadProjectsContext (so_lockfileDir opts) (so_modulesDir opts) in
  List.filter is_control
    (events (getContextForSingleImporter (S (S n)) manifest opts false fs)) =
  EnterGetContextForSingleImporter false :: read ::
    match readProjectsContext unit
            [ {| pi_rootDir := so_dir opts; pi_modulesDir := None;
                 pi_binsDir := None; pi_extra := tt |} ]
            (so_lockfileDir opts) (so_modulesDir opts) fs with
    | Ok ic =>
        match ic_projects ic, ic_modules ic with
        | _ :: _, Some modules =>
            EnterValidateModules ::
              match outcome (validateModules modules (ic_projects ic)
                               (single_validate_opts opts virtualStoreDir ic) fs) with
              | Ok r =>
                  if purged r then [EnterGetContextForSingleImporter true; read] else []
              | Throw _ => []
              end
        | _, _ => []
        end
    | Throw _ => []
    end.
Proof.
  cbv zeta. remember (S n) as fuel eqn:Hfuel. cbn [getContextForSingleImporter negb].
  rewrite events_emit_bind, events_bind, read_projects_run.
  rewrite events_mk, outcome_mk, final_fs_mk.
  cbn [app List.filter is_control is_enter_validate is_read_projects is_enter_single orb].
  do 2 f_equal.
  destruct (readProjectsContext _ _ _ _ fs) as [ic|e]; [|reflexivity].
  destruct (ic_projects ic) as [|importer rest] eqn:Hprojects; [reflexivity|].
  destruct (ic_modules ic) as [modules|].
  - rewrite <- Hprojects.
    apply (validation_control_trace modules (ic_projects ic) _
             (fun purged : bool =>
                if purged
                then getContextForSingleImporter fuel manifest opts true
                else _)).
    + intros fs'. subst fuel. apply single_importer_retry.
    + apply (plain_bind _ _ (plain_assemble_single _ _ _ _ _) (fun _ => plain_ret _)).
  - apply control_of_plain.
    apply (plain_bind _ _ (plain_assemble_single _ _ _ _ _) (fun _ => plain_ret _)).
Qed.

(** C3. Within one call of [getContext] or [getContextForSingleImporter]
    the descriptor is validated at most once, and so a validation-triggered
    purge happens at most once.  The control events of a call are: the
    reading of the project state; then, when a descriptor was found, one
    validation; then, exactly when that validation reports a purge, one
    more reading of the project state (for the single-importer variant:
    one recursive call with [alreadyPurged = true], which reads the state
    and does not validate).  Nothing else follows.  Two units of fuel are
    enough for any input, so the recursion ends after at most one retry. *)
Theorem purge_retry_is_bounded :
  (forall (opts : GetContextOptions) (fs : FS),
     let modulesDir := default "node_modules" (o_modulesDir opts) in
     let virtualStoreDir :=
       pathAbsolute (default (path_join modulesDir ".pnpm") (o_virtualStoreDir opts))
                    (o_lockfileDir opts) in
     let read := CallReadProjectsContext (o_lockfileDir opts) (Some modulesDir) in
     let control := List.filter is_control (events (getContext opts fs)) in
     (control = [read] \/
      control = [read; EnterValidateModules] \/
      control = [read; EnterValidateModules; read]) /\
     (forall ic modules r,
        readProjectsContext _ (o_allProjects opts) (o_lockfileDir opts) (Some modulesDir) fs
          = Ok ic ->
        ic_modules ic = Some modules ->
        outcome (validateModules modules (ic_projects ic)
                   (getContext_validate_opts opts modulesDir virtualStoreDir ic) fs) = Ok r ->
        (purged r = true <-> control = [read; EnterValidateModules; read]))) /\
  (forall (n : nat) (manifest : ProjectManifest) (opts : SingleImporterOptions) (fs : FS),
     let virtualStoreDir :=
       pathAbsolute (default "node_modules/.pnpm" (so_virtualStoreDir opts))
                    (so_lockfileDir opts) in
     let read := CallReadProjectsContext (so_lockfileDir opts) (so_modulesDir opts) in
     let enter := EnterGetContextForSingleImporter in
     let run := getContextForSingleImporter (S (S n)) manifest opts false fs in
     let control := List.filter is_control (events run) in
     run = getContextForSingleImporter 2 manifest opts false fs /\
     outcome run <> Ok None /\
     (control = [enter false; read] \/
      control = [enter false; read; EnterValidateModules] \/
      control = [enter false; read; EnterValidateModules; enter true; read]) /\
     (forall ic importer rest modules r,
        readProjectsContext unit
          [ {| pi_rootDir := so_dir opts; pi_modulesDir := None;
               pi_binsDir := None; pi_extra := tt |} ]
          (so_lockfileDir opts) (so_modulesDir opts) fs = Ok ic ->
        ic_projects ic = importer :: rest ->
        ic_modules ic = Some modules ->
        outcome (validateModules modules (ic_projects ic)
                   (single_validate_opts opts virtualStoreDir ic) fs) = Ok r ->
        (purged r = true <->
         control = [enter false; read; EnterValidateModules; enter true; read]))).
Proof.
  split.
  - intros opts fs modulesDir virtualStoreDir read control.
    pose proof (getContext_control_trace opts fs) as Htrace. cbv zeta in Htrace.
    fold modulesDir virtualStoreDir read control in Htrace.
    split.
    + rewrite Htrace.
      destruct (readProjectsContext _ _ _ _ fs) as [ic|e]; [|left; reflexivity].
      destruct (ic_modules ic) as [modules|]; [|left; reflexivity].
      destruct (outcome (validateModules _ _ _ fs)) as [r|e];
        [|right; left; reflexivity].
      destruct (purged r); [right; right | right; left]; reflexivity.
    + intros ic modules r Hread Hmodules Hvalidate.
      rewrite Htrace, Hread, Hmodules, Hvalidate.
      destruct (purged r); split; intros Hx; try reflexivity; discriminate Hx.
  - intros n manifest opts fs virtualStoreDir read enter run control.
    pose proof (single_importer_control_trace n manifest opts fs) as Htrace.
    cbv zeta in Htrace. fold virtualStoreDir read run control in Htrace.
    split; [|split; [|split]].
    + subst run. cbn [getContextForSingleImporter negb]. reflexivity.
    + subst run. remember (S n) as fuel eqn:Hfuel.
      cbn [getContextForSingleImporter negb].
      rewrite outcome_emit_bind, outcome_bind, read_projects_run, outcome_mk, final_fs_mk.
      destruct (readProjectsContext _ _ _ _ fs) as [ic|e]; [|discriminate].
      destruct (ic_projects ic) as [|importer rest]; [discriminate|].
      destruct (ic_modules ic) as [modules|]; [|apply finish_returns_a_context].
      rewrite outcome_bind.
      destruct (outcome (validateModules _ _ _ fs)) as [r|e]; [|discriminate].
      destruct (purged r); [|apply finish_returns_a_context].
      subst fuel. apply single_importer_retry.
    + rewrite Htrace.
      destruct (readProjectsContext _ _ _ _ fs) as [ic|e]; [|left; reflexivity].
      destruct (ic_projects ic) as [|importer rest]; [left; reflexivity|].
      destruct (ic_modules ic) as [modules|]; [|left; reflexivity].
      destruct (outcome (validateModules _ _ _ fs)) as [r|e];
        [|right; left; reflexivity].
      destruct (purged r); [right; right | right; left]; reflexivity.
    + intros ic importer rest modules r Hread Hprojects Hmodules Hvalidate.
      rewrite Htrace, Hread, Hmodules. rewrite Hprojects at 1. rewrite Hvalidate.
      destruct (purged r); split; intros Hx; try reflexivity; discriminate Hx.
Qed.

End Properties.

(** * Further properties of the module *)

Section FurtherProperties.
Context `{Collaborators}.
Local Open Scope js_scope.

(** ** Events of a computation *)

Lemma emits_ret {E A} (P : Event -> Prop) (a : A) : emits P (ret a : M E A).
Proof. intros fs. constructor. Qed.

Lemma emits_throw {E A} (P : Event -> Prop) (e : E) : emits P (throw e : M E A).
Proof. intros fs. constructor. Qed.

Lemma emits_emit {E} (P : Event -> Prop) (ev : Event) : P ev -> emits P (emit ev : M E unit).
Proof. intros Hev fs. constructor; [exact Hev | constructor]. Qed.

Lemma emits_bind {E A B} (P : Event -> Prop) (m : M E A) (k : A -> M E B) :
  emits P m -> (forall a, emits P (k a)) -> emits P (bind m k).
Proof.
  intros Hm Hk fs. rewrite events_bind. apply Forall_app. split; [apply Hm|].
  destruct (outcome (m fs)); [apply Hk | constructor].
Qed.


Lemma emits_for_of {E A} (P : Event -> Prop) (l : list A) (body : A -> M E unit) :
  (forall x, emits P (body x)) -> emits P (for_of l body).
Proof.
  intros Hb. induction l as [|x l IH]; cbn [for_of].
  - apply emits_ret.
  - apply emits_bind; [apply Hb | intros _; exact IH].
Qed.

Lemma emits_silent {E A} (P : Event -> Prop) (m : M E A) : silent m -> emits P m.
Proof. intros Hs fs. destruct (Hs fs) as [_ ->]. constructor. Qed.

(** ** More on running a computation *)

Lemma ret_run {E A} (a : A) (fs : FS) : (ret a : M E A) fs = (Ok a, fs, []).
Proof. reflexivity. Qed.

Lemma bind_silent_ok {E A B} (m : M E A) (k : A -> M E B) (fs : FS) (a : A) :
  m fs = (Ok a, fs, []) -> bind m k fs = k a fs.
Proof.
  intros Hm. unfold bind. rewrite Hm. destruct (k a fs) as [[r s2] t2]. reflexivity.
Qed.

Lemma bind_cong_run {E A B} (m m' : M E A) (k : A -> M E B) (fs : FS) :
  m fs = m' fs -> bind m k fs = bind m' k fs.
Proof. intros Hm. unfold bind. rewrite Hm. reflexivity. Qed.

(** ** The checks of one project *)

Lemma hoist_check_passing {T} (projects : list (Project T)) (opts : ValidateOpts) (fs : FS) :
  hoist_check_passes projects opts ->
  validate_hoist_pattern opts (find_root projects) fs = (Ok false, fs, []).
Proof.
  intros Hpass. unfold validate_hoist_pattern.
  destruct (truthy (vo_forceHoistPattern opts)) eqn:Hforced; [|reflexivity].
  destruct (find_root projects) as [rootProject|] eqn:Hroot; [|reflexivity].
  destruct Hpass as [Hx|[Hx|Hx]]; [congruence | congruence |].
  unfold try_catch. rewrite or_undefined_id.
  unfold equals_pattern. rewrite bool_decide_eq_true_2 by exact Hx. reflexivity.
Qed.

(** The per-project stage when every project passes. *)
Lemma project_stage_passing {T} (modules : Modules) (opts : ValidateOpts)
    (projects : list (Project T)) (fs : FS) :
  (forall p, In p projects -> check_project_outcome modules opts p = Ok tt) ->
  promise_all_map "projects" projects (validate_project modules opts) fs =
  (Ok (map (fun _ => false) projects), fs, []).
Proof.
  intros Hpass.
  rewrite (promise_all_map_settled _ _ _ _ (fun _ => Ok false)).
  - f_equal. f_equal. clear. unfold all_settled.
    induction projects as [|p projects IH]; [reflexivity|].
    cbn [map flat_map thrown app] in *.
    destruct (flat_map thrown (map (fun _ : Project T => Ok false) projects));
      [|discriminate IH].
    injection IH as IH. cbn. rewrite IH. reflexivity.
  - intros p Hp. rewrite validate_project_starts. unfold started_project.
    rewrite (Hpass p Hp). reflexivity.
Qed.

(** The per-project stage when the force flag is not set and a project
    fails. *)
Lemma project_stage_first_failure {T} (modules : Modules) (opts : ValidateOpts)
    (before : list (Project T)) (p : Project T) (after : list (Project T))
    (e : JsError) (fs : FS) :
  vo_forceNewModules opts = false ->
  (forall q, In q before -> check_project_outcome modules opts q = Ok tt) ->
  check_project_outcome modules opts p = Throw e ->
  promise_all_map "projects" (before ++ p :: after) (validate_project modules opts) fs =
  (Throw e, fs, []).
Proof.
  intros Hforce Hpass Hfail. rewrite project_stage_without_force by exact Hforce.
  f_equal. f_equal. unfold all_settled.
  match goal with
  | |- match flat_map thrown ?rs with _ => _ end = _ =>
      assert (Hlog : exists log, flat_map thrown rs = e :: log)
  end.
  { induction before as [|q before IH].
    - cbn [app map flat_map thrown]. rewrite Hfail. cbn [thrown app]. eauto.
    - cbn [app map flat_map thrown]. rewrite (Hpass q (or_introl eq_refl)). cbn [thrown app].
      apply IH. intros r Hr. apply Hpass. right. exact Hr. }
  destruct Hlog as [log ->]. reflexivity.
Qed.

Lemma project_stage_flags_without_force {T} (modules : Modules) (opts : ValidateOpts)
    (projects : list (Project T)) (fs : FS) (flags : list bool) :
  vo_forceNewModules opts = false ->
  outcome (promise_all_map "projects" projects (validate_project modules opts) fs) = Ok flags ->
  existsb id flags = false.
Proof.
  intros Hforce. rewrite project_stage_without_force by exact Hforce.
  rewrite outcome_mk. unfold all_settled.
  destruct (flat_map thrown _); intros Hx; [|discriminate Hx].
  injection Hx as <-. clear.
  induction projects as [|p projects IH]; [reflexivity|].
  cbn [map omap]. destruct (check_project_outcome modules opts p); cbn; exact IH.
Qed.

Lemma checks_before_registries_without_force {T} (modules : Modules)
    (projects : list (Project T)) (opts : ValidateOpts) (fs : FS) (purged1 : bool) :
  vo_forceNewModules opts = false ->
  outcome (checks_before_registries modules projects opts fs) = Ok purged1 ->
  purged1 = false.
Proof.
  intros Hforce. unfold checks_before_registries. rewrite outcome_bind.
  assert (Hhoist : forall b,
            outcome (validate_hoist_pattern opts (find_root projects) fs) = Ok b ->
            b = false).
  { intros b. unfold validate_hoist_pattern.
    destruct (if truthy _ then _ else _) as [rootProject|]; [|intros Hb; injection Hb; auto].
    unfold try_catch. rewrite Hforce.
    destruct (negb (equals_pattern _ _)); cbn; intros Hb; [discriminate Hb|].
    injection Hb. auto. }
  rewrite (silent_run _ fs (silent_validate_hoist_pattern opts (find_root projects) Hforce))
    in *.
  rewrite outcome_mk, final_fs_mk in *.
  destruct (outcome (validate_hoist_pattern opts (find_root projects) fs)) as [purged0|e];
    [|intros Hx; discriminate Hx].
  rewrite (Hhoist purged0 eq_refl).
  rewrite outcome_bind.
  pose proof (project_stage_flags_without_force modules opts projects fs) as Hflags.
  destruct (outcome (promise_all_map "projects" projects (validate_project modules opts) fs))
    as [flags|e]; cbn; intros Hx; [|discriminate Hx].
  injection Hx as <-. rewrite (Hflags flags Hforce eq_refl). reflexivity.
Qed.

Lemma validateModules_without_force_run {T} (modules : Modules)
    (projects : list (Project T)) (opts : ValidateOpts) (fs : FS) :
  vo_forceNewModules opts = false ->
  exists r,
    validateModules modules projects opts fs = (r, fs, [EnterValidateModules]) /\
    (forall v, r = Ok v -> v = {| purged := false |}).
Proof.
  intros Hforce. destruct (public_hoist_differs modules opts) eqn:Hpub.
  - unfold validateModules. rewrite Hpub, Hforce. eexists. split; [reflexivity|].
    intros v Hv. discriminate Hv.
  - rewrite validateModules_after_public_hoist by exact Hpub.
    pose proof (checks_before_registries_without_force modules projects opts fs) as Hfalse.
    unfold bind at 1 2. cbn [emit].
    rewrite (silent_run _ fs (silent_checks_before_registries modules projects opts Hforce))
      in *.
    rewrite outcome_mk in Hfalse.
    destruct (outcome (checks_before_registries modules projects opts fs)) as [purged1|e].
    + rewrite (Hfalse purged1 Hforce eq_refl).
      destruct (mismatched_registries modules opts) as [recorded|].
      * rewrite Hforce. eexists. split; [reflexivity|]. intros v Hv. discriminate Hv.
      * eexists. split; [reflexivity|]. intros v Hv. injection Hv as <-. reflexivity.
    + eexists. split; [reflexivity|]. intros v Hv. discriminate Hv.
Qed.

(** ** Modules validator *)

(** X1. Without the force (new-modules) flag [validateModules] changes
    nothing: the file system is left as it was, no collaborator is called,
    and when it returns it reports that nothing was purged. *)
Theorem validateModules_never_mutates_without_force {T} (modules : Modules)
    (projects : list (Project T)) (opts : ValidateOpts) (fs : FS) :
  vo_forceNewModules opts = false ->
  let run := validateModules modules projects opts fs in
  final_fs run = fs /\
  events run = [EnterValidateModules] /\
  (forall r, outcome run = Ok r -> purged r = false).
Proof.
  intros Hforce run.
  destruct (validateModules_without_force_run modules projects opts fs Hforce)
    as (r & Hrun & Hr).
  subst run. rewrite Hrun. split; [reflexivity|]. split; [reflexivity|].
  intros v Hv. rewrite (Hr v Hv). reflexivity.
Qed.

Lemma public_hoist_differs_true (modules : Modules) (opts : ValidateOpts) :
  vo_forcePublicHoistPattern opts = Some true ->
  m_publicHoistPattern modules <> vo_publicHoistPattern opts ->
  public_hoist_differs modules opts = true.
Proof.
  intros Hforced Hdiff. unfold public_hoist_differs, equals_pattern.
  rewrite Hforced, or_undefined_id, bool_decide_eq_false_2 by exact Hdiff. reflexivity.
Qed.

(** X2. When the public hoist pattern is forced and differs from the
    recorded one, [validateModules] ends there.  Without the force flag,
    or when no supplied project is the root project, it fails with
    [PUBLIC_HOIST_PATTERN_DIFF] and touches nothing.  With the force flag
    and a root project it purges the modules directory of the root project
    only and returns [purged = true] without running any other check. *)
Theorem public_hoist_pattern_diff {T} (modules : Modules) (projects : list (Project T))
    (opts : ValidateOpts) (fs : FS) :
  vo_forcePublicHoistPattern opts = Some true ->
  m_publicHoistPattern modules <> vo_publicHoistPattern opts ->
  (vo_forceNewModules opts = false \/ find_root projects = None ->
   validateModules modules projects opts fs =
   (Throw PUBLIC_HOIST_PATTERN_DIFF, fs, [EnterValidateModules])) /\
  (forall rootProject,
     vo_forceNewModules opts = true ->
     find_root projects = Some rootProject ->
     let purge :=
       purgeModulesDirsOfImporter (vo_virtualStoreDir opts) (importer_of rootProject) fs in
     validateModules modules projects opts fs =
     (match outcome purge with
      | Ok _ => Ok {| purged := true |}
      | Throw e => Throw e
      end, final_fs purge, EnterValidateModules :: events purge)).
Proof.
  intros Hforced Hdiff.
  pose proof (public_hoist_differs_true modules opts Hforced Hdiff) as Hpub.
  split.
  - intros Hcase. unfold validateModules. rewrite Hpub.
    destruct Hcase as [Hforce|Hroot].
    + rewrite Hforce. reflexivity.
    + rewrite Hroot. destruct (vo_forceNewModules opts); reflexivity.
  - intros rootProject Hforce Hroot purge. unfold validateModules.
    rewrite Hpub, Hforce, Hroot. unfold bind. cbn [emit]. fold purge.
    destruct purge as [[[[]|e] s1] t1]; cbn; rewrite ?app_nil_r; reflexivity.
Qed.

(** X3. A descriptor that agrees with the request is accepted as it is:
    when no check fires, [validateModules] returns [purged = false] and
    touches nothing, whether the force flag is set or not. *)
Theorem validateModules_accepts_matching_descriptor {T} (modules : Modules)
    (projects : list (Project T)) (opts : ValidateOpts) (fs : FS) :
  public_hoist_differs modules opts = false ->
  hoist_check_passes projects opts ->
  (forall p, In p projects -> outcome (check_project modules opts p fs) = Ok tt) ->
  mismatched_registries modules opts = None ->
  validateModules modules projects opts fs =
  (Ok {| purged := false |}, fs, [EnterValidateModules]).
Proof.
  intros Hpub Hhoist Hpass Hreg.
  rewrite validateModules_after_public_hoist by exact Hpub.
  unfold checks_before_registries. rewrite Hreg.
  unfold bind at 1 2 3. cbn [emit].
  rewrite (hoist_check_passing projects opts fs Hhoist).
  unfold bind at 1.
  rewrite project_stage_passing.
  - cbn [ret orb]. unfold bind.
    assert (Hflags : existsb id (map (fun _ : Project T => false) projects) = false).
    { clear. induction projects as [|q projects IH]; [reflexivity | exact IH]. }
    rewrite Hflags. reflexivity.
  - intros p Hp. specialize (Hpass p Hp).
    rewrite check_project_run, outcome_mk in Hpass. exact Hpass.
Qed.

(** X4. Without the force flag, the error of the per-project checks is the
    one of the first failing project in the order of the list, and nothing
    is touched. *)
Theorem first_failing_project_decides {T} (modules : Modules)
    (before : list (Project T)) (p : Project T) (after : list (Project T))
    (opts : ValidateOpts) (fs : FS) (e : JsError) :
  vo_forceNewModules opts = false ->
  public_hoist_differs modules opts = false ->
  hoist_check_passes (before ++ p :: after) opts ->
  (forall q, In q before -> outcome (check_project modules opts q fs) = Ok tt) ->
  outcome (check_project modules opts p fs) = Throw e ->
  validateModules modules (before ++ p :: after) opts fs =
  (Throw e, fs, [EnterValidateModules]).
Proof.
  intros Hforce Hpub Hhoist Hpass Hfail.
  rewrite validateModules_after_public_hoist by exact Hpub.
  unfold checks_before_registries.
  unfold bind at 1 2 3. cbn [emit].
  rewrite (hoist_check_passing _ opts fs Hhoist).
  unfold bind at 1.
  rewrite (project_stage_first_failure modules opts before p after e fs Hforce).
  - reflexivity.
  - intros q Hq. specialize (Hpass q Hq).
    rewrite check_project_run, outcome_mk in Hpass. exact Hpass.
  - rewrite check_project_run, outcome_mk in Hfail. exact Hfail.
Qed.



Lemma validate_hoist_pattern_with_force {T} (opts : ValidateOpts)
    (rootProject : Project T) (fs : FS) :
  vo_forceHoistPattern opts = Some true ->
  vo_forceNewModules opts = true ->
  vo_currentHoistPattern opts <> vo_hoistPattern opts ->
  validate_hoist_pattern opts (Some rootProject) fs =
  (purgeModulesDirsOfImporter (vo_virtualStoreDir opts) (importer_of rootProject) ;;
   ret true) fs.
Proof.
  intros Hforced Hforce Hdiff. unfold validate_hoist_pattern.
  rewrite Hforced. cbn [truthy]. rewrite or_undefined_id.
  apply equals_pattern_false in Hdiff. rewrite Hdiff, Hforce. cbn [negb].
  rewrite try_catch_throw_run. reflexivity.
Qed.

(** X6. When the forced hoist pattern differs from the recorded one and
    the force flag is set, [validateModules] first purges the modules
    directory of the root project and goes on with the other checks; an
    I/O failure of that purge ends the call, and a call that returns
    reports [purged = true]. *)
Theorem hoist_pattern_diff_with_force {T} (modules : Modules)
    (projects : list (Project T)) (opts : ValidateOpts) (fs : FS)
    (rootProject : Project T) :
  vo_currentHoistPattern opts <> vo_hoistPattern opts ->
  vo_forceNewModules opts = true ->
  vo_forceHoistPattern opts = Some true ->
  find_root projects = Some rootProject ->
  public_hoist_differs modules opts = false ->
  let run := validateModules modules projects opts fs in
  let purge :=
    purgeModulesDirsOfImporter (vo_virtualStoreDir opts) (importer_of rootProject) fs in
  (exists rest, events run = EnterValidateModules :: events purge ++ rest) /\
  (forall e,
     outcome purge = Throw e ->
     run = (Throw e, final_fs purge, EnterValidateModules :: events purge)) /\
  (forall r, outcome run = Ok r -> purged r = true).
Proof.
  intros Hdiff Hforce Hforced Hroot Hpub run purge.
  assert (Hrun : run =
    (emit EnterValidateModules ;;
     purgeModulesDirsOfImporter (vo_virtualStoreDir opts) (importer_of rootProject) ;;
     flags <- promise_all_map "projects" projects (validate_project modules opts) ;;
     match mismatched_registries modules opts with
     | Some recorded =>
         purge_every_project (vo_virtualStoreDir opts) projects ;;
         ret {| purged := true |}
     | None => ret {| purged := true |}
     end) fs).
  { subst run. rewrite validateModules_after_public_hoist by exact Hpub.
    apply bind_ext_run. intros _ s0.
    unfold checks_before_registries. rewrite Hroot, bind_assoc_run.
    rewrite (bind_cong_run _ _ _ _
               (validate_hoist_pattern_with_force opts rootProject s0 Hforced Hforce Hdiff)).
    rewrite bind_assoc_run. apply bind_ext_run. intros _ s1.
    rewrite bind_ret_run, bind_assoc_run. apply bind_ext_run. intros flags s2.
    rewrite bind_ret_run. cbn [orb].
    rewrite (bool_decide_eq_true_2 (is_Some (Some rootProject))) by eauto.
    cbn [negb andb]. rewrite Hforce.
    destruct (mismatched_registries modules opts); [reflexivity|].
    rewrite bind_ret_run. reflexivity. }
  rewrite Hrun. split; [|split].
  - rewrite events_emit_bind, events_bind. fold purge. eexists. reflexivity.
  - intros e He. unfold bind at 1 2. cbn [emit]. fold purge.
    rewrite (run_eta purge), He. reflexivity.
  - intros r. rewrite outcome_emit_bind, !outcome_bind.
    destruct (outcome (purgeModulesDirsOfImporter _ _ fs)); [|intros Hx; discriminate Hx].
    match goal with
    | |- context [outcome (promise_all_map ?site ?l ?b ?st)] =>
        destruct (outcome (promise_all_map site l b st))
    end; [|intros Hx; discriminate Hx].
    destruct (mismatched_registries modules opts).
    + rewrite outcome_bind.
      match goal with
      | |- context [outcome (purge_every_project ?v ?l ?st)] =>
          destruct (outcome (purge_every_project v l st))
      end; intros Hx; [|discriminate Hx].
      injection Hx as <-. reflexivity.
    + intros Hx. injection Hx as <-. reflexivity.
Qed.

(** X7. With the force flag set, a mismatch never makes [validateModules]
    fail, save for a forced public hoist pattern that differs when no
    supplied project is the root project: whenever the public-hoist check
    does not fire or a root project is supplied, the only errors thrown
    are the I/O errors of a purge. *)
Theorem forced_validation_fails_only_on_io {T} (modules : Modules)
    (projects : list (Project T)) (opts : ValidateOpts) (fs : FS) (e : JsError) :
  vo_forceNewModules opts = true ->
  public_hoist_differs modules opts = false \/ is_Some (find_root projects) ->
  outcome (validateModules modules projects opts fs) = Throw e ->
  exists e', e = FsError e'.
Proof.
  intros Hforce Hcase.
  destruct (public_hoist_differs modules opts) eqn:Hpub.
  - destruct Hcase as [Hx|[rootProject Hroot]]; [discriminate Hx|].
    unfold validateModules. rewrite Hpub, Hforce, Hroot.
    rewrite outcome_emit_bind. revert fs e.
    apply fs_errors_bind; [apply fs_errors_purge | intros _; apply fs_errors_ret].
  - rewrite validateModules_after_public_hoist by exact Hpub.
    rewrite outcome_emit_bind. revert fs e.
    apply fs_errors_bind;
      [apply fs_errors_checks_before_registries; exact Hforce | intros purged1].
    destruct (mismatched_registries modules opts) as [recorded|].
    + rewrite Hforce. apply fs_errors_bind; [|intros _; apply fs_errors_ret].
      apply fs_errors_purge_every_project.
    + apply fs_errors_bind; [|intros _; apply fs_errors_ret].
      destruct (_ && _); [apply fs_errors_purge | apply fs_errors_ret].
Qed.




(** ** Purge engine *)

(** X9. A purge that succeeds has removed every entry that the tool
    manages: the reserved executables folder [.bin], the descriptor
    [.modules.yaml], every entry whose name does not start with ['.'],
    and the entry that resolves to the virtual store. *)
Theorem purge_removes_managed_entries
    (dir virtualStoreDir : string) (fs : FS) (items : list string) (item : string) :
  fs_readdir dir fs = Ok items ->
  outcome (removeContentsOfDir dir virtualStoreDir fs) = Ok tt ->
  In item items ->
  item = ".bin" \/ item = ".modules.yaml" \/ String.prefix "." item = false \/
    path_relative (path_join dir item) virtualStoreDir = "" ->
  In (CallRimraf (path_join dir item))
     (events (removeContentsOfDir dir virtualStoreDir fs)).
Proof.
  intros Hread Hok Hitem Hmanaged.
  assert (Hkept : is_kept dir virtualStoreDir item = false).
  { unfold is_kept, dirsAreEqual.
    destruct Hmanaged as [->|[->|[Hx|Hx]]].
    - reflexivity.
    - reflexivity.
    - rewrite Hx. reflexivity.
    - rewrite Hx. cbn [String.eqb negb]. rewrite !andb_false_r. reflexivity. }
  unfold removeContentsOfDir in *. rewrite events_bind. rewrite outcome_bind in Hok.
  unfold readdir in *. rewrite Hread in *.
  rewrite outcome_mk, final_fs_mk in *. rewrite events_mk. right.
  match goal with
  | |- context [events ?run] =>
      destruct (removal_loop dir virtualStoreDir items fs _ _ _ (run_eta run))
        as (done & rest & Htargets & Hevents & _ & Hall)
  end.
  rewrite Hevents.
  destruct Hall as [[_ ->]|(before & p & e & _ & _ & Hfail)];
    [|rewrite Hfail in Hok; discriminate Hok].
  rewrite app_nil_r in Htargets. rewrite <- Htargets.
  apply in_map. unfold purge_targets. apply in_map. apply filter_In.
  split; [exact Hitem|]. rewrite Hkept. reflexivity.
Qed.

(** ** Context builders *)

Lemma bind_run_Ok_inv {E A B} (m : M E A) (k : A -> M E B) (fs s2 : FS) (b : B)
    (t : list Event) :
  bind m k fs = (Ok b, s2, t) ->
  exists a s1 t1 t2, m fs = (Ok a, s1, t1) /\ k a s1 = (Ok b, s2, t2) /\ t = t1 ++ t2.
Proof.
  unfold bind. destruct (m fs) as [[[a|e] s1] t1]; [|intros Hx; discriminate Hx].
  destruct (k a s1) as [[r s3] t2] eqn:Hk. intros Hx. injection Hx as -> -> <-.
  exists a, s1, t1, t2. repeat split. exact Hk.
Qed.

(** What [getContext] assembles, and from which reading of the project
    state. *)
Lemma getContext_settles (opts : GetContextOptions) (fs : FS) (ctx : PnpmContext) :
  let modulesDir := default "node_modules" (o_modulesDir opts) in
  let virtualStoreDir :=
    pathAbsolute (default (path_join modulesDir ".pnpm") (o_virtualStoreDir opts))
                 (o_lockfileDir opts) in
  outcome (getContext opts fs) = Ok ctx ->
  exists ic fs' fs'',
    readProjectsContext _ (o_allProjects opts) (o_lockfileDir opts) (Some modulesDir) fs'
      = Ok ic /\
    outcome (assemble_context opts virtualStoreDir ic fs'') = Ok ctx.
Proof.
  cbv zeta. intros Hrun. unfold getContext in Hrun. cbv zeta in Hrun.
  apply bind_Ok_inv in Hrun. destruct Hrun as (ic0 & s1 & t1 & Hread & Hrun).
  rewrite read_projects_run in Hread. injection Hread as Hread <- <-.
  apply bind_Ok_inv in Hrun. destruct Hrun as (ic & s2 & t2 & Hvalid & Hrun).
  destruct (ic_modules ic0) as [modules|].
  - apply bind_run_Ok_inv in Hvalid.
    destruct Hvalid as (r & s3 & t3 & t4 & _ & Hafter & _).
    destruct (purged r).
    + rewrite read_projects_run in Hafter. injection Hafter as Hreread <- <-.
      exists ic, s3, s3. split; assumption.
    + injection Hafter as <- <- <-. exists ic0, fs, s3. split; assumption.
  - injection Hvalid as <- <- <-. exists ic0, fs, fs. split; assumption.
Qed.

Lemma assemble_context_fields (opts : GetContextOptions) (virtualStoreDir : string)
    (ic : ImportersContext ProjectExtra) (fs : FS) (ctx : PnpmContext) :
  outcome (assemble_context opts virtualStoreDir ic fs) = Ok ctx ->
  ctx_hoistPattern ctx = nullish (ic_currentHoistPattern ic) (o_hoistPattern opts) /\
  ctx_publicHoistPattern ctx =
    nullish (ic_currentPublicHoistPattern ic) (o_publicHoistPattern opts) /\
  ctx_include ctx = default (ic_include ic) (o_include opts) /\
  ctx_registries ctx = spread_registries (o_registries opts) (ic_registries ic) /\
  ctx_modulesFile ctx = ic_modules ic /\
  ctx_pendingBuilds ctx = ic_pendingBuilds ic /\
  ctx_virtualStoreDir ctx = virtualStoreDir /\
  ctx_hoistedModulesDir ctx = path_join virtualStoreDir "node_modules" /\
  ctx_extraNodePaths ctx =
    getExtraNodePaths (o_extendNodePath opts) (ctx_hoistPattern ctx) (o_nodeLinker opts)
                      virtualStoreDir.
Proof.
  intros Hrun. unfold assemble_context in Hrun. cbv zeta in Hrun.
  apply bind_Ok_inv in Hrun. destruct Hrun as (? & s3 & t3 & _ & Hrun).
  apply bind_Ok_inv in Hrun. destruct Hrun as (? & s4 & t4 & _ & Hrun).
  apply bind_Ok_inv in Hrun. destruct Hrun as (projects & s5 & t5 & _ & Hrun).
  apply bind_Ok_inv in Hrun. destruct Hrun as (lockfiles & s6 & t6 & _ & Hrun).
  apply bind_Ok_inv in Hrun. destruct Hrun as (? & s7 & t7 & _ & Hrun).
  injection Hrun as <-. repeat split; reflexivity.
Qed.

(** X10. In the context that [getContext] returns, the hoist pattern and
    the public hoist pattern are the recorded ones when the project state
    has them and the requested ones otherwise, whereas the included
    categories are the requested ones when given and the recorded ones
    otherwise; the descriptor and the pending builds are those of the
    project state. *)
Theorem context_prefers_recorded_patterns
    (opts : GetContextOptions) (fs : FS) (ctx : PnpmContext) :
  outcome (getContext opts fs) = Ok ctx ->
  exists ic fs',
    readProjectsContext _ (o_allProjects opts) (o_lockfileDir opts)
      (Some (default "node_modules" (o_modulesDir opts))) fs' = Ok ic /\
    ctx_hoistPattern ctx =
      match ic_currentHoistPattern ic with
      | Some recorded => Some recorded
      | None => o_hoistPattern opts
      end /\
    ctx_publicHoistPattern ctx =
      match ic_currentPublicHoistPattern ic with
      | Some recorded => Some recorded
      | None => o_publicHoistPattern opts
      end /\
    ctx_include ctx =
      match o_include opts with
      | Some requested => requested
      | None => ic_include ic
      end /\
    ctx_modulesFile ctx = ic_modules ic /\
    ctx_pendingBuilds ctx = ic_pendingBuilds ic.
Proof.
  intros Hrun. destruct (getContext_settles opts fs ctx Hrun) as (ic & fs' & fs'' & Hread & Hctx).
  destruct (assemble_context_fields _ _ _ _ _ Hctx)
    as (Hhoist & Hpublic & Hinclude & _ & Hmodules & Hbuilds & _).
  exists ic, fs'. split; [exact Hread|].
  rewrite Hhoist, Hpublic, Hinclude, Hmodules, Hbuilds.
  repeat split; reflexivity.
Qed.

(** X11. The registries of the context are the requested ones overridden,
    scope by scope, by those of the project state. *)
Theorem context_registries_lookup
    (opts : GetContextOptions) (fs : FS) (ctx : PnpmContext) :
  outcome (getContext opts fs) = Ok ctx ->
  exists ic fs',
    readProjectsContext _ (o_allProjects opts) (o_lockfileDir opts)
      (Some (default "node_modules" (o_modulesDir opts))) fs' = Ok ic /\
    forall scope : string,
      ctx_registries ctx !! scope =
      match ic_registries ic with
      | Some recorded =>
          match recorded !! scope with
          | Some url => Some url
          | None => o_registries opts !! scope
          end
      | None => o_registries opts !! scope
      end.
Proof.
  intros Hrun. destruct (getContext_settles opts fs ctx Hrun) as (ic & fs' & fs'' & Hread & Hctx).
  destruct (assemble_context_fields _ _ _ _ _ Hctx) as (_ & _ & _ & Hreg & _).
  exists ic, fs'. split; [exact Hread|]. intros scope.
  rewrite Hreg. unfold spread_registries. rewrite lookup_union.
  destruct (ic_registries ic) as [recorded|]; unfold default, from_option, id.
  - destruct (recorded !! scope), (o_registries opts !! scope); reflexivity.
  - rewrite lookup_empty. destruct (o_registries opts !! scope); reflexivity.
Qed.

(** X12. After a purge the context is built from the project state as it
    is after the purge: when the validation of the descriptor reports a
    purge, the descriptor, the patterns and the pending builds of the
    returned context are those of a reading made in the file system the
    validation left behind. *)
Theorem context_after_purge_uses_fresh_state
    (opts : GetContextOptions) (fs fs1 : FS) (ic0 : ImportersContext ProjectExtra)
    (modules : Modules) (r : ValidateResult) (t1 : list Event) (ctx : PnpmContext) :
  let modulesDir := default "node_modules" (o_modulesDir opts) in
  let virtualStoreDir :=
    pathAbsolute (default (path_join modulesDir ".pnpm") (o_virtualStoreDir opts))
                 (o_lockfileDir opts) in
  readProjectsContext _ (o_allProjects opts) (o_lockfileDir opts) (Some modulesDir) fs
    = Ok ic0 ->
  ic_modules ic0 = Some modules ->
  validateModules modules (ic_projects ic0)
    (getContext_validate_opts opts modulesDir virtualStoreDir ic0) fs = (Ok r, fs1, t1) ->
  purged r = true ->
  outcome (getContext opts fs) = Ok ctx ->
  exists ic,
    readProjectsContext _ (o_allProjects opts) (o_lockfileDir opts) (Some modulesDir) fs1
      = Ok ic /\
    ctx_modulesFile ctx = ic_modules ic /\
    ctx_pendingBuilds ctx = ic_pendingBuilds ic /\
    ctx_hoistPattern ctx =
      match ic_currentHoistPattern ic with
      | Some recorded => Some recorded
      | None => o_hoistPattern opts
      end.
Proof.
  cbv zeta. intros Hread Hmodules Hvalid Hpurged Hrun.
  unfold getContext in Hrun. cbv zeta in Hrun.
  rewrite outcome_bind, read_projects_run, outcome_mk, final_fs_mk, Hread in Hrun.
  rewrite Hmodules in Hrun. rewrite outcome_bind in Hrun.
  rewrite outcome_bind, final_fs_bind in Hrun.
  rewrite Hvalid, !outcome_mk, !final_fs_mk, Hpurged in Hrun.
  rewrite read_projects_run, outcome_mk, final_fs_mk in Hrun.
  destruct (readProjectsContext _ _ _ _ fs1) as [ic|e]; [|discriminate Hrun].
  destruct (assemble_context_fields _ _ _ _ _ Hrun)
    as (Hhoist & _ & _ & _ & Hfile & Hbuilds & _).
  exists ic. split; [reflexivity|]. rewrite Hfile, Hbuilds, Hhoist.
  repeat split; reflexivity.
Qed.

(** X13. The extra node path of the context follows the hoist pattern in
    effect, that of the context itself: it is the single path
    [virtualStoreDir/node_modules] exactly when node paths are extended
    (the default), the linker is [isolated] and that pattern is non-empty,
    and there is none otherwise. *)
Theorem context_extraNodePaths_follow_effective_pattern
    (opts : GetContextOptions) (fs : FS) (ctx : PnpmContext) :
  outcome (getContext opts fs) = Ok ctx ->
  let applies :=
    (o_extendNodePath opts = None \/ o_extendNodePath opts = Some true) /\
    o_nodeLinker opts = isolated /\
    non_empty_pattern (ctx_hoistPattern ctx) in
  (applies ->
   ctx_extraNodePaths ctx = [path_join (ctx_virtualStoreDir ctx) "node_modules"]) /\
  (~ applies -> ctx_extraNodePaths ctx = []).
Proof.
  intros Hrun. destruct (getContext_settles opts fs ctx Hrun) as (ic & fs' & fs'' & _ & Hctx).
  destruct (assemble_context_fields _ _ _ _ _ Hctx)
    as (_ & _ & _ & _ & _ & _ & Hstore & _ & Hpaths).
  cbv zeta. rewrite Hpaths, Hstore. unfold getExtraNodePaths.
  pose proof (has_length_non_empty (ctx_hoistPattern ctx)) as Hlen.
  split.
  - intros (Hextend & Hlinker & Hpattern).
    apply Hlen in Hpattern. rewrite Hpattern, Hlinker.
    destruct Hextend as [-> | ->]; reflexivity.
  - intros Hnot.
    destruct (default true (o_extendNodePath opts)) eqn:Hextend; [|reflexivity].
    destruct (o_nodeLinker opts) eqn:Hlinker; try reflexivity.
    destruct (has_length (ctx_hoistPattern ctx)) eqn:Hpattern; [|reflexivity].
    exfalso. apply Hnot. split; [|split; [reflexivity | apply Hlen; reflexivity]].
    destruct (o_extendNodePath opts) as [[|]|]; [right | discriminate Hextend | left];
      reflexivity.
Qed.

(** The part of a context builder that follows the validation makes the
    store directory, applies the hook, reads the lockfiles and logs: it
    neither validates nor touches a modules directory. *)
Lemma emits_apply_hook (P : Event -> Prop) (hook : ReadPackageHook)
    (projects : list (Project ProjectExtra)) :
  (forall dir, P (CallReadPackageHook dir)) ->
  emits P (apply_hook hook projects).
Proof.
  intros HP. induction projects as [|project rest IH]; cbn [apply_hook].
  - apply emits_ret.
  - apply emits_bind.
    + intros fs. unfold call_hook. destruct (hook _ _ fs). repeat constructor. apply HP.
    + intros manifest'. apply emits_bind; [exact IH | intros rest'; apply emits_ret].
Qed.

Lemma emits_assemble_context (P : Event -> Prop) (opts : GetContextOptions)
    (virtualStoreDir : string) (ic : ImportersContext ProjectExtra) :
  (forall ev, touches_modules ev = false -> is_control ev = false -> P ev) ->
  emits P (assemble_context opts virtualStoreDir ic).
Proof.
  intros HP. unfold assemble_context.
  apply emits_bind; [|intros _].
  { intros fs. unfold mkdir_recursive. destruct (fs_mkdir _ fs).
    repeat constructor. apply HP; reflexivity. }
  apply emits_bind; [|intros _].
  { apply emits_for_of. intros project. apply emits_emit. apply HP; reflexivity. }
  apply emits_bind; [|intros projects].
  { destruct (o_readPackageHook opts) as [hook|]; [|apply emits_ret].
    apply emits_apply_hook. intros dir. apply HP; reflexivity. }
  apply emits_bind; [|intros lockfiles].
  { intros fs. repeat constructor. apply HP; reflexivity. }
  apply emits_bind; [|intros _; apply emits_ret].
  apply emits_emit. apply HP; reflexivity.
Qed.

Lemma emits_assemble_single (P : Event -> Prop) (manifest : ProjectManifest)
    (opts : SingleImporterOptions) (ic : ImportersContext unit) (importer : Project unit)
    (virtualStoreDir : string) :
  (forall ev, touches_modules ev = false -> is_control ev = false -> P ev) ->
  emits P (assemble_single manifest opts ic importer virtualStoreDir).
Proof.
  intros HP. unfold assemble_single.
  apply emits_bind; [|intros _].
  { intros fs. unfold mkdir_recursive. destruct (fs_mkdir _ fs).
    repeat constructor. apply HP; reflexivity. }
  apply emits_bind; [|intros manifest'].
  { destruct (so_readPackageHook opts) as [hook|]; [|apply emits_ret].
    intros fs. unfold call_hook. destruct (hook _ _ fs). repeat constructor.
    apply HP; reflexivity. }
  apply emits_bind; [|intros lockfiles].
  { intros fs. repeat constructor. apply HP; reflexivity. }
  apply emits_bind; [|intros _].
  { apply emits_emit. apply HP; reflexivity. }
  apply emits_bind; [|intros _; apply emits_ret].
  apply emits_emit. apply HP; reflexivity.
Qed.

Lemma emits_read_projects {T} (P : Event -> Prop) (projects : list (ProjectInput T))
    (lockfileDir : string) (modulesDir : option string) :
  P (CallReadProjectsContext lockfileDir modulesDir) ->
  emits P (read_projects projects lockfileDir modulesDir).
Proof. intros HP fs. repeat constructor. exact HP. Qed.

Lemma truthy_not_requested (b : option bool) : b <> Some true -> truthy b = false.
Proof. destruct b as [[|]|]; [intros Hb; destruct Hb|..]; reflexivity. Qed.

(** X14. Unless [forceNewModules] is set, [getContext] lists no
    directory, removes nothing and logs no purge, whatever the descriptor
    and the options say and whether it returns a context or fails. *)
Theorem getContext_without_force_leaves_modules_alone
    (opts : GetContextOptions) (fs : FS) :
  o_forceNewModules opts <> Some true ->
  Forall (fun ev => touches_modules ev = false) (events (getContext opts fs)).
Proof.
  intros Hforce. apply truthy_not_requested in Hforce. revert fs.
  change (emits (fun ev => touches_modules ev = false) (getContext opts)).
  unfold getContext. cbv zeta.
  apply emits_bind; [apply emits_read_projects; reflexivity | intros ic0].
  apply emits_bind; [|intros ic; apply emits_assemble_context; intros ev Hev _; exact Hev].
  destruct (ic_modules ic0) as [modules|]; [|apply emits_ret].
  apply emits_bind.
  - intros fs.
    destruct (validateModules_without_force_run modules (ic_projects ic0)
                (getContext_validate_opts opts (default "node_modules" (o_modulesDir opts))
                   (pathAbsolute
                      (default (path_join (default "node_modules" (o_modulesDir opts)) ".pnpm")
                               (o_virtualStoreDir opts))
                      (o_lockfileDir opts)) ic0) fs Hforce) as (r & -> & _).
    repeat constructor.
  - intros r. destruct (purged r); [apply emits_read_projects; reflexivity | apply emits_ret].
Qed.

(** X15. Unless [forceNewModules] is set, [getContextForSingleImporter]
    lists no directory, removes nothing, logs no purge and never calls
    itself again. *)
Theorem single_importer_without_force_leaves_modules_alone
    (fuel : nat) (manifest : ProjectManifest) (opts : SingleImporterOptions) (fs : FS) :
  so_forceNewModules opts <> Some true ->
  Forall (fun ev => touches_modules ev = false /\
                    ev <> EnterGetContextForSingleImporter true)
         (events (getContextForSingleImporter fuel manifest opts false fs)).
Proof.
  intros Hforce. apply truthy_not_requested in Hforce.
  set (P := fun ev => touches_modules ev = false /\
                      ev <> EnterGetContextForSingleImporter true).
  assert (HP : forall ev, touches_modules ev = false -> is_control ev = false -> P ev).
  { intros ev Htouch Hcontrol. split; [exact Htouch|].
    intros ->. discriminate Hcontrol. }
  revert fs. change (emits P (getContextForSingleImporter fuel manifest opts false)).
  destruct fuel as [|fuel]; cbn [getContextForSingleImporter]; [apply emits_ret|].
  apply emits_bind; [|intros _].
  { apply emits_emit. split; [reflexivity | intros Hx; discriminate Hx]. }
  apply emits_bind; [|intros ic].
  { apply emits_read_projects. split; [reflexivity | intros Hx; discriminate Hx]. }
  destruct (ic_projects ic) as [|importer others] eqn:Hprojects; [apply emits_throw|].
  cbv zeta.
  assert (Hfinish : emits P
            (ctx <- assemble_single manifest opts ic importer
                      (pathAbsolute (default "node_modules/.pnpm" (so_virtualStoreDir opts))
                                    (so_lockfileDir opts)) ;;
             ret (Some ctx))).
  { apply emits_bind; [apply emits_assemble_single; exact HP | intros ctx; apply emits_ret]. }
  destruct (ic_modules ic) as [modules|]; [|exact Hfinish].
  cbn [negb]. intros fs. rewrite events_bind.
  destruct (validateModules_without_force_run modules (importer :: others)
              (single_validate_opts opts
                 (pathAbsolute (default "node_modules/.pnpm" (so_virtualStoreDir opts))
                               (so_lockfileDir opts)) ic) fs Hforce) as (r & -> & Hr).
  rewrite events_mk, outcome_mk, final_fs_mk. apply Forall_app. split.
  { repeat constructor. intros Hx; discriminate Hx. }
  destruct r as [v|e]; [|constructor].
  rewrite (Hr v eq_refl). cbn [purged]. apply Hfinish.
Qed.

(** X16. When the project state has no descriptor, [getContext] validates
    nothing and purges nothing, even with [forceNewModules] set: it reads
    the project state once and builds the context from it. *)
Theorem getContext_without_descriptor
    (opts : GetContextOptions) (fs : FS) (ic : ImportersContext ProjectExtra) :
  let modulesDir := default "node_modules" (o_modulesDir opts) in
  let virtualStoreDir :=
    pathAbsolute (default (path_join modulesDir ".pnpm") (o_virtualStoreDir opts))
                 (o_lockfileDir opts) in
  readProjectsContext _ (o_allProjects opts) (o_lockfileDir opts) (Some modulesDir) fs
    = Ok ic ->
  ic_modules ic = None ->
  outcome (getContext opts fs) = outcome (assemble_context opts virtualStoreDir ic fs) /\
  List.filter is_control (events (getContext opts fs)) =
    [CallReadProjectsContext (o_lockfileDir opts) (Some modulesDir)] /\
  Forall (fun ev => touches_modules ev = false) (events (getContext opts fs)).
Proof.
  cbv zeta. intros Hread Hmodules.
  assert (Hrun : getContext opts fs =
                 bind (emit (CallReadProjectsContext (o_lockfileDir opts)
                               (Some (default "node_modules" (o_modulesDir opts)))))
                      (fun _ => assemble_context opts
                         (pathAbsolute
                            (default (path_join (default "node_modules" (o_modulesDir opts))
                                                ".pnpm") (o_virtualStoreDir opts))
                            (o_lockfileDir opts)) ic) fs).
  { unfold getContext. cbv zeta. unfold bind at 1. rewrite read_projects_run, Hread.
    rewrite Hmodules. rewrite (bind_silent_ok _ _ fs ic (ret_run ic fs)).
    unfold bind, emit. reflexivity. }
  rewrite Hrun. rewrite outcome_emit_bind, events_emit_bind.
  pose proof (emits_assemble_context
                (fun ev => touches_modules ev = false /\ is_control ev = false) opts
                (pathAbsolute
                   (default (path_join (default "node_modules" (o_modulesDir opts)) ".pnpm")
                            (o_virtualStoreDir opts))
                   (o_lockfileDir opts)) ic
                (fun ev Ht Hc => conj Ht Hc) fs) as Hquiet.
  split; [reflexivity|]. split.
  - cbn [List.filter is_control is_enter_validate is_read_projects is_enter_single orb].
    f_equal. apply control_of_plain.
    eapply List.Forall_impl; [|exact Hquiet]. intros ev [_ Hc]. exact Hc.
  - constructor; [reflexivity|].
    eapply List.Forall_impl; [|exact Hquiet]. intros ev [Ht _]. exact Ht.
Qed.

(** ** The hook loop and the table of projects *)

(** X17. The loop over [readPackageHook] calls the hook once for every
    project, in order and with the project's root directory, keeps the
    manifest the project had as [originalManifest], takes the manifest
    from the hook and changes nothing else of a project. *)
Theorem hook_loop_keeps_original_manifests
    (hook : ReadPackageHook) (projects projects' : list (Project ProjectExtra))
    (fs fs' : FS) (t : list Event) :
  apply_hook hook projects fs = (Ok projects', fs', t) ->
  t = map (fun p => CallReadPackageHook (Some (p_rootDir p))) projects /\
  Forall2 (fun p p' =>
             p_id p' = p_id p /\ p_rootDir p' = p_rootDir p /\
             p_modulesDir p' = p_modulesDir p /\ p_binsDir p' = p_binsDir p /\
             buildIndex (p_extra p') = buildIndex (p_extra p) /\
             originalManifest (p_extra p') = Some (manifest (p_extra p)) /\
             exists s, fst (hook (manifest (p_extra p)) (Some (p_rootDir p)) s)
                       = Ok (manifest (p_extra p')))
          projects projects'.
Proof.
  revert projects' fs fs' t.
  induction projects as [|project rest IH]; intros projects' fs fs' t Hrun.
  - injection Hrun as <- <- <-. split; constructor.
  - cbn [apply_hook] in Hrun.
    apply bind_run_Ok_inv in Hrun.
    destruct Hrun as (manifest' & s1 & t1 & t2 & Hhook & Hrun & ->).
    apply bind_run_Ok_inv in Hrun.
    destruct Hrun as (rest' & s2 & t3 & t4 & Hrest & Hret & ->).
    injection Hret as <- <- <-.
    destruct (IH _ _ _ _ Hrest) as [-> Hall].
    unfold call_hook in Hhook.
    destruct (hook (manifest (p_extra project)) (Some (p_rootDir project)) fs)
      as [r s] eqn:Hcall.
    injection Hhook as -> <- <-.
    split; [rewrite app_nil_r; reflexivity|].
    constructor; [|exact Hall].
    cbn. repeat split. exists fs. rewrite Hcall. reflexivity.
Qed.

Lemma projects_by_rootDir_snoc (projects : list (Project ProjectExtra))
    (project : Project ProjectExtra) :
  projects_by_rootDir (projects ++ [project]) =
  <[p_rootDir project := project]> (projects_by_rootDir projects).
Proof. unfold projects_by_rootDir. rewrite fold_left_app. reflexivity. Qed.

(** X18. In the table of projects of the context, keyed by root
    directory, an entry is always a project of the list filed under its
    own root directory, and a project is found under its root directory
    whenever no later project of the list has the same one. *)
Theorem projects_by_rootDir_lookup (projects : list (Project ProjectExtra)) :
  (forall dir p, projects_by_rootDir projects !! dir = Some p ->
                 In p projects /\ p_rootDir p = dir) /\
  (forall before p after,
     projects = before ++ p :: after ->
     Forall (fun q => p_rootDir q <> p_rootDir p) after ->
     projects_by_rootDir projects !! p_rootDir p = Some p).
Proof.
  split.
  - induction projects as [|q projects IH] using rev_ind; intros dir p Hlookup.
    + unfold projects_by_rootDir in Hlookup. cbn in Hlookup.
      rewrite lookup_empty in Hlookup. discriminate Hlookup.
    + rewrite projects_by_rootDir_snoc in Hlookup.
      destruct (decide (p_rootDir q = dir)) as [Heq|Hne].
      * rewrite <- Heq, lookup_insert_eq in Hlookup. injection Hlookup as <-.
        split; [apply in_or_app; right; left; reflexivity | exact Heq].
      * rewrite lookup_insert_ne in Hlookup by exact Hne.
        destruct (IH _ _ Hlookup) as [Hin Hdir].
        split; [apply in_or_app; left; exact Hin | exact Hdir].
  - intros before p after ->.
    induction after as [|q after IH] using rev_ind; intros Hafter.
    + rewrite projects_by_rootDir_snoc. apply lookup_insert_eq.
    + apply Forall_app in Hafter. destruct Hafter as [Hafter Hq].
      inversion Hq as [|? ? Hne _]; subst.
      replace (before ++ p :: after ++ [q]) with ((before ++ p :: after) ++ [q])
        by (rewrite <- app_assoc; reflexivity).
      rewrite projects_by_rootDir_snoc, lookup_insert_ne by exact Hne.
      apply IH. exact Hafter.
Qed.

(** ** Directories of the context *)

Lemma getContext_run_shape (opts : GetContextOptions) (fs : FS) (ctx : PnpmContext) :
  let virtualStoreDir :=
    pathAbsolute (default (path_join (default "node_modules" (o_modulesDir opts)) ".pnpm")
                          (o_virtualStoreDir opts))
                 (o_lockfileDir opts) in
  outcome (getContext opts fs) = Ok ctx ->
  exists ic fs'' t,
    outcome (assemble_context opts virtualStoreDir ic fs'') = Ok ctx /\
    events (getContext opts fs) = t ++ events (assemble_context opts virtualStoreDir ic fs'').
Proof.
  cbv zeta. unfold getContext. cbv zeta. intros Hrun.
  rewrite outcome_bind in Hrun. rewrite events_bind.
  destruct (outcome (read_projects _ _ _ fs)) as [ic0|e]; [|discriminate Hrun].
  rewrite outcome_bind in Hrun. rewrite events_bind.
  match type of Hrun with
  | match outcome ?run with _ => _ end = _ => destruct (outcome run) as [ic|e]
  end; [|discriminate Hrun].
  eexists ic, _, _. split; [exact Hrun|]. rewrite app_assoc. reflexivity.
Qed.

Lemma assemble_context_makes_store (opts : GetContextOptions) (virtualStoreDir : string)
    (ic : ImportersContext ProjectExtra) (fs : FS) :
  exists t, events (assemble_context opts virtualStoreDir ic fs)
            = CallMkdir (o_storeDir opts) :: t.
Proof.
  unfold assemble_context. rewrite events_bind.
  unfold mkdir_recursive at 1. destruct (fs_mkdir (o_storeDir opts) fs) as [r s].
  rewrite events_mk. eexists. reflexivity.
Qed.

(** X19. A context returned by [getContext] has as virtual store the
    requested one, or [.pnpm] inside the modules directory
    ([node_modules] unless requested otherwise), made absolute from the
    lockfile directory; its hoisted modules directory is [node_modules]
    inside that store; and the store directory of the options has been
    created before the context is returned. *)
Theorem context_directories (opts : GetContextOptions) (fs : FS) (ctx : PnpmContext) :
  outcome (getContext opts fs) = Ok ctx ->
  ctx_virtualStoreDir ctx =
    pathAbsolute
      match o_virtualStoreDir opts with
      | Some dir => dir
      | None => path_join match o_modulesDir opts with
                          | Some dir => dir
                          | None => "node_modules"
                          end ".pnpm"
      end
      (o_lockfileDir opts) /\
  ctx_hoistedModulesDir ctx = path_join (ctx_virtualStoreDir ctx) "node_modules" /\
  In (CallMkdir (o_storeDir opts)) (events (getContext opts fs)).
Proof.
  intros Hrun. destruct (getContext_run_shape opts fs ctx Hrun) as (ic & fs'' & t & Hctx & ->).
  destruct (assemble_context_fields _ _ _ _ _ Hctx)
    as (_ & _ & _ & _ & _ & _ & Hstore & Hhoisted & _).
  rewrite Hhoisted, Hstore. split; [|split; [reflexivity|]].
  - destruct (o_virtualStoreDir opts), (o_modulesDir opts); reflexivity.
  - destruct (assemble_context_makes_store opts
                (pathAbsolute
                   (default (path_join (default "node_modules" (o_modulesDir opts)) ".pnpm")
                            (o_virtualStoreDir opts))
                   (o_lockfileDir opts)) ic fs'') as (t' & ->).
    apply in_or_app. right. left. reflexivity.
Qed.

Lemma assemble_single_fields (manifest : ProjectManifest) (opts : SingleImporterOptions)
    (ic : ImportersContext unit) (importer : Project unit) (virtualStoreDir : string)
    (fs : FS) (ctx : PnpmSingleContext) :
  outcome (bind (assemble_single manifest opts ic importer virtualStoreDir)
                (fun ctx => ret (Some ctx)) fs) = Ok (Some ctx) ->
  sctx_importerId ctx = p_id importer /\
  sctx_modulesDir ctx = p_modulesDir importer /\
  sctx_prefix ctx = so_dir opts /\
  sctx_virtualStoreDir ctx = virtualStoreDir /\
  sctx_hoistPattern ctx = nullish (ic_currentHoistPattern ic) (so_hoistPattern opts) /\
  sctx_include ctx = default (ic_include ic) (so_include opts) /\
  sctx_modulesFile ctx = ic_modules ic.
Proof.
  intros Hrun.
  apply bind_Ok_inv in Hrun. destruct Hrun as (ctx' & s0 & t0 & Hrun & Hret).
  injection Hret as ->.
  assert (Hctx : outcome (assemble_single manifest opts ic importer virtualStoreDir fs) = Ok ctx)
    by (rewrite Hrun; reflexivity).
  clear Hrun. unfold assemble_single in Hctx. cbv zeta in Hctx.
  apply bind_Ok_inv in Hctx. destruct Hctx as (? & s1 & t1 & _ & Hctx).
  apply bind_Ok_inv in Hctx. destruct Hctx as (manifest' & s2 & t2 & _ & Hctx).
  apply bind_Ok_inv in Hctx. destruct Hctx as (lockfiles & s3 & t3 & _ & Hctx).
  apply bind_Ok_inv in Hctx. destruct Hctx as (? & s4 & t4 & _ & Hctx).
  apply bind_Ok_inv in Hctx. destruct Hctx as (? & s5 & t5 & _ & Hctx).
  injection Hctx as <-. repeat split; reflexivity.
Qed.

(** X20. A context returned by [getContextForSingleImporter] describes
    the first project of a reading of the project state: its importer id
    and modules directory are that project's, its prefix is the requested
    directory, its descriptor is the one read, its hoist pattern is the
    recorded one when there is one and its included categories are the
    requested ones when given.  Its virtual store is the requested one or
    [node_modules/.pnpm], whatever the requested modules directory is. *)
Theorem single_context_describes_first_project
    (fuel : nat) (manifest : ProjectManifest) (opts : SingleImporterOptions)
    (alreadyPurged : bool) (fs : FS) (ctx : PnpmSingleContext) :
  outcome (getContextForSingleImporter fuel manifest opts alreadyPurged fs) = Ok (Some ctx) ->
  exists ic fs' importer,
    readProjectsContext unit
      [ {| pi_rootDir := so_dir opts; pi_modulesDir := None;
           pi_binsDir := None; pi_extra := tt |} ]
      (so_lockfileDir opts) (so_modulesDir opts) fs' = Ok ic /\
    head (ic_projects ic) = Some importer /\
    sctx_importerId ctx = p_id importer /\
    sctx_modulesDir ctx = p_modulesDir importer /\
    sctx_prefix ctx = so_dir opts /\
    sctx_virtualStoreDir ctx =
      pathAbsolute match so_virtualStoreDir opts with
                   | Some dir => dir
                   | None => "node_modules/.pnpm"
                   end (so_lockfileDir opts) /\
    sctx_hoistPattern ctx =
      match ic_currentHoistPattern ic with
      | Some recorded => Some recorded
      | None => so_hoistPattern opts
      end /\
    sctx_include ctx =
      match so_include opts with
      | Some requested => requested
      | None => ic_include ic
      end /\
    sctx_modulesFile ctx = ic_modules ic.
Proof.
  revert alreadyPurged fs.
  induction fuel as [|fuel IH]; intros alreadyPurged fs Hrun; [discriminate Hrun|].
  cbn [getContextForSingleImporter] in Hrun.
  rewrite outcome_emit_bind in Hrun.
  apply bind_Ok_inv in Hrun. destruct Hrun as (ic & s1 & t1 & Hread & Hrun).
  rewrite read_projects_run in Hread. injection Hread as Hread <- <-.
  destruct (ic_projects ic) as [|importer rest] eqn:Hprojects; [discriminate Hrun|].
  cbv zeta in Hrun.
  assert (Hfinish : forall s,
            outcome (bind (assemble_single manifest opts ic importer
                             (pathAbsolute
                                (default "node_modules/.pnpm" (so_virtualStoreDir opts))
                                (so_lockfileDir opts)))
                          (fun ctx => ret (Some ctx)) s) = Ok (Some ctx) ->
            exists ic fs' importer,
              readProjectsContext unit
                [ {| pi_rootDir := so_dir opts; pi_modulesDir := None;
                     pi_binsDir := None; pi_extra := tt |} ]
                (so_lockfileDir opts) (so_modulesDir opts) fs' = Ok ic /\
              head (ic_projects ic) = Some importer /\
              sctx_importerId ctx = p_id importer /\
              sctx_modulesDir ctx = p_modulesDir importer /\
              sctx_prefix ctx = so_dir opts /\
              sctx_virtualStoreDir ctx =
                pathAbsolute match so_virtualStoreDir opts with
                             | Some dir => dir
                             | None => "node_modules/.pnpm"
                             end (so_lockfileDir opts) /\
              sctx_hoistPattern ctx =
                match ic_currentHoistPattern ic with
                | Some recorded => Some recorded
                | None => so_hoistPattern opts
                end /\
              sctx_include ctx =
                match so_include opts with
                | Some requested => requested
                | None => ic_include ic
                end /\
              sctx_modulesFile ctx = ic_modules ic).
  { intros s Hctx. apply assemble_single_fields in Hctx.
    destruct Hctx as (Hid & Hdir & Hprefix & Hstore & Hhoist & Hinclude & Hfile).
    exists ic, fs, importer. rewrite Hprojects.
    repeat split; assumption. }
  destruct (ic_modules ic) as [modules|]; [|exact (Hfinish _ Hrun)].
  destruct (negb alreadyPurged); [|exact (Hfinish _ Hrun)].
  apply bind_Ok_inv in Hrun. destruct Hrun as (r & s2 & t2 & _ & Hrun).
  destruct (purged r); [exact (IH _ _ Hrun) | exact (Hfinish _ Hrun)].
Qed.

End FurtherProperties.

(** * Worked examples on the concrete world *)

Section Examples.
#[local] Existing Instance sim_data.
#[local] Existing Instance sim_world.

Local Ltac not_in_events :=
  vm_compute;
  let Hin := fresh "Hin" in
  intros Hin;
  repeat (destruct Hin as [Hin|Hin]; [discriminate Hin|]);
  exact Hin.

(** The purge of the root modules directory of the tree: no removal
    fails, so it succeeds; the dotfile directory [.cache] is kept,
    everything else goes, and the directory itself is not a target. *)
Lemma removeContentsOfDir_purge_rule_witness :
  let run := removeContentsOfDir "/w/node_modules" "/w/node_modules/.pnpm" sim_fs in
  let items := [".modules.yaml"; ".bin"; ".pnpm"; ".cache"; "lodash"] in
  fs_readdir "/w/node_modules" sim_fs = Ok items /\
  removable (purge_targets "/w/node_modules" "/w/node_modules/.pnpm" items) sim_fs = true /\
  outcome run = Ok tt /\
  events run =
    [CallReaddir "/w/node_modules";
     CallRimraf "/w/node_modules/.modules.yaml";
     CallRimraf "/w/node_modules/.bin";
     CallRimraf "/w/node_modules/.pnpm";
     CallRimraf "/w/node_modules/lodash"] /\
  omap (sim_entry_name "/w/node_modules") (map fst (final_fs run)) = [".cache"] /\
  ~ In (CallRimraf "/w/node_modules") (events run).
Proof.
  cbv zeta.
  assert (Hread : fs_readdir "/w/node_modules" sim_fs =
                    Ok [".modules.yaml"; ".bin"; ".pnpm"; ".cache"; "lodash"])
    by (vm_compute; reflexivity).
  assert (Hall : removable (purge_targets "/w/node_modules" "/w/node_modules/.pnpm"
                              [".modules.yaml"; ".bin"; ".pnpm"; ".cache"; "lodash"])
                           sim_fs = true)
    by (vm_compute; reflexivity).
  destruct (removeContentsOfDir_purge_rule "/w/node_modules" "/w/node_modules/.pnpm" sim_fs
              [".modules.yaml"; ".bin"; ".pnpm"; ".cache"; "lodash"] Hread)
    as (_ & _ & Hsuccess & _ & Hnever).
  specialize (Hsuccess Hall).
  split; [exact Hread|]. split; [exact Hall|].
  split; [rewrite Hsuccess; reflexivity|].
  split; [rewrite Hsuccess; vm_compute; reflexivity|].
  split; [rewrite Hsuccess; vm_compute; reflexivity|].
  apply Hnever. intros item Hin.
  repeat (destruct Hin as [<-|Hin]; [vm_compute; discriminate|]).
  destruct Hin.
Defined.


Lemma getExtraNodePaths_spec_witness :
  getExtraNodePaths None (Some ["*"]) isolated "/w/node_modules/.pnpm" =
    ["/w/node_modules/.pnpm/node_modules"] /\
  getExtraNodePaths None (Some []) isolated "/w/node_modules/.pnpm" = [].
Proof.
  split.
  - transitivity [path_join "/w/node_modules/.pnpm" "node_modules"];
      [|vm_compute; reflexivity].
    apply (proj2 (proj1 (getExtraNodePaths_spec None (Some ["*"]) isolated
                                  "/w/node_modules/.pnpm"))).
    split; [left; reflexivity|]. split; [reflexivity|].
    exists ["*"]. split; [reflexivity | discriminate].
  - apply (proj2 (proj2 (getExtraNodePaths_spec None (Some []) isolated
                                  "/w/node_modules/.pnpm"))).
    intros (_ & _ & l & Hl & Hne). injection Hl as <-. apply Hne. reflexivity.
Defined.

(** C2 as stated fails: the recorded pattern [["*"]] differs from the
    absent requested one and the force flag is not set, yet the hoist
    pattern is not forced and validation succeeds. *)
Lemma hoist_pattern_diff_needs_forced_pattern :
  let opts := sim_validate_opts false (Some ["*"]) None None None None None sim_registries in
  vo_currentHoistPattern opts <> vo_hoistPattern opts /\
  vo_forceNewModules opts = false /\
  validateModules sim_descriptor [sim_root; sim_sub] opts sim_fs =
    (Ok {| purged := false |}, sim_fs, [EnterValidateModules]).
Proof.
  cbv zeta. split; [discriminate|]. split; [reflexivity|]. vm_compute. reflexivity.
Qed.

Lemma hoist_pattern_diff_without_force_witness :
  let opts :=
    sim_validate_opts false (Some ["*"]) None (Some true) None None None sim_registries in
  (vo_currentHoistPattern opts <> vo_hoistPattern opts /\
   vo_forceNewModules opts = false /\
   vo_forceHoistPattern opts = Some true /\
   find_root [sim_root; sim_sub] = Some sim_root /\
   public_hoist_differs sim_descriptor opts = false) /\
  validateModules sim_descriptor [sim_root; sim_sub] opts sim_fs =
    (Throw HOIST_PATTERN_DIFF, sim_fs, [EnterValidateModules]).
Proof.
  cbv zeta. split.
  - split; [discriminate|]. repeat split; reflexivity.
  - apply (hoist_pattern_diff_without_force sim_descriptor [sim_root; sim_sub] _ sim_fs sim_root);
      try reflexivity.
    discriminate.
Defined.

(** C10 as stated fails: the empty requested pattern is not turned into
    an absent one, and it mismatches the absent recorded pattern. *)
Lemma empty_requested_pattern_mismatches_absent_recorded :
  let opts := sim_validate_opts false None (Some []) (Some true) None None None sim_registries in
  or_undefined (vo_hoistPattern opts) = Some [] /\
  vo_currentHoistPattern opts = None /\
  validateModules sim_descriptor [sim_root; sim_sub] opts sim_fs =
    (Throw HOIST_PATTERN_DIFF, sim_fs, [EnterValidateModules]).
Proof.
  cbv zeta. split; [reflexivity|]. split; [reflexivity|]. vm_compute. reflexivity.
Qed.

Lemma empty_pattern_is_compared_as_it_is_witness :
  let opts := sim_validate_opts false None (Some []) (Some true) None None None sim_registries in
  outcome (validate_hoist_pattern opts (Some sim_root) sim_fs) = Throw HOIST_PATTERN_DIFF.
Proof.
  cbv zeta.
  apply (proj2 (proj2 (proj2 empty_pattern_is_compared_as_it_is))); reflexivity.
Defined.



(** C5 as stated fails: a purge fires (the registries differ and the
    force flag is set), the project list has no root project, and yet the
    lockfile-root modules directory [/w/node_modules] is not purged. *)
Lemma no_fallback_purge_after_registries_purge :
  let opts :=
    sim_validate_opts true (Some ["*"]) (Some ["*"]) None None None None sim_other_registries in
  let run := validateModules sim_descriptor [sim_sub] opts sim_fs in
  find_root [sim_sub] = None /\
  outcome run = Ok {| purged := true |} /\
  In (LoggerInfo "Recreating /w/a/node_modules" "/w/a") (events run) /\
  path_join (vo_lockfileDir opts) (vo_modulesDir opts) = "/w/node_modules" /\
  ~ In (LoggerInfo "Recreating /w/node_modules" "/w") (events run) /\
  ~ In (CallReaddir "/w/node_modules") (events run) /\
  final_fs run =
    List.filter (fun n => negb (String.prefix "/w/a/node_modules/" (fst n)) ||
                          String.eqb (fst n) "/w/a/node_modules/.keep") sim_fs.
Proof.
  cbv zeta. split; [reflexivity|]. split; [vm_compute; reflexivity|].
  split; [vm_compute; right; left; reflexivity|]. split; [reflexivity|].
  split; [not_in_events|]. split; [not_in_events|]. vm_compute. reflexivity.
Qed.

Lemma fallback_purge_of_lockfile_root_witness :
  let opts :=
    sim_validate_opts true (Some ["*"]) (Some ["*"]) None None None
                      (Some sim_production_only) sim_registries in
  let run := validateModules sim_descriptor [sim_sub] opts sim_fs in
  (find_root [sim_sub] = None /\
   mismatched_registries sim_descriptor opts = None /\
   outcome run = Ok {| purged := true |}) /\
  exists fs1 t0 t1,
    purgeModulesDirsOfImporter "/w/node_modules/.pnpm"
      {| modulesDir := "/w/node_modules"; rootDir := "/w" |} fs1 =
      (Ok tt, final_fs run, t1) /\
    events run = t0 ++ t1 /\
    In (LoggerInfo "Recreating /w/node_modules" "/w") t1.
Proof.
  intros opts run.
  assert (Hroot : find_root [sim_sub] = None) by reflexivity.
  assert (Hmis : mismatched_registries sim_descriptor opts = None)
    by (vm_compute; reflexivity).
  assert (Hrun : run = (Ok {| purged := true |}, final_fs run, events run))
    by (vm_compute; reflexivity).
  split.
  - split; [exact Hroot|]. split; [exact Hmis|]. vm_compute. reflexivity.
  - destruct (fallback_purge_of_lockfile_root sim_descriptor [sim_sub] opts sim_fs _ _ _
                Hroot Hmis Hrun eq_refl)
      as (fs1 & t0 & t1 & Hpurge & Hevents & Hlog).
    exists fs1, t0, t1. split; [exact Hpurge|]. split; [exact Hevents | exact Hlog].
Defined.

(** C6 as stated fails: [/w/a] lies below the lockfile root [/w], but no
    set of categories is requested, so nothing is compared. *)
Lemma included_check_needs_requested_categories :
  let opts := sim_validate_opts false (Some ["*"]) (Some ["*"]) None None None None
                                sim_registries in
  p_rootDir sim_sub <> vo_lockfileDir opts /\
  included_check_applies sim_descriptor opts sim_sub = false /\
  check_project sim_descriptor opts sim_sub sim_fs = (Ok tt, sim_fs, []).
Proof.
  cbv zeta. split; [discriminate|]. split; vm_compute; reflexivity.
Qed.

Lemma included_check_below_lockfile_root_witness :
  let opts := sim_validate_opts false (Some ["*"]) (Some ["*"]) None None None
                                (Some sim_production_only) sim_registries in
  checkCompatibility sim_descriptor
    {| co_modulesDir := p_modulesDir sim_sub;
       co_storeDir := vo_storeDir opts;
       co_virtualStoreDir := vo_virtualStoreDir opts |} = None /\
  included_check_applies sim_descriptor opts sim_sub = true /\
  (exists included,
     m_included sim_descriptor = Some included /\
     outcome (check_project sim_descriptor opts sim_sub sim_fs) =
       Throw (INCLUDED_DEPS_CONFLICT "/w" included sim_production_only)) /\
  outcome (check_project sim_descriptor opts sim_root sim_fs) = Ok tt.
Proof.
  intros opts.
  assert (Hsub : checkCompatibility sim_descriptor
                   {| co_modulesDir := p_modulesDir sim_sub;
                      co_storeDir := vo_storeDir opts;
                      co_virtualStoreDir := vo_virtualStoreDir opts |} = None)
    by reflexivity.
  assert (Hroot : checkCompatibility sim_descriptor
                    {| co_modulesDir := p_modulesDir sim_root;
                       co_storeDir := vo_storeDir opts;
                       co_virtualStoreDir := vo_virtualStoreDir opts |} = None)
    by reflexivity.
  split; [exact Hsub|].
  pose proof (included_check_below_lockfile_root sim_descriptor opts sim_sub sim_fs Hsub)
    as (Hguard & Hcmp & _ & _).
  split; [|split].
  - apply Hguard. split; [discriminate|]. split; eexists; reflexivity.
  - eexists. split; [reflexivity|].
    apply (proj1 (Hcmp _ _ eq_refl eq_refl ltac:(discriminate))).
    exists devDependencies. split; [right; right; left; reflexivity | discriminate].
  - apply (included_check_below_lockfile_root sim_descriptor opts sim_root sim_fs Hroot).
    reflexivity.
Defined.

(** C8 as stated fails: the descriptor of the tree records the hoist
    pattern [["*"]], nothing is requested, so the pattern in effect is
    non-empty and the extra node path is set; the hoisted bin path is not
    prepended all the same. *)
Lemma effective_pattern_does_not_add_bin_path :
  exists ctx,
    outcome (getContext (sim_context_opts None) sim_fs) = Ok ctx /\
    ctx_hoistPattern ctx = Some ["*"] /\
    ctx_extraNodePaths ctx = ["/w/node_modules/.pnpm/node_modules"] /\
    ctx_extraBinPaths ctx = ["/usr/local/bin"].
Proof.
  eexists. split; [vm_compute; reflexivity|]. repeat split; reflexivity.
Qed.

Lemma extraBinPaths_follow_requested_pattern_witness :
  exists ctx,
    outcome (getContext (sim_context_opts (Some ["*"])) sim_fs) = Ok ctx /\
    ctx_extraBinPaths ctx = ["/w/node_modules/.pnpm/node_modules/.bin"; "/usr/local/bin"].
Proof.
  eexists. split; [vm_compute; reflexivity|].
  match goal with
  | |- ctx_extraBinPaths ?ctx = _ =>
      assert (Hrun : outcome (getContext (sim_context_opts (Some ["*"])) sim_fs) = Ok ctx)
        by (vm_compute; reflexivity)
  end.
  pose proof (extraBinPaths_follow_requested_pattern _ _ _ Hrun) as Hbin.
  cbv zeta in Hbin. destruct Hbin as [Hbin _].
  rewrite Hbin by (exists ["*"]; split; [reflexivity | discriminate]).
  vm_compute. reflexivity.
Defined.

(** A retry on the tree: the registries differ, the force flag is set, the
    root modules directory is purged, the project state is read again and
    no second validation takes place. *)
Lemma purge_retry_is_bounded_witness :
  let run :=
    getContextForSingleImporter 2 sim_manifest (sim_single_opts (Some true) sim_other_registries)
                                false sim_fs in
  getContextForSingleImporter 7 sim_manifest (sim_single_opts (Some true) sim_other_registries)
                              false sim_fs = run /\
  outcome run <> Ok None /\
  List.filter is_control (events run) =
    [EnterGetContextForSingleImporter false; CallReadProjectsContext "/w" None;
     EnterValidateModules;
     EnterGetContextForSingleImporter true; CallReadProjectsContext "/w" None].
Proof.
  cbv zeta.
  destruct (proj2 purge_retry_is_bounded 5 sim_manifest
              (sim_single_opts (Some true) sim_other_registries) sim_fs)
    as (Hfuel & Hsome & _ & _).
  split; [exact Hfuel|]. split; [rewrite <- Hfuel; exact Hsome|].
  vm_compute. reflexivity.
Defined.

End Examples.

(** * Worked examples for the further properties *)

Section FurtherExamples.
#[local] Existing Instance sim_data.
#[local] Existing Instance sim_world.

(** Differing registries without the force flag: an error, and the tree
    is as it was. *)
Lemma validateModules_never_mutates_without_force_witness :
  let opts :=
    sim_validate_opts false (Some ["*"]) (Some ["*"]) None None None None sim_other_registries in
  let run := validateModules sim_descriptor [sim_root; sim_sub] opts sim_fs in
  vo_forceNewModules opts = false /\
  final_fs run = sim_fs /\
  events run = [EnterValidateModules] /\
  (forall r, outcome run = Ok r -> purged r = false).
Proof.
  cbv zeta. split; [reflexivity|].
  apply (validateModules_never_mutates_without_force sim_descriptor [sim_root; sim_sub]
           (sim_validate_opts false (Some ["*"]) (Some ["*"]) None None None None
                              sim_other_registries) sim_fs).
  reflexivity.
Defined.

(** A forced public hoist pattern that differs: an error without the
    force flag, a purge of the root project with it. *)
Lemma public_hoist_pattern_diff_witness :
  let unforced :=
    sim_validate_opts false (Some ["*"]) (Some ["*"]) None (Some ["*eslint*"]) (Some true)
                      None sim_registries in
  let forced :=
    sim_validate_opts true (Some ["*"]) (Some ["*"]) None (Some ["*eslint*"]) (Some true)
                      None sim_registries in
  let purge :=
    purgeModulesDirsOfImporter "/w/node_modules/.pnpm" (importer_of sim_root) sim_fs in
  m_publicHoistPattern sim_descriptor <> vo_publicHoistPattern forced /\
  validateModules sim_descriptor [sim_root; sim_sub] unforced sim_fs =
    (Throw PUBLIC_HOIST_PATTERN_DIFF, sim_fs, [EnterValidateModules]) /\
  validateModules sim_descriptor [sim_root; sim_sub] forced sim_fs =
    (match outcome purge with
     | Ok _ => Ok {| purged := true |}
     | Throw e => Throw e
     end, final_fs purge, EnterValidateModules :: events purge).
Proof.
  cbv zeta.
  assert (Hne : m_publicHoistPattern sim_descriptor <> Some ["*eslint*"])
    by (intros Hx; discriminate Hx).
  split; [exact Hne|]. split.
  - apply (proj1 (public_hoist_pattern_diff sim_descriptor [sim_root; sim_sub]
                    (sim_validate_opts false (Some ["*"]) (Some ["*"]) None (Some ["*eslint*"])
                                       (Some true) None sim_registries)
                    sim_fs eq_refl Hne)).
    left. reflexivity.
  - apply (proj2 (public_hoist_pattern_diff sim_descriptor [sim_root; sim_sub]
                    (sim_validate_opts true (Some ["*"]) (Some ["*"]) None (Some ["*eslint*"])
                                       (Some true) None sim_registries)
                    sim_fs eq_refl Hne) sim_root); reflexivity.
Defined.

(** The descriptor of the tree agrees with this request; the force flag
    changes nothing. *)
Lemma validateModules_accepts_matching_descriptor_witness :
  let opts :=
    sim_validate_opts true (Some ["*"]) (Some ["*"]) None None None None sim_registries in
  validateModules sim_descriptor [sim_root; sim_sub] opts sim_fs =
    (Ok {| purged := false |}, sim_fs, [EnterValidateModules]).
Proof.
  cbv zeta.
  apply (validateModules_accepts_matching_descriptor sim_descriptor [sim_root; sim_sub]).
  - reflexivity.
  - left. reflexivity.
  - intros p [<-|[<-|[]]]; vm_compute; reflexivity.
  - vm_compute. reflexivity.
Defined.

(** The root project passes, the sub-project was installed with other
    categories than the requested ones. *)
Lemma first_failing_project_decides_witness :
  let opts :=
    sim_validate_opts false (Some ["*"]) (Some ["*"]) None None None
                      (Some sim_production_only) sim_registries in
  exists e,
    outcome (check_project sim_descriptor opts sim_sub sim_fs) = Throw e /\
    validateModules sim_descriptor ([sim_root] ++ sim_sub :: []) opts sim_fs =
      (Throw e, sim_fs, [EnterValidateModules]).
Proof.
  cbv zeta.
  assert (Hfail : exists e,
            outcome (check_project sim_descriptor
                       (sim_validate_opts false (Some ["*"]) (Some ["*"]) None None None
                                          (Some sim_production_only) sim_registries)
                       sim_sub sim_fs) = Throw e)
    by (eexists; vm_compute; reflexivity).
  destruct Hfail as [e Hfail]. exists e. split; [exact Hfail|].
  apply (first_failing_project_decides sim_descriptor [sim_root] sim_sub []
           (sim_validate_opts false (Some ["*"]) (Some ["*"]) None None None
                              (Some sim_production_only) sim_registries) sim_fs e).
  - reflexivity.
  - reflexivity.
  - left. reflexivity.
  - intros q [<-|[]]. vm_compute. reflexivity.
  - exact Hfail.
Defined.


(** A forced hoist pattern that differs, with the force flag: the root
    project is purged first. *)
Lemma hoist_pattern_diff_with_force_witness :
  let opts :=
    sim_validate_opts true (Some ["*"]) None (Some true) None None None sim_registries in
  let run := validateModules sim_descriptor [sim_root; sim_sub] opts sim_fs in
  let purge :=
    purgeModulesDirsOfImporter "/w/node_modules/.pnpm" (importer_of sim_root) sim_fs in
  (exists rest, events run = EnterValidateModules :: events purge ++ rest) /\
  (forall r, outcome run = Ok r -> purged r = true).
Proof.
  cbv zeta.
  destruct (hoist_pattern_diff_with_force sim_descriptor [sim_root; sim_sub]
              (sim_validate_opts true (Some ["*"]) None (Some true) None None None
                                 sim_registries)
              sim_fs sim_root ltac:(intros Hx; discriminate Hx) eq_refl eq_refl eq_refl eq_refl)
    as (Hevents & _ & Hpurged).
  split; [exact Hevents | exact Hpurged].
Defined.

(** A forced validation fails when a modules directory cannot be listed,
    and with the error of the listing. *)
Lemma forced_validation_fails_only_on_io_witness :
  let opts :=
    sim_validate_opts true (Some ["*"]) (Some ["*"]) None None None
                      (Some sim_production_only) sim_registries in
  exists e',
    outcome (validateModules sim_descriptor [sim_root; sim_locked] opts sim_fs) =
      Throw (FsError e').
Proof.
  cbv zeta.
  assert (Hrun : exists e,
            outcome (validateModules sim_descriptor [sim_root; sim_locked]
                       (sim_validate_opts true (Some ["*"]) (Some ["*"]) None None None
                                          (Some sim_production_only) sim_registries)
                       sim_fs) = Throw e)
    by (eexists; vm_compute; reflexivity).
  destruct Hrun as [e Hrun].
  destruct (forced_validation_fails_only_on_io sim_descriptor [sim_root; sim_locked]
              (sim_validate_opts true (Some ["*"]) (Some ["*"]) None None None
                                 (Some sim_production_only) sim_registries)
              sim_fs e eq_refl (or_introl eq_refl) Hrun) as [e' ->].
  exists e'. exact Hrun.
Defined.

(** The package [lodash] of the root modules directory is removed. *)
Lemma purge_removes_managed_entries_witness :
  In (CallRimraf (path_join "/w/node_modules" "lodash"))
     (events (removeContentsOfDir "/w/node_modules" "/w/node_modules/.pnpm" sim_fs)).
Proof.
  assert (Hread : fs_readdir "/w/node_modules" sim_fs =
                    Ok [".modules.yaml"; ".bin"; ".pnpm"; ".cache"; "lodash"])
    by (vm_compute; reflexivity).
  assert (Hrun : outcome (removeContentsOfDir "/w/node_modules" "/w/node_modules/.pnpm" sim_fs)
                 = Ok tt)
    by (vm_compute; reflexivity).
  apply (purge_removes_managed_entries "/w/node_modules" "/w/node_modules/.pnpm" sim_fs
           [".modules.yaml"; ".bin"; ".pnpm"; ".cache"; "lodash"] "lodash" Hread Hrun).
  - do 4 right. left. reflexivity.
  - right. right. left. reflexivity.
Defined.

(** The tree records the hoist pattern [["*"]]; another one is requested,
    and the recorded one is the one of the context. *)
Lemma context_prefers_recorded_patterns_witness :
  exists ctx,
    outcome (getContext (sim_context_opts (Some ["eslint-*"])) sim_fs) = Ok ctx /\
    ctx_hoistPattern ctx = Some ["*"] /\
    exists ic fs',
      readProjectsContext _ (o_allProjects (sim_context_opts (Some ["eslint-*"]))) "/w"
        (Some "node_modules") fs' = Ok ic /\
      ctx_hoistPattern ctx =
        match ic_currentHoistPattern ic with
        | Some recorded => Some recorded
        | None => Some ["eslint-*"]
        end.
Proof.
  eexists. split; [vm_compute; reflexivity|]. split; [reflexivity|].
  match goal with
  | |- exists ic fs', _ /\ ctx_hoistPattern ?ctx = _ =>
      assert (Hrun : outcome (getContext (sim_context_opts (Some ["eslint-*"])) sim_fs) = Ok ctx)
        by (vm_compute; reflexivity)
  end.
  destruct (context_prefers_recorded_patterns _ _ _ Hrun) as (ic & fs' & Hread & Hhoist & _).
  exists ic, fs'. split; [exact Hread | exact Hhoist].
Defined.

(** The registry recorded for the default scope overrides the requested
    one. *)
Lemma context_registries_lookup_witness :
  exists ctx,
    outcome (getContext (sim_forced_context_opts sim_registries) sim_fs) = Ok ctx /\
    exists ic fs',
      readProjectsContext _ (o_allProjects (sim_forced_context_opts sim_registries)) "/w"
        (Some "node_modules") fs' = Ok ic /\
      forall scope : string,
        ctx_registries ctx !! scope =
        match ic_registries ic with
        | Some recorded =>
            match recorded !! scope with
            | Some url => Some url
            | None => sim_registries !! scope
            end
        | None => sim_registries !! scope
        end.
Proof.
  assert (Hrun : exists ctx,
            outcome (getContext (sim_forced_context_opts sim_registries) sim_fs) = Ok ctx)
    by (eexists; vm_compute; reflexivity).
  destruct Hrun as [ctx Hrun]. exists ctx. split; [exact Hrun|].
  exact (context_registries_lookup _ _ _ Hrun).
Defined.

(** The registries differ and [forceNewModules] is set: the root modules
    directory is purged, its descriptor with it, and the context is built
    from the state read after the purge. *)
Lemma context_after_purge_uses_fresh_state_witness :
  exists ctx,
    outcome (getContext (sim_forced_context_opts sim_other_registries) sim_fs) = Ok ctx /\
    ctx_modulesFile ctx = None.
Proof.
  assert (Hrun : exists ctx,
            outcome (getContext (sim_forced_context_opts sim_other_registries) sim_fs) = Ok ctx)
    by (eexists; vm_compute; reflexivity).
  destruct Hrun as [ctx Hrun]. exists ctx. split; [exact Hrun|].
  pose (ic0 :=
          {| ic_currentHoistPattern := Some ["*"];
             ic_currentPublicHoistPattern := None;
             ic_hoistedDependencies := tt : @HoistedDependencies sim_data;
             ic_projects := [sim_root_full];
             ic_include := {| inc_dependencies := true; inc_devDependencies := true;
                              inc_optionalDependencies := true |};
             ic_modules := Some sim_descriptor;
             ic_pendingBuilds := [];
             ic_registries := Some sim_registries;
             ic_rootModulesDir := "/w/node_modules";
             ic_skipped := ∅ |}).
  pose (V := validateModules sim_descriptor (ic_projects ic0)
               (getContext_validate_opts (sim_forced_context_opts sim_other_registries)
                  "node_modules" "/w/node_modules/.pnpm" ic0) sim_fs).
  assert (Hread : readProjectsContext _
                    (o_allProjects (sim_forced_context_opts sim_other_registries)) "/w"
                    (Some "node_modules") sim_fs = Ok ic0)
    by (vm_compute; reflexivity).
  assert (Hout : outcome V = Ok {| purged := true |}) by (vm_compute; reflexivity).
  assert (Hvalid : V = (Ok {| purged := true |}, final_fs V, events V))
    by (rewrite <- Hout; apply run_eta).
  destruct (context_after_purge_uses_fresh_state
              (sim_forced_context_opts sim_other_registries) sim_fs (final_fs V) ic0
              sim_descriptor {| purged := true |} (events V) ctx
              Hread eq_refl Hvalid eq_refl Hrun) as (ic & Hread' & Hfile & _).
  rewrite Hfile. vm_compute in Hread'. injection Hread' as <-. reflexivity.
Defined.

(** The recorded pattern [["*"]] is in effect, so the node path is set. *)
Lemma context_extraNodePaths_follow_effective_pattern_witness :
  exists ctx,
    outcome (getContext (sim_context_opts None) sim_fs) = Ok ctx /\
    ctx_extraNodePaths ctx = [path_join (ctx_virtualStoreDir ctx) "node_modules"].
Proof.
  eexists. split; [vm_compute; reflexivity|].
  match goal with
  | |- ctx_extraNodePaths ?ctx = _ =>
      assert (Hrun : outcome (getContext (sim_context_opts None) sim_fs) = Ok ctx)
        by (vm_compute; reflexivity)
  end.
  pose proof (context_extraNodePaths_follow_effective_pattern _ _ _ Hrun) as Hpaths.
  cbv zeta in Hpaths. destruct Hpaths as [Hpaths _].
  apply Hpaths. split; [left; reflexivity|]. split; [reflexivity|].
  exists ["*"]. split; [reflexivity | discriminate].
Defined.

Lemma getContext_without_force_leaves_modules_alone_witness :
  o_forceNewModules (sim_context_opts (Some ["eslint-*"])) <> Some true /\
  Forall (fun ev => touches_modules ev = false)
         (events (getContext (sim_context_opts (Some ["eslint-*"])) sim_fs)).
Proof.
  assert (Hforce : o_forceNewModules (sim_context_opts (Some ["eslint-*"])) <> Some true)
    by (intros Hx; discriminate Hx).
  split; [exact Hforce|].
  exact (getContext_without_force_leaves_modules_alone _ sim_fs Hforce).
Defined.

Lemma single_importer_without_force_leaves_modules_alone_witness :
  Forall (fun ev => touches_modules ev = false /\
                    ev <> EnterGetContextForSingleImporter true)
         (events (getContextForSingleImporter 2 sim_manifest
                    (sim_single_opts None sim_other_registries) false sim_fs)).
Proof.
  apply single_importer_without_force_leaves_modules_alone.
  intros Hx. discriminate Hx.
Defined.

(** A tree without a descriptor: nothing to validate, even with
    [forceNewModules] set. *)
Lemma getContext_without_descriptor_witness :
  let run := getContext (sim_forced_context_opts sim_other_registries) sim_fresh_fs in
  List.filter is_control (events run) = [CallReadProjectsContext "/w" (Some "node_modules")] /\
  Forall (fun ev => touches_modules ev = false) (events run).
Proof.
  cbv zeta.
  pose proof (getContext_without_descriptor
                (sim_forced_context_opts sim_other_registries) sim_fresh_fs) as Hnone.
  cbv zeta in Hnone.
  edestruct Hnone as (_ & Hcontrol & Hquiet); [vm_compute; reflexivity | reflexivity |].
  split; [exact Hcontrol | exact Hquiet].
Defined.

(** The hook is called for [/w], then for [/w/a]. *)
Lemma hook_loop_keeps_original_manifests_witness :
  events (apply_hook sim_hook [sim_root_full; sim_sub_full] sim_fs) =
    map (fun p => CallReadPackageHook (Some (p_rootDir p))) [sim_root_full; sim_sub_full].
Proof.
  assert (Hrun : exists projects' fs' t,
            apply_hook sim_hook [sim_root_full; sim_sub_full] sim_fs = (Ok projects', fs', t))
    by (do 3 eexists; vm_compute; reflexivity).
  destruct Hrun as (projects' & fs' & t & Hrun).
  destruct (hook_loop_keeps_original_manifests _ _ _ _ _ _ Hrun) as [Ht _].
  rewrite Hrun. exact Ht.
Defined.

Lemma projects_by_rootDir_lookup_witness :
  projects_by_rootDir [sim_root_full; sim_sub_full] !! "/w" = Some sim_root_full.
Proof.
  apply (proj2 (projects_by_rootDir_lookup [sim_root_full; sim_sub_full])
           [] sim_root_full [sim_sub_full] eq_refl).
  constructor; [intros Hx; discriminate Hx | constructor].
Defined.

Lemma context_directories_witness :
  exists ctx,
    outcome (getContext (sim_context_opts None) sim_fs) = Ok ctx /\
    ctx_virtualStoreDir ctx = pathAbsolute (path_join "node_modules" ".pnpm") "/w" /\
    ctx_hoistedModulesDir ctx = path_join (ctx_virtualStoreDir ctx) "node_modules" /\
    In (CallMkdir "/store") (events (getContext (sim_context_opts None) sim_fs)).
Proof.
  assert (Hrun : exists ctx, outcome (getContext (sim_context_opts None) sim_fs) = Ok ctx)
    by (eexists; vm_compute; reflexivity).
  destruct Hrun as [ctx Hrun]. exists ctx. split; [exact Hrun|].
  exact (context_directories _ _ _ Hrun).
Defined.

Lemma single_context_describes_first_project_witness :
  exists ctx,
    outcome (getContextForSingleImporter 1 sim_manifest
               (sim_single_opts None sim_registries) false sim_fs) = Ok (Some ctx) /\
    sctx_prefix ctx = "/w" /\
    sctx_virtualStoreDir ctx = pathAbsolute "node_modules/.pnpm" "/w".
Proof.
  assert (Hrun : exists ctx,
            outcome (getContextForSingleImporter 1 sim_manifest
                       (sim_single_opts None sim_registries) false sim_fs) = Ok (Some ctx))
    by (eexists; vm_compute; reflexivity).
  destruct Hrun as [ctx Hrun]. exists ctx. split; [exact Hrun|].
  destruct (single_context_describes_first_project _ _ _ _ _ _ Hrun)
    as (ic & fs' & importer & _ & _ & _ & _ & Hprefix & Hstore & _).
  split; [exact Hprefix | exact Hstore].
Defined.

End FurtherExamples.
